(** * kafka/conn.py: broker connection, framing and host list parsing

    A shallow embedding of [kafka/conn.py].  The module runs on Python 2 and
    on Python 3 (it branches on [six.PY3] itself), so every definition whose
    behaviour depends on the interpreter takes the flag [py3].

    Conventions.
    - Python text is an ASCII [string]; socket data is a [list byte].
    - A call ends in [Return v], in [Raise e], or it never comes back
      ([Hang]): it waits on a socket for which the environment has scripted
      no further event.
    - Stateful code is a function from the state (the connection object and
      the network) to an outcome and the state left behind, also when the
      outcome is an exception. *)

From stdpp Require Import gmap strings list fin_maps.
From Stdlib Require Import ZArith Lia Ascii Decimal DecimalString.
From Stdlib Require String.
From Stdlib.Strings Require Import Byte.

Open Scope string_scope.
Open Scope list_scope.

(** ** Exceptions and outcomes *)

Inductive exn :=
| SocketError                (* socket.error (timeout, reset, ...) *)
| SSLError                   (* ssl.SSLError, a subclass of socket.error *)
| ConnectionError            (* kafka.common.ConnectionError *)
| ValueError
| KeyError (key : string)
| AttributeError
| TypeError
| StructError                (* struct.error *)
| SystemExit (code : Z).

Inductive outcome (A : Type) :=
| Return (a : A)
| Raise (e : exn)
| Hang.
Arguments Return {A} a.
Arguments Raise {A} e.
Arguments Hang {A}.

(** [except socket.error] also catches [ssl.SSLError]. *)
Definition is_socket_error (e : exn) : bool :=
  match e with
  | SocketError | SSLError => true
  | _ => false
  end.

Definition is_ssl_error (e : exn) : bool :=
  match e with
  | SSLError => true
  | _ => false
  end.

(** ** Python string primitives used by [collect_hosts] *)

Module PyStr.

Definition code (c : ascii) : nat := nat_of_ascii c.

(** Whitespace removed by [str.strip()]: Python 2 byte strings use the C
    locale ([\t\n\v\f\r] and space); Python 3 text also counts the
    separators 0x1c..0x1f. *)
Definition is_space (py3 : bool) (c : ascii) : bool :=
  let n := code c in
  (Nat.leb 9 n && Nat.leb n 13) || Nat.eqb n 32
  || (py3 && Nat.leb 28 n && Nat.leb n 31).

(** Whitespace skipped by [int()] around a literal, on both interpreters. *)
Definition is_int_space (c : ascii) : bool := is_space false c.

Fixpoint lstrip_by (sp : ascii -> bool) (s : string) : string :=
  match s with
  | EmptyString => EmptyString
  | String c s' => if sp c then lstrip_by sp s' else s
  end.

Fixpoint rstrip_by (sp : ascii -> bool) (s : string) : string :=
  match s with
  | EmptyString => EmptyString
  | String c s' =>
      match rstrip_by sp s' with
      | EmptyString => if sp c then EmptyString else String c EmptyString
      | r => String c r
      end
  end.

Definition strip_by (sp : ascii -> bool) (s : string) : string :=
  rstrip_by sp (lstrip_by sp s).

(** [s.strip()] *)
Definition strip (py3 : bool) (s : string) : string :=
  strip_by (is_space py3) s.

(** [s.split(sep)] for a one character separator: never empty, empty
    fields are kept. *)
Fixpoint split (sep : ascii) (s : string) : list string :=
  match s with
  | EmptyString => [EmptyString]
  | String c s' =>
      if Ascii.eqb c sep then EmptyString :: split sep s'
      else match split sep s' with
           | f :: fs => String c f :: fs
           | [] => [String c EmptyString]
           end
  end.

Definition digit_val (c : ascii) : option Z :=
  let n := code c in
  if Nat.leb 48 n && Nat.leb n 57 then Some (Z.of_nat (n - 48)) else None.

(** Digits of a decimal literal.  Python 3 accepts one underscore between
    two digits; [prev] tells whether the previous character was a digit. *)
Fixpoint digits (py3 : bool) (acc : Z) (prev : bool) (s : string) : option Z :=
  match s with
  | EmptyString => if prev then Some acc else None
  | String c s' =>
      match digit_val c with
      | Some d => digits py3 (10 * acc + d)%Z true s'
      | None =>
          if py3 && prev && Ascii.eqb c "_"%char
          then digits py3 acc false s'
          else None
      end
  end.

(** The number of digits in a literal; underscores do not count. *)
Fixpoint digit_count (s : string) : nat :=
  match s with
  | EmptyString => 0
  | String c s' =>
      match digit_val c with
      | Some _ => S (digit_count s')
      | None => digit_count s'
      end
  end.

(** [sys.int_info.default_max_str_digits]: CPython 3.11 and later (and the
    security releases of 3.7 to 3.10) refuse to convert a decimal literal of
    more digits; leading zeros count. *)
Definition MAX_STR_DIGITS : nat := 4300.

(** The literal once the sign is read.  Python 2 skips blanks once more
    after the sign ([int('- 1')] is [-1]) and has no limit on the length;
    Python 3 does neither. *)
Definition magnitude (py3 : bool) (r : string) : option Z :=
  if py3 then
    if Nat.ltb MAX_STR_DIGITS (digit_count r) then None
    else digits true 0 false r
  else digits false 0 false (lstrip_by is_int_space r).

(** [int(s)]: [None] stands for the [ValueError] of an invalid literal. *)
Definition int (py3 : bool) (s : string) : option Z :=
  match strip_by is_int_space s with
  | String "+" r => magnitude py3 r
  | String "-" r => Z.opp <$> magnitude py3 r
  | r => magnitude py3 r
  end.

Definition upper_char (c : ascii) : ascii :=
  let n := code c in
  if Nat.leb 97 n && Nat.leb n 122 then ascii_of_nat (n - 32) else c.

(** [s.upper()] *)
Fixpoint upper (s : string) : string :=
  match s with
  | EmptyString => EmptyString
  | String c s' => String (upper_char c) (upper s')
  end.

Fixpoint contains (c : ascii) (s : string) : bool :=
  match s with
  | EmptyString => false
  | String d s' => Ascii.eqb d c || contains c s'
  end.

Definition head (s : string) : option ascii :=
  match s with
  | EmptyString => None
  | String c _ => Some c
  end.

Fixpoint last (s : string) : option ascii :=
  match s with
  | EmptyString => None
  | String c EmptyString => Some c
  | String _ s' => last s'
  end.

End PyStr.

(** ** [random.shuffle] *)

(** [x[i], x[j] = x[j], x[i]] *)
Definition swap {A} (i j : nat) (x : list A) : list A :=
  match x !! i, x !! j with
  | Some a, Some b => <[i:=b]> (<[j:=a]> x)
  | _, _ => x
  end.

(** The loop of [random.shuffle]: for [i] from [len(x) - 1] down to [1],
    draw [j] in [0..i] and swap.  The draws come from [rng]; a missing draw
    counts as [0]. *)
Fixpoint shuffle_from {A} (i : nat) (rng : list nat) (x : list A) : list A :=
  match i with
  | O => x
  | S i' =>
      let j := (hd 0 rng) mod (S i) in
      shuffle_from i' (tl rng) (swap i j x)
  end.

Definition shuffle {A} (rng : list nat) (x : list A) : list A :=
  shuffle_from (length x - 1) rng x.

(** ** [collect_hosts] *)

Definition DEFAULT_SOCKET_TIMEOUT_SECONDS : Z := 120.
Definition DEFAULT_KAFKA_PORT : Z := 9092.

(** The argument [hosts]: one comma separated string, or a sequence of
    [host[:port]] strings. *)
Inductive hosts_arg :=
| HostsStr (s : string)
| HostsSeq (l : list string).

(** One turn of the loop body: the pair appended to [result]. *)
Definition host_port_pair (py3 : bool) (host_port : string)
  : outcome (string * Z) :=
  let res := PyStr.split ":" host_port in
  let host := hd EmptyString res in
  match res with
  | _ :: p :: _ =>
      match PyStr.int py3 p with
      | Some port => Return (PyStr.strip py3 host, port)
      | None => Raise ValueError
      end
  | _ => Return (PyStr.strip py3 host, DEFAULT_KAFKA_PORT)
  end.

Fixpoint collect_loop (py3 : bool) (hosts : list string)
    (result : list (string * Z)) : outcome (list (string * Z)) :=
  match hosts with
  | [] => Return result
  | host_port :: rest =>
      match host_port_pair py3 host_port with
      | Return hp => collect_loop py3 rest (result ++ [hp])
      | Raise e => Raise e
      | Hang => Hang
      end
  end.

Definition collect_hosts (py3 : bool) (rng : list nat) (hosts : hosts_arg)
    (randomize : bool) : outcome (list (string * Z)) :=
  let hosts :=
    match hosts with
    | HostsStr s => PyStr.split "," (PyStr.strip py3 s)
    | HostsSeq l => l
    end in
  match collect_loop py3 hosts [] with
  | Return result => Return (if randomize then shuffle rng result else result)
  | other => other
  end.

(** ** Bytes and [struct] *)

Abbreviation bytes := (list byte).

Definition byte_val (b : byte) : Z := Z.of_N (Byte.to_N b).

Definition byte_of_Z (z : Z) : byte :=
  default x00 (Byte.of_N (Z.to_N (z mod 256))).

(** [struct.unpack('>i', resp)]: four bytes, most significant first, read as
    a two's complement 32 bit integer. *)
Definition unpack_be_i32 (resp : bytes) : outcome Z :=
  match resp with
  | [b0; b1; b2; b3] =>
      let u := (((byte_val b0 * 256 + byte_val b1) * 256 + byte_val b2) * 256
                + byte_val b3)%Z in
      Return (if (u <? 2 ^ 31)%Z then u else (u - 2 ^ 32)%Z)
  | _ => Raise StructError
  end.

(** [struct.pack('>i', n)], the prefix a peer writes in front of a payload. *)
Definition pack_be_i32 (n : Z) : bytes :=
  let u := (n mod 2 ^ 32)%Z in
  [byte_of_Z (u / 2 ^ 24); byte_of_Z (u / 2 ^ 16); byte_of_Z (u / 2 ^ 8);
   byte_of_Z u].

Definition frame (payload : bytes) : bytes :=
  pack_be_i32 (Z.of_nat (length payload)) ++ payload.

(** ** Values of the ssl option dict *)

Inductive pyval :=
| PNone
| PStr (s : string)
| PInt (z : Z).

(** [ssl.CERT_NONE] *)
Definition CERT_NONE : pyval := PInt 0.

(** Truth value of an option value: [None], [''] and [0] are false. *)
Definition pyval_truthy (v : pyval) : bool :=
  match v with
  | PNone => false
  | PStr s => negb (String.eqb s "")
  | PInt z => negb (z =? 0)%Z
  end.

Record tls_args := TlsArgs {
  keyfile : pyval;
  certfile : pyval;
  ca_certs : pyval;
  cert_reqs : pyval;
  ciphers : option pyval          (* passed on Python 3 only *)
}.

(** The test [keyfile and not certfile] of [ssl.wrap_socket]. *)
Definition key_without_cert (args : tls_args) : bool :=
  pyval_truthy (keyfile args) && negb (pyval_truthy (certfile args)).

(** ** The network *)

(** What one [recv] call on a socket does. *)
Inductive recv_event :=
| Chunk (k : nat)                 (* hands over the next bytes, at most [S k] *)
| RecvFails.                      (* raises socket.error *)

(** What [ssl.wrap_socket] does on a socket once it has accepted its
    arguments.  An error comes either while the certificates, the key and
    the ciphers are loaded, before the socket is touched, or from the
    handshake.  On Python 3 the handshake runs on a new socket object that
    has taken over the descriptor, so a failed handshake leaves the plain
    socket [detached]: every call on it but [close] raises socket.error. *)
Inductive wrap_result :=
| WrapOk
| WrapSSLError (detached : bool)       (* ssl.SSLError *)
| WrapSocketError (detached : bool).   (* another socket.error *)

(** A socket with the behaviour of its peer.  [rx] holds the bytes the peer
    sends before it closes its side: once [rx] is used up, a [recv] returns
    the empty string. *)
Record socket := Socket {
  rx : bytes;
  recvs : list recv_event;        (* the coming recv calls *)
  sends : list bool;              (* the coming sendall calls; false raises *)
  shutdown_ok : bool;             (* false: shutdown raises socket.error *)
  handshake : wrap_result;        (* what ssl.wrap_socket does on it *)
  tls : option tls_args           (* set once wrapped *)
}.

(** A socket object that has lost its descriptor: [recv], [sendall] and
    [shutdown] raise socket.error.  The methods drop a socket at its first
    socket.error, so one refusal of each kind is all that is ever asked of
    it. *)
Definition detach (s : socket) : socket :=
  Socket [] [RecvFails] [false] false (handshake s) (tls s).

Inductive dial_result :=
| DialOk (s : socket)
| DialFails.

Inductive event :=
| EvConnect (host : string) (port : Z) (timeout : option Z) (ok : bool)
| EvRecv (bufsize : Z) (data : bytes)
| EvRecvError
| EvSendall (payload : bytes) (ok : bool)
| EvShutdown (ok : bool)
| EvClose
| EvWrap (args : tls_args) (r : wrap_result).

(** [dials] scripts the coming [socket.create_connection] calls, [trace]
    records the calls that reached a socket so far, oldest first.  A call
    that is refused for its arguments ([recv] with a negative size,
    [ssl.wrap_socket] with a key and no certificate) raises before it
    reaches the socket, and leaves no entry. *)
Record world := World {
  dials : list dial_result;
  trace : list event
}.

(** ** The connection object *)

(** An instance attribute that may be missing. *)
Inductive attr (A : Type) :=
| Unset
| Attr (a : A).
Arguments Unset {A}.
Arguments Attr {A} a.

(** [host], [port], [timeout] and [_sock] are assigned by [__init__] and by
    [copy]; [sslopts] is assigned by [__init__] only.  The class derives from
    [threading.local], so the attributes belong to the thread that assigned
    them: the record is the object as that thread sees it, and all the calls
    of a run are made by that thread. *)
Record KafkaConnection := Conn {
  host : string;
  port : Z;
  timeout : option Z;             (* None: no timeout *)
  _sock : option socket;
  sslopts : attr (option (gmap string pyval))
}.

Record state := State {
  self : KafkaConnection;
  net : world
}.

(** ** The monad of methods *)

Definition M (A : Type) : Type := state -> outcome A * state.

Definition ret {A} (a : A) : M A := fun st => (Return a, st).
Definition raise {A} (e : exn) : M A := fun st => (Raise e, st).
Definition hang {A} : M A := fun st => (Hang, st).

Definition bind {A B} (m : M A) (k : A -> M B) : M B :=
  fun st =>
    match m st with
    | (Return a, st') => k a st'
    | (Raise e, st') => (Raise e, st')
    | (Hang, st') => (Hang, st')
    end.

(** [try: body / except <caught>: handler] *)
Definition try_except {A} (body : M A) (caught : exn -> bool)
    (handler : M A) : M A :=
  fun st =>
    match body st with
    | (Raise e, st') => if caught e then handler st' else (Raise e, st')
    | r => r
    end.

Notation "x <- m ;; k" := (bind m (fun x => k))
  (at level 100, m at next level, right associativity).
Notation "m ;;; k" := (bind m (fun _ => k))
  (at level 100, right associativity).

Definition when_ (b : bool) (m : M unit) : M unit :=
  if b then m else ret tt.

Definition get_self : M KafkaConnection := fun st => (Return (self st), st).

(** The object [c] with [_sock] set to [s]. *)
Definition with_sock (c : KafkaConnection) (s : option socket)
  : KafkaConnection :=
  Conn (host c) (port c) (timeout c) s (sslopts c).

(** The network [w] after the socket calls [evs]. *)
Definition logged (w : world) (evs : list event) : world :=
  World (dials w) (trace w ++ evs).

(** [self._sock = s] *)
Definition set_sock (s : option socket) : M unit :=
  fun st => (Return tt, State (with_sock (self st) s) (net st)).

Definition log_event (e : event) : M unit :=
  fun st => (Return tt, State (self st) (logged (net st) [e])).

(** Reading [self.sslopts]. *)
Definition get_sslopts : M (option (gmap string pyval)) :=
  c <- get_self ;;
  match sslopts c with
  | Attr o => ret o
  | Unset => raise AttributeError
  end.

(** The socket behind [self._sock.<method>]; [None] has no methods. *)
Definition the_sock : M socket :=
  c <- get_self ;;
  match _sock c with
  | Some s => ret s
  | None => raise AttributeError
  end.

Definition lift {A} (o : outcome A) : M A := fun st => (o, st).

(** Truth value of [self._sock]: a socket object is true, [None] is false. *)
Definition truthy {A} (o : option A) : bool :=
  match o with
  | Some _ => true
  | None => false
  end.

(** ** Socket library calls *)

(** [socket.create_connection((host, port), timeout)] *)
Definition create_connection (h : string) (p : Z) (t : option Z) : M socket :=
  fun st =>
    match dials (net st) with
    | [] => (Hang, st)
    | DialOk s :: ds =>
        (Return s,
         State (self st) (World ds (trace (net st) ++ [EvConnect h p t true])))
    | DialFails :: ds =>
        (Raise SocketError,
         State (self st) (World ds (trace (net st) ++ [EvConnect h p t false])))
    end.

(** [self._sock.recv(bufsize)]: a negative [bufsize] is refused with
    [ValueError] before anything is read. *)
Definition sock_recv (bufsize : Z) : M bytes :=
  s <- the_sock ;;
  if (bufsize <? 0)%Z then raise ValueError
  else
    match recvs s with
    | [] => hang
    | RecvFails :: evs =>
        set_sock (Some (Socket (rx s) evs (sends s) (shutdown_ok s)
                               (handshake s) (tls s))) ;;;
        log_event EvRecvError ;;;
        raise SocketError
    | Chunk k :: evs =>
        let n := Nat.min (Z.to_nat bufsize) (S k) in
        let data := take n (rx s) in
        set_sock (Some (Socket (drop n (rx s)) evs (sends s) (shutdown_ok s)
                               (handshake s) (tls s))) ;;;
        log_event (EvRecv bufsize data) ;;;
        ret data
    end.

(** [self._sock.sendall(payload)] *)
Definition sock_sendall (payload : bytes) : M unit :=
  s <- the_sock ;;
  match sends s with
  | [] => hang
  | ok :: evs =>
      set_sock (Some (Socket (rx s) (recvs s) evs (shutdown_ok s)
                             (handshake s) (tls s))) ;;;
      log_event (EvSendall payload ok) ;;;
      if ok then ret tt else raise SocketError
  end.

(** [self._sock.shutdown(socket.SHUT_RDWR)] *)
Definition sock_shutdown : M unit :=
  s <- the_sock ;;
  log_event (EvShutdown (shutdown_ok s)) ;;;
  if shutdown_ok s then ret tt else raise SocketError.

(** [self._sock.close()]: "Closing the socket should always succeed". *)
Definition sock_close : M unit :=
  _ <- the_sock ;;
  log_event EvClose.

(** [ssl.wrap_socket(self._sock, ..., server_side=False, ...)].  The
    arguments are checked first: [if keyfile and not certfile: raise
    ValueError("certfile must be specified")].  What follows is up to the
    files and to the peer, and is read off the socket's [handshake] field;
    a failure that has detached the plain socket leaves the object that
    [self._sock] names dead.  The settings are taken to be [None] or text
    (see [accepted]): the type errors of the call are not followed. *)
Definition ssl_wrap_socket (args : tls_args) : M socket :=
  s <- the_sock ;;
  if key_without_cert args then raise ValueError
  else
    log_event (EvWrap args (handshake s)) ;;;
    match handshake s with
    | WrapOk =>
        ret (Socket (rx s) (recvs s) (sends s) (shutdown_ok s) (handshake s)
                    (Some args))
    | WrapSSLError detached =>
        when_ detached (set_sock (Some (detach s))) ;;;
        raise SSLError
    | WrapSocketError detached =>
        when_ detached (set_sock (Some (detach s))) ;;;
        raise SocketError
    end.

(** ** Dict helpers *)

Definition has_key (k : string) (d : gmap string pyval) : bool :=
  truthy (d !! k).

(** [d[k]] *)
Definition getitem (d : gmap string pyval) (k : string) : M pyval :=
  match d !! k with
  | Some v => ret v
  | None => raise (KeyError k)
  end.

(** [d[k] if k in d else None], the pattern of the optional settings. *)
Definition lookup_or_none (d : gmap string pyval) (k : string) : pyval :=
  if has_key k d then default PNone (d !! k) else PNone.

(** Truth value of a dict: false when empty. *)
Definition dict_truthy (d : gmap string pyval) : bool :=
  negb (bool_decide (map_to_list d = [])).

(** [v.upper()] *)
Definition str_upper (v : pyval) : M string :=
  match v with
  | PStr s => ret (PyStr.upper s)
  | _ => raise AttributeError
  end.

(** ** Methods of [KafkaConnection] *)

Section Methods.

(** [six.PY3] *)
Context (py3 : bool).

Definition __getnewargs__ (c : KafkaConnection) : string * Z * option Z :=
  (host c, port c, timeout c).

Definition close : M unit :=
  c <- get_self ;;
  if truthy (_sock c) then
    try_except sock_shutdown is_socket_error (ret tt) ;;;
    sock_close ;;;
    set_sock None
  else ret tt.

Definition _raise_connection_error {A} : M A :=
  c <- get_self ;;
  when_ (truthy (_sock c)) close ;;;
  raise ConnectionError.

Definition supported : list string :=
  ["security.protocol"; "keyfile"; "certfile"; "cert_reqs"; "ca_certs"]
  ++ (if py3 then ["ciphers"] else []).

Definition is_supported (key : string) : bool :=
  existsb (String.eqb key) supported.

(** The loop [for key in self.sslopts]: [sys.exit(1)] at the first key
    that is not supported. *)
Fixpoint check_keys (keys : list string) : M unit :=
  match keys with
  | [] => ret tt
  | key :: rest =>
      if is_supported key then check_keys rest
      else raise (SystemExit 1)
  end.

Definition ssl_wrapper : M unit :=
  o <- get_sslopts ;;
  match o with
  | None => raise TypeError
  | Some opts =>
      check_keys (map_to_list opts).*1 ;;;
      let keyfile := lookup_or_none opts "keyfile" in
      let certfile := lookup_or_none opts "certfile" in
      cert_reqs <- (if has_key "cert_reqs" opts
                    then getitem opts "ca_reqs"
                    else ret CERT_NONE) ;;
      let ca_certs := lookup_or_none opts "ca_certs" in
      let ciphers :=
        if py3 then Some (lookup_or_none opts "ciphers") else None in
      try_except
        (s <- ssl_wrap_socket
                (TlsArgs keyfile certfile ca_certs cert_reqs ciphers) ;;
         set_sock (Some s))
        is_ssl_error
        (ret tt)
  end.

Definition reinit : M unit :=
  c <- get_self ;;
  when_ (truthy (_sock c)) close ;;;
  try_except
    (s <- create_connection (host c) (port c) (timeout c) ;;
     set_sock (Some s) ;;;
     o <- get_sslopts ;;
     match o with
     | Some opts =>
         if dict_truthy opts && has_key "security.protocol" opts then
           v <- getitem opts "security.protocol" ;;
           u <- str_upper v ;;
           if String.eqb u "SSL" then ssl_wrapper else ret tt
         else ret tt
     | None => ret tt
     end)
    is_socket_error
    _raise_connection_error.

(** [KafkaConnection(host, port, sslopts, timeout)] on the network [w]. *)
Definition __init__ (h : string) (p : Z)
    (opts : option (gmap string pyval)) (t : option Z) (w : world)
  : outcome unit * state :=
  reinit (State (Conn h p t None (Attr opts)) w).

(** [data == '']: on Python 2 [data] is a [str]; on Python 3 it is a
    [bytes] object, which never equals the text ['']. *)
Definition is_empty_str (data : bytes) : bool :=
  negb py3 && bool_decide (data = []).

(** The loop [while bytes_left:].  Every turn that does not raise takes one
    event of the socket's script, so [fuel] is set to one more than the
    script's length by [_read_bytes] and is never the reason to stop (see
    [read_loop_fuel]). *)
Fixpoint read_loop (fuel : nat) (bytes_left : Z) (responses : list bytes)
  : M (list bytes) :=
  if (bytes_left =? 0)%Z then ret responses
  else
    match fuel with
    | O => hang
    | S fuel' =>
        data <- try_except
                  (data <- sock_recv (Z.min bytes_left 4096) ;;
                   if is_empty_str data then raise SocketError
                   else ret data)
                  is_socket_error
                  _raise_connection_error ;;
        read_loop fuel' (bytes_left - Z.of_nat (length data))%Z
                  (responses ++ [data])
    end.

Definition _read_bytes (num_bytes : Z) : M bytes :=
  c <- get_self ;;
  when_ (negb (truthy (_sock c))) reinit ;;;
  c <- get_self ;;
  responses <- read_loop (S (length (from_option recvs [] (_sock c))))
                         num_bytes [] ;;
  ret (concat responses).

Definition send (request_id : Z) (payload : bytes) : M unit :=
  c <- get_self ;;
  when_ (negb (truthy (_sock c))) reinit ;;;
  try_except (sock_sendall payload) is_socket_error _raise_connection_error.

Definition recv (request_id : Z) : M bytes :=
  resp <- _read_bytes 4 ;;
  size <- lift (unpack_be_i32 resp) ;;
  _read_bytes size.

(** [copy.deepcopy(self)] rebuilds the object from [__getnewargs__] and the
    instance state.  Python 2 finds the thread local attributes and copies
    them all; on Python 3 "custom attributes of the threadlocal subclass"
    are not copied, and the copy starts without any.  This is the value of
    [sslopts] on the copy, the one attribute [copy] does not assign. *)
Definition deepcopy_sslopts (c : KafkaConnection)
  : attr (option (gmap string pyval)) :=
  if py3 then Unset else sslopts c.

Definition copy : M KafkaConnection :=
  me <- get_self ;;
  ret (Conn (host me) (port me) (timeout me) None (deepcopy_sslopts me)).

End Methods.

(** ** The public operations as one type *)

Inductive op :=
| OpReinit
| OpSend (request_id : Z) (payload : bytes)
| OpRecv (request_id : Z)
| OpClose.

Definition forget {A} (o : outcome A) : outcome unit :=
  match o with
  | Return _ => Return tt
  | Raise e => Raise e
  | Hang => Hang
  end.

(** Runs one operation; the value returned by [recv] is dropped. *)
Definition exec (py3 : bool) (o : op) (st : state) : outcome unit * state :=
  match o with
  | OpReinit => reinit py3 st
  | OpSend request_id payload => send py3 request_id payload st
  | OpRecv request_id =>
      let r := recv py3 request_id st in (forget r.1, r.2)
  | OpClose => close st
  end.

(** ** Reading a trace *)

Definition is_connect (e : event) : bool :=
  match e with
  | EvConnect _ _ _ true => true
  | _ => false
  end.

Definition is_close (e : event) : bool :=
  match e with
  | EvClose => true
  | _ => false
  end.

(** Reads, writes and handshakes: the socket calls that move data. *)
Definition is_transfer (e : event) : bool :=
  match e with
  | EvRecv _ _ | EvRecvError | EvSendall _ _ | EvWrap _ _ => true
  | _ => false
  end.

Fixpoint count (f : event -> bool) (tr : list event) : nat :=
  match tr with
  | [] => 0
  | e :: tr' => (if f e then 1 else 0) + count f tr'
  end.

(** Successful dials and closes so far. *)
Definition connects (st : state) : nat := count is_connect (trace (net st)).
Definition closes (st : state) : nat := count is_close (trace (net st)).

(** Sockets opened and not yet closed, according to the trace. *)
Definition open_handles (st : state) : Z :=
  (Z.of_nat (connects st) - Z.of_nat (closes st))%Z.

(** 1 when the object holds a socket, 0 otherwise. *)
Definition live (st : state) : Z :=
  if truthy (_sock (self st)) then 1%Z else 0%Z.

(** The bytes handed over by the [recv] calls of a trace, in order. *)
Fixpoint received (tr : list event) : bytes :=
  match tr with
  | [] => []
  | EvRecv _ data :: tr' => data ++ received tr'
  | _ :: tr' => received tr'
  end.

(** ** Pre- and postconditions *)

Definition hoare {A} (P : state -> Prop) (m : M A)
    (Q : outcome A -> state -> Prop) : Prop :=
  forall st, P st -> Q (m st).1 (m st).2.

(** Handles opened and not closed, minus the one the object holds, stay at
    [L]; the trace grows from [T]. *)
Definition balanced (L : Z) (T : list event) (st : state) : Prop :=
  (open_handles st - live st)%Z = L /\ T `prefix_of` trace (net st).

(** A computation is tidy when it keeps the balance and leaves no socket
    behind whenever it raises [ConnectionError]. *)
Definition tidy {A} (m : M A) : Prop :=
  forall L T,
    hoare (balanced L T) m
      (fun r st => balanced L T st
                   /\ (r = Raise ConnectionError -> _sock (self st) = None)).

(** The socket calls made by [close]. *)
Definition close_events (c : KafkaConnection) : list event :=
  match _sock c with
  | Some s => [EvShutdown (shutdown_ok s); EvClose]
  | None => []
  end.

(** What follows the dial inside the [try] of [reinit]. *)
Definition after_dial (py3 : bool) : M unit :=
  o <- get_sslopts ;;
  match o with
  | Some opts =>
      if dict_truthy opts && has_key "security.protocol" opts then
        v <- getitem opts "security.protocol" ;;
        u <- str_upper v ;;
        if String.eqb u "SSL" then ssl_wrapper py3 else ret tt
      else ret tt
  | None => ret tt
  end.

Definition dial_ok (d : dial_result) : bool :=
  match d with
  | DialOk _ => true
  | DialFails => false
  end.

(** The host part of an endpoint carries no blank at either end. *)
Definition trimmed (py3 : bool) (s : string) : Prop :=
  (forall c, PyStr.head s = Some c -> PyStr.is_space py3 c = false)
  /\ (forall c, PyStr.last s = Some c -> PyStr.is_space py3 c = false).

(** Every character of [s] passes [p]. *)
Fixpoint all_chars (p : ascii -> bool) (s : string) : bool :=
  match s with
  | EmptyString => true
  | String c s' => p c && all_chars p s'
  end.

Definition is_digit (c : ascii) : bool :=
  match PyStr.digit_val c with
  | Some _ => true
  | None => false
  end.

(** The endpoint a token stands for, for a token with no blank around its
    host: [host] alone stands for [(host, 9092)], and [host:port] for the
    host with the number that [port] is read as. *)
Inductive endpoint_of (py3 : bool) : string -> string * Z -> Prop :=
| endpoint_default h :
    PyStr.contains ":" h = false ->
    trimmed py3 h ->
    endpoint_of py3 h (h, 9092%Z)
| endpoint_port h p n :
    PyStr.contains ":" h = false ->
    PyStr.contains ":" p = false ->
    trimmed py3 h ->
    PyStr.int py3 p = Some n ->
    endpoint_of py3 (h ++ ":" ++ p)%string (h, n).

(** The tokens [collect_hosts] walks through. *)
Definition tokens (py3 : bool) (hosts : hosts_arg) : list string :=
  match hosts with
  | HostsStr s => PyStr.split "," (PyStr.strip py3 s)
  | HostsSeq l => l
  end.

(** Two tokens that can stand for each other: swapping one for the other
    in any list of tokens, of either input form, changes nothing in what
    [collect_hosts] does. *)
Definition interchangeable (py3 : bool) (tok tok' : string) : Prop :=
  forall hosts hosts' pre post rng randomize,
    tokens py3 hosts = pre ++ tok :: post ->
    tokens py3 hosts' = pre ++ tok' :: post ->
    collect_hosts py3 rng hosts randomize
    = collect_hosts py3 rng hosts' randomize.

(** The field after the first colon of a token (it ends at the next colon),
    when there is a colon. *)
Definition port_field (host_port : string) : option string :=
  match PyStr.split ":" host_port with
  | _ :: p :: _ => Some p
  | _ => None
  end.

Definition port_ok (py3 : bool) (host_port : string) : bool :=
  match port_field host_port with
  | Some p => truthy (PyStr.int py3 p)
  | None => true
  end.

(** A [recv] call that handed over at least one byte. *)
Definition is_read (e : event) : bool :=
  match e with
  | EvRecv _ (_ :: _) => true
  | _ => false
  end.

(** The script of the socket the object holds. *)
Definition script (st : state) : list recv_event :=
  from_option recvs [] (_sock (self st)).

(** The test of [reinit] for a TLS upgrade: the dict has
    ['security.protocol'] and its value, in upper case, is ['SSL']. *)
Definition selects_tls (opts : gmap string pyval) : bool :=
  match opts !! "security.protocol" with
  | Some (PStr v) => String.eqb (PyStr.upper v) "SSL"
  | _ => false
  end.

(** A socket that was just dialled: nothing read, nothing sent. *)
Definition fresh_socket (data : bytes) (evs : list recv_event) : socket :=
  Socket data evs [] true WrapOk None.

(** Every key of the dict passes the test of [check_keys]. *)
Definition keys_supported (py3 : bool) (opts : gmap string pyval) : bool :=
  forallb (is_supported py3) (map_to_list opts).*1.

(** ** Sample objects *)

(** A client that holds no socket, in front of a broker that accepts one
    connection. *)
Definition idle_client : state :=
  State (Conn "broker" 9092 (Some 120%Z) None (Attr None))
        (World [DialOk (fresh_socket [] [])] []).

(** A connected client whose peer sends two bytes; the read that follows
    fails, and so does the shutdown. *)
Definition starved_client : state :=
  State (Conn "broker" 9092 (Some 120%Z)
           (Some (Socket [x00; x00] [Chunk 7; RecvFails] [] false WrapOk None))
           (Attr None))
        (World [] [EvConnect "broker" 9092 (Some 120%Z) true]).

(** ** Relations between the state before and the state after a call *)

(** A [recv] call that asked for 1 to 4096 bytes and got no more than it
    asked for; any other socket call. *)
Definition bounded_read (e : event) : bool :=
  match e with
  | EvRecv bufsize data =>
      (0 <? bufsize)%Z && (bufsize <=? 4096)%Z
      && (Z.of_nat (length data) <=? bufsize)%Z
  | _ => true
  end.

(** [m] takes every state to one that is [R]-related to it, whatever the
    outcome. *)
Definition keeps (R : state -> state -> Prop) {A} (m : M A) : Prop :=
  forall st, R st (m st).2.

(** No dial was made. *)
Definition same_dials (st st' : state) : Prop :=
  dials (net st') = dials (net st).

(** The trace grew, by socket calls that are all [bounded_read]. *)
Definition reads_bounded (st st' : state) : Prop :=
  exists evs,
    trace (net st') = trace (net st) ++ evs
    /\ forallb bounded_read evs = true.

Definition connected (st : state) : Prop := _sock (self st) <> None.

(** Started on a connected object, [m] leaves it connected unless it raises
    [ConnectionError]. *)
Definition stays_live {A} (m : M A) : Prop :=
  forall st,
    connected st -> (m st).1 <> Raise ConnectionError -> connected (m st).2.

(** The dial script an operation leaves: [reinit] takes one dial, [send] and
    [recv] take one when the object holds no socket, [close] takes none. *)
Definition dials_left (o : op) (st : state) : list dial_result :=
  match o with
  | OpClose => dials (net st)
  | OpReinit => tl (dials (net st))
  | OpSend _ _ | OpRecv _ =>
      if truthy (_sock (self st)) then dials (net st) else tl (dials (net st))
  end.

(** A client set up for TLS, in front of a broker that accepts one
    connection; the handshake on that connection ends as [r]. *)
Definition tls_client (r : wrap_result) : state :=
  State (Conn "broker" 9093 (Some 120%Z) None
           (Attr (Some {[ "security.protocol" := PStr "SSL";
                          "ciphers" := PStr "HIGH" ]})))
        (World [DialOk (Socket [] [] [] true r None)] []).

(** A value [ssl.wrap_socket] takes as a file name or as a cipher list:
    [None], or text without a NUL character. *)
Definition is_setting (v : pyval) : bool :=
  match v with
  | PNone => true
  | PStr s => negb (PyStr.contains "000" s)
  | PInt _ => false
  end.

(** Arguments that [ssl.wrap_socket] takes as far as the network: every
    setting has a type the call accepts, and there is no key without a
    certificate. *)
Definition accepted (args : tls_args) : bool :=
  is_setting (keyfile args) && is_setting (certfile args)
  && is_setting (ca_certs args) && from_option is_setting true (ciphers args)
  && negb (key_without_cert args).

(** The arguments [ssl_wrapper] hands to [ssl.wrap_socket] when the
    options do not set ['cert_reqs']. *)
Definition wrap_args (py3 : bool) (opts : gmap string pyval) : tls_args :=
  TlsArgs (lookup_or_none opts "keyfile") (lookup_or_none opts "certfile")
          (lookup_or_none opts "ca_certs") CERT_NONE
          (if py3 then Some (lookup_or_none opts "ciphers") else None).

(** The socket [s] once wrapped with [args]. *)
Definition wrapped (s : socket) (args : tls_args) : socket :=
  Socket (rx s) (recvs s) (sends s) (shutdown_ok s) (handshake s) (Some args).

(** A connected client on a socket with the stream [data], handed over by
    the reads [evs]. *)
Definition reading_client (data : bytes) (evs : list recv_event) : state :=
  State (Conn "broker" 9092 (Some 120%Z) (Some (fresh_socket data evs))
           (Attr None))
        (World [] []).

(** A client that holds no socket; the broker accepts one connection and
    takes one write. *)
Definition ready_client : state :=
  State (Conn "broker" 9092 (Some 120%Z) None (Attr None))
        (World [DialOk (Socket [] [] [true] true WrapOk None)] []).

(** Whether a value of the option dict is a string. *)
Definition is_text (v : pyval) : bool :=
  match v with
  | PStr _ => true
  | _ => false
  end.

(** The most bytes a run of [Chunk] reads can hand over. *)
Definition capacity (ks : list nat) : nat := sum_list (map S ks).

(** * Examples *)

Example collect_hosts_ex1 :
  collect_hosts true [] (HostsStr " a : 1 ,b, c:3 ") false
  = Return [("a", 1%Z); ("b", 9092%Z); ("c", 3%Z)].
Proof. vm_compute. reflexivity. Qed.

Example collect_hosts_ex2 :
  collect_hosts true [] (HostsStr "a:b") false = Raise ValueError.
Proof. vm_compute. reflexivity. Qed.

Example shuffle_ex :
  shuffle [1; 0; 5] [10; 20; 30; 40]%Z = [30; 40; 10; 20]%Z.
Proof. vm_compute. reflexivity. Qed.

Example int_examples :
  PyStr.int true " -12 " = Some (-12)%Z
  /\ PyStr.int true "+7" = Some 7%Z
  /\ PyStr.int true "01" = Some 1%Z
  /\ PyStr.int true "1_000" = Some 1000%Z
  /\ PyStr.int false "1_000" = None
  /\ PyStr.int true "1__0" = None
  /\ PyStr.int true "_1" = None
  /\ PyStr.int true "" = None
  /\ PyStr.int true "+" = None
  /\ PyStr.int true "1 2" = None
  /\ PyStr.int true "0x10" = None
  /\ PyStr.int true "- 1" = None
  /\ PyStr.int false "- 1" = Some (-1)%Z
  /\ PyStr.int false "+ +1" = None.
Proof. repeat split; reflexivity. Qed.

Example split_examples :
  PyStr.split "," "" = [""]
  /\ PyStr.split ":" " a : 1 " = [" a "; " 1 "]
  /\ PyStr.split ":" "x:1:2" = ["x"; "1"; "2"]
  /\ PyStr.split "," "a,,b," = ["a"; ""; "b"; ""].
Proof. repeat split; reflexivity. Qed.

(** The separator 0x1c is a blank for [strip] on Python 3 only, and for
    [int] on neither. *)
Example strip_examples :
  PyStr.strip true (String (ascii_of_nat 28) " a ") = "a"
  /\ PyStr.strip false (String (ascii_of_nat 28) " a ")
     = String (ascii_of_nat 28) " a"
  /\ PyStr.int true (String (ascii_of_nat 28) "1") = None.
Proof. repeat split; reflexivity. Qed.

Example unpack_examples :
  unpack_be_i32 [xff; xff; xff; xfe] = Return (-2)%Z
  /\ unpack_be_i32 [x00; x00; x01; x00] = Return 256%Z
  /\ unpack_be_i32 [x7f; xff; xff; xff] = Return (2 ^ 31 - 1)%Z
  /\ unpack_be_i32 [x80; x00; x00; x00] = Return (- 2 ^ 31)%Z
  /\ unpack_be_i32 [x00] = Raise StructError
  /\ pack_be_i32 (-2) = [xff; xff; xff; xfe].
Proof. repeat split; reflexivity. Qed.

(** * Host list parsing *)

Section CollectHosts.

Context (py3 : bool).

Lemma split_no_sep sep s :
  PyStr.contains sep s = false -> PyStr.split sep s = [s].
Proof.
  induction s as [|c s IH]; simpl; [done|].
  intros [Hc Hs]%orb_false_elim. rewrite (IH Hs).
  rewrite Ascii.eqb_sym in Hc. by rewrite Ascii.eqb_sym, Hc.
Qed.

Lemma lstrip_head sp s c :
  PyStr.head (PyStr.lstrip_by sp s) = Some c -> sp c = false.
Proof.
  induction s as [|d s IH]; simpl; [done|].
  destruct (sp d) eqn:Hd; [done|].
  simpl. by intros [= <-].
Qed.

Lemma rstrip_head sp s c :
  PyStr.head (PyStr.rstrip_by sp s) = Some c -> PyStr.head s = Some c.
Proof.
  destruct s as [|d s]; simpl; [done|].
  destruct (PyStr.rstrip_by sp s); [destruct (sp d)|]; simpl; congruence.
Qed.

Lemma rstrip_last sp s c :
  PyStr.last (PyStr.rstrip_by sp s) = Some c -> sp c = false.
Proof.
  induction s as [|d s IH]; simpl; [done|].
  destruct (PyStr.rstrip_by sp s) as [|e r] eqn:Hr.
  - destruct (sp d) eqn:Hd; simpl; [done|]. by intros [= <-].
  - intros Hl. apply IH. exact Hl.
Qed.

Lemma strip_trimmed s : trimmed py3 (PyStr.strip py3 s).
Proof.
  split; intros c Hc.
  - apply rstrip_head in Hc. by apply lstrip_head in Hc.
  - by apply rstrip_last in Hc.
Qed.

Lemma host_port_pair_cases host_port :
  host_port_pair py3 host_port
  = match port_field host_port with
    | None =>
        Return (PyStr.strip py3 (hd EmptyString (PyStr.split ":" host_port)),
                DEFAULT_KAFKA_PORT)
    | Some p =>
        match PyStr.int py3 p with
        | Some n =>
            Return (PyStr.strip py3
                      (hd EmptyString (PyStr.split ":" host_port)), n)
        | None => Raise ValueError
        end
    end.
Proof.
  unfold host_port_pair, port_field.
  by destruct (PyStr.split ":" host_port) as [|? [|? ?]].
Qed.

Lemma host_port_pair_no_port host_port :
  PyStr.contains ":" host_port = false ->
  host_port_pair py3 host_port
  = Return (PyStr.strip py3 host_port, DEFAULT_KAFKA_PORT).
Proof.
  intros H. unfold host_port_pair. by rewrite (split_no_sep _ _ H).
Qed.

Lemma host_port_pair_trimmed host_port h p :
  host_port_pair py3 host_port = Return (h, p) -> trimmed py3 h.
Proof.
  rewrite host_port_pair_cases.
  destruct (port_field host_port) as [f|]; [destruct (PyStr.int py3 f)|];
    intros [= <- _] || discriminate; apply strip_trimmed.
Qed.

Lemma host_port_pair_ok host_port :
  port_ok py3 host_port = true ->
  exists hp, host_port_pair py3 host_port = Return hp.
Proof.
  unfold port_ok. rewrite host_port_pair_cases.
  destruct (port_field host_port) as [f|]; [|eauto].
  destruct (PyStr.int py3 f); [eauto|done].
Qed.

Lemma host_port_pair_bad host_port :
  port_ok py3 host_port = false ->
  host_port_pair py3 host_port = Raise ValueError.
Proof.
  unfold port_ok. rewrite host_port_pair_cases.
  destruct (port_field host_port) as [f|]; [|done].
  by destruct (PyStr.int py3 f).
Qed.

(** The loop returns one pair per token when every port field is a
    literal, and raises [ValueError] otherwise. *)
Lemma collect_loop_ok hosts : forall result,
  forallb (port_ok py3) hosts = true ->
  exists more,
    collect_loop py3 hosts result = Return (result ++ more)
    /\ length more = length hosts
    /\ Forall (fun hp => trimmed py3 hp.1) more.
Proof.
  induction hosts as [|t hosts IH]; simpl; intros result Hall.
  - exists []. by rewrite app_nil_r.
  - apply andb_prop in Hall as [Ht Hall].
    destruct (host_port_pair_ok _ Ht) as [[h p] Hhp]. rewrite Hhp.
    destruct (IH (result ++ [(h, p)]) Hall) as (more & -> & Hlen & Htr).
    exists ((h, p) :: more). rewrite <- app_assoc. simpl.
    repeat split; [by rewrite Hlen|].
    constructor; [|done]. by apply (host_port_pair_trimmed _ _ _ Hhp).
Qed.

Lemma collect_loop_bad hosts : forall result,
  forallb (port_ok py3) hosts = false ->
  collect_loop py3 hosts result = Raise ValueError.
Proof.
  induction hosts as [|t hosts IH]; simpl; intros result Hall; [done|].
  destruct (port_ok py3 t) eqn:Ht; simpl in Hall.
  - destruct (host_port_pair_ok _ Ht) as [hp ->]. by apply IH.
  - by rewrite (host_port_pair_bad _ Ht).
Qed.

End CollectHosts.

Lemma swap_perm {A} (i j : nat) (x : list A) : swap i j x ≡ₚ x.
Proof.
  unfold swap. destruct (x !! i) as [a|] eqn:Hi; [|done].
  destruct (x !! j) as [b|] eqn:Hj; [|done].
  by apply Permutation_insert_swap.
Qed.

Lemma shuffle_from_perm {A} (i : nat) : forall rng (x : list A),
  shuffle_from i rng x ≡ₚ x.
Proof.
  induction i as [|i IH]; intros rng x; simpl; [done|].
  by rewrite IH, swap_perm.
Qed.

(** [random.shuffle] rearranges, it neither adds nor drops an element. *)
Lemma shuffle_perm {A} rng (x : list A) : shuffle rng x ≡ₚ x.
Proof. apply shuffle_from_perm. Qed.

(** X14. With shuffling the endpoints are those of the plain run, in some
    order: none is lost, added or changed. *)
Lemma collect_hosts_randomized py3 rng hosts result :
  collect_hosts py3 rng hosts true = Return result ->
  exists plain,
    collect_hosts py3 rng hosts false = Return plain /\ result ≡ₚ plain.
Proof.
  unfold collect_hosts.
  destruct (collect_loop py3 _ []) as [plain|e|]; [|done..].
  intros [= <-]. exists plain. split; [done|apply shuffle_perm].
Qed.


(** ** Blanks around a token *)

Lemma split_app sep a b :
  PyStr.contains sep a = false ->
  PyStr.split sep (a ++ String sep b)%string = a :: PyStr.split sep b.
Proof.
  induction a as [|c a IH]; simpl.
  - intros _. by rewrite Ascii.eqb_refl.
  - intros [Hc Ha]%orb_false_elim. rewrite Hc, (IH Ha). done.
Qed.

Lemma collect_loop_ext py3 l1 : forall l2 result,
  map (host_port_pair py3) l1 = map (host_port_pair py3) l2 ->
  collect_loop py3 l1 result = collect_loop py3 l2 result.
Proof.
  induction l1 as [|t1 l1 IH]; intros [|t2 l2] result; simpl; try done.
  intros [= Ht Hl]. rewrite Ht.
  destruct (host_port_pair py3 t2); [|done..]. by apply IH.
Qed.

Lemma app_cons_str c (a b : string) :
  (String c a ++ b)%string = String c (a ++ b).
Proof. reflexivity. Qed.

Lemma app_nil_str (b : string) : ("" ++ b)%string = b.
Proof. reflexivity. Qed.

Lemma all_chars_app p a b :
  all_chars p (a ++ b)%string = all_chars p a && all_chars p b.
Proof.
  induction a as [|c a IH]; [done|].
  rewrite app_cons_str. simpl. by rewrite IH, andb_assoc.
Qed.

Lemma contains_app c a b :
  PyStr.contains c (a ++ b)%string = PyStr.contains c a || PyStr.contains c b.
Proof.
  induction a as [|d a IH]; [done|].
  rewrite app_cons_str. simpl. by rewrite IH, orb_assoc.
Qed.

Lemma all_chars_contains p c s :
  p c = false -> all_chars p s = true -> PyStr.contains c s = false.
Proof.
  intros Hc. induction s as [|d s IH]; simpl; [done|].
  intros [Hd Hs]%andb_prop. rewrite (IH Hs), orb_false_r.
  destruct (Ascii.eqb_spec d c) as [->|]; [congruence|done].
Qed.

Lemma app_assoc_str (a b c : string) : ((a ++ b) ++ c = a ++ b ++ c)%string.
Proof.
  induction a as [|x a IH]; [done|]. rewrite !app_cons_str. by rewrite IH.
Qed.

Lemma int_space_is_space py3 c :
  PyStr.is_int_space c = true -> PyStr.is_space py3 c = true.
Proof.
  unfold PyStr.is_int_space, PyStr.is_space. rewrite andb_false_l, orb_false_r.
  by intros ->.
Qed.

Lemma all_int_space_is_space py3 s :
  all_chars PyStr.is_int_space s = true ->
  all_chars (PyStr.is_space py3) s = true.
Proof.
  induction s as [|c s IH]; simpl; [done|].
  intros [Hc Hs]%andb_prop. by rewrite (int_space_is_space _ _ Hc), IH.
Qed.

Lemma colon_not_space py3 : PyStr.is_space py3 ":" = false.
Proof. by destruct py3. Qed.

Lemma lstrip_blank sp s : all_chars sp s = true -> PyStr.lstrip_by sp s = "".
Proof.
  induction s as [|c s IH]; simpl; [done|].
  intros [Hc Hs]%andb_prop. rewrite Hc. by apply IH.
Qed.

Lemma rstrip_blank sp s : all_chars sp s = true -> PyStr.rstrip_by sp s = "".
Proof.
  induction s as [|c s IH]; simpl; [done|].
  intros [Hc Hs]%andb_prop. by rewrite (IH Hs), Hc.
Qed.

Lemma lstrip_prepend sp l s :
  all_chars sp l = true ->
  PyStr.lstrip_by sp (l ++ s) = PyStr.lstrip_by sp s.
Proof.
  induction l as [|c l IH]; [done|]. rewrite app_cons_str. simpl.
  intros [Hc Hl]%andb_prop. rewrite Hc. by apply IH.
Qed.

Lemma rstrip_append sp s r :
  all_chars sp r = true ->
  PyStr.rstrip_by sp (s ++ r) = PyStr.rstrip_by sp s.
Proof.
  intros Hr. induction s as [|c s IH].
  - by apply rstrip_blank.
  - rewrite app_cons_str. simpl. by rewrite IH.
Qed.

Lemma lstrip_append sp s r :
  PyStr.lstrip_by sp (s ++ r)
  = if all_chars sp s then PyStr.lstrip_by sp r
    else (PyStr.lstrip_by sp s ++ r)%string.
Proof.
  induction s as [|c s IH]; [done|]. rewrite app_cons_str. simpl.
  destruct (sp c); simpl; [exact IH|done].
Qed.

(** Blanks around a string do not change what [strip] leaves of it. *)
Lemma strip_by_around sp l s r :
  all_chars sp l = true -> all_chars sp r = true ->
  PyStr.strip_by sp (l ++ s ++ r) = PyStr.strip_by sp s.
Proof.
  intros Hl Hr. unfold PyStr.strip_by.
  rewrite (lstrip_prepend _ _ _ Hl), lstrip_append.
  destruct (all_chars sp s) eqn:Hs.
  - by rewrite (lstrip_blank _ _ Hr), (lstrip_blank _ _ Hs).
  - by apply rstrip_append.
Qed.

Lemma strip_by_append sp s r :
  all_chars sp r = true -> PyStr.strip_by sp (s ++ r) = PyStr.strip_by sp s.
Proof. intros Hr. by apply (strip_by_around sp "" s r). Qed.

Lemma strip_by_prepend sp l s :
  all_chars sp l = true -> PyStr.strip_by sp (l ++ s) = PyStr.strip_by sp s.
Proof.
  intros Hl. unfold PyStr.strip_by. by rewrite (lstrip_prepend _ _ _ Hl).
Qed.

Lemma rstrip_id sp s :
  (forall c, PyStr.last s = Some c -> sp c = false) ->
  PyStr.rstrip_by sp s = s.
Proof.
  induction s as [|c s IH]; [done|].
  intros Hlast. simpl. destruct s as [|d s].
  - simpl. by rewrite (Hlast c eq_refl).
  - rewrite IH; [done|]. intros e He. by apply Hlast.
Qed.

(** [strip] leaves a string with no blank at either end as it is. *)
Lemma strip_id py3 s : trimmed py3 s -> PyStr.strip py3 s = s.
Proof.
  intros [Hh Hl]. unfold PyStr.strip, PyStr.strip_by.
  assert (Hls : PyStr.lstrip_by (PyStr.is_space py3) s = s).
  { destruct s as [|c s]; [done|]. simpl. by rewrite (Hh c eq_refl). }
  rewrite Hls. by apply rstrip_id.
Qed.

Lemma int_append py3 p r :
  all_chars PyStr.is_int_space r = true ->
  PyStr.int py3 (p ++ r) = PyStr.int py3 p.
Proof. intros Hr. unfold PyStr.int. by rewrite (strip_by_append _ _ _ Hr). Qed.

(** A token either has no colon, or splits at its first colon. *)
Lemma first_colon tok :
  PyStr.contains ":" tok = false
  \/ exists h rest,
       PyStr.contains ":" h = false /\ tok = (h ++ String ":" rest)%string.
Proof.
  induction tok as [|c tok IH]; [by left|].
  destruct (Ascii.eqb_spec c ":") as [->|Hc].
  - right. by exists "", tok.
  - destruct IH as [Hno|(h & rest & Hh & ->)].
    + left. simpl. rewrite Hno, orb_false_r. by apply Ascii.eqb_neq.
    + right. exists (String c h), rest. split; [|done].
      simpl. rewrite Hh, orb_false_r. by apply Ascii.eqb_neq.
Qed.

Lemma host_port_pair_port py3 h p :
  PyStr.contains ":" h = false ->
  PyStr.contains ":" p = false ->
  host_port_pair py3 (h ++ String ":" p)
  = match PyStr.int py3 p with
    | Some n => Return (PyStr.strip py3 h, n)
    | None => Raise ValueError
    end.
Proof.
  intros Hh Hp. unfold host_port_pair.
  by rewrite (split_app ":" h p Hh), (split_no_sep ":" p Hp).
Qed.

Lemma host_port_pair_more py3 h p junk :
  PyStr.contains ":" h = false ->
  PyStr.contains ":" p = false ->
  host_port_pair py3 (h ++ String ":" (p ++ String ":" junk))
  = host_port_pair py3 (h ++ String ":" p).
Proof.
  intros Hh Hp. unfold host_port_pair.
  rewrite !(split_app ":" h) by done.
  by rewrite (split_app ":" p), (split_no_sep ":" p) by done.
Qed.

(** Blanks in front of a token, and the blanks that [int] skips behind it,
    do not change its endpoint. *)
Lemma host_port_pair_around py3 l tok r :
  all_chars (PyStr.is_space py3) l = true ->
  all_chars PyStr.is_int_space r = true ->
  host_port_pair py3 (l ++ tok ++ r) = host_port_pair py3 tok.
Proof.
  intros Hl Hr.
  pose proof (all_int_space_is_space py3 _ Hr) as Hr'.
  pose proof (all_chars_contains _ ":" _ (colon_not_space py3) Hl) as Hlc.
  pose proof (all_chars_contains _ ":" _ (colon_not_space py3) Hr') as Hrc.
  destruct (first_colon tok) as [Hno|(h & rest & Hh & ->)].
  - rewrite !(host_port_pair_no_port py3).
    + unfold PyStr.strip. by rewrite strip_by_around.
    + done.
    + by rewrite !contains_app, Hlc, Hno, Hrc.
  - assert (Hlh : PyStr.contains ":" (l ++ h) = false)
      by (by rewrite contains_app, Hlc, Hh).
    destruct (first_colon rest) as [Hp|(p & junk & Hp & ->)].
    + replace (l ++ (h ++ String ":" rest) ++ r)%string
        with ((l ++ h) ++ String ":" (rest ++ r))%string
        by (repeat (rewrite app_assoc_str || rewrite app_cons_str); done).
      rewrite !host_port_pair_port; try done.
      * rewrite (int_append _ _ _ Hr). unfold PyStr.strip.
        by rewrite (strip_by_prepend _ _ _ Hl).
      * by rewrite contains_app, Hp, Hrc.
    + replace (l ++ (h ++ String ":" (p ++ String ":" junk)) ++ r)%string
        with ((l ++ h) ++ String ":" (p ++ String ":" (junk ++ r)))%string
        by (repeat (rewrite app_assoc_str || rewrite app_cons_str); done).
      rewrite !host_port_pair_more, !host_port_pair_port; try done.
      unfold PyStr.strip. by rewrite (strip_by_prepend _ _ _ Hl).
Qed.

(** A token without a port loses every blank behind it. *)
Lemma host_port_pair_no_port_append py3 tok r :
  PyStr.contains ":" tok = false ->
  all_chars (PyStr.is_space py3) r = true ->
  host_port_pair py3 (tok ++ r) = host_port_pair py3 tok.
Proof.
  intros Hno Hr.
  pose proof (all_chars_contains _ ":" _ (colon_not_space py3) Hr) as Hrc.
  rewrite !(host_port_pair_no_port py3); [|done|by rewrite contains_app, Hno, Hrc].
  unfold PyStr.strip. by rewrite (strip_by_append _ _ _ Hr).
Qed.

Lemma host_port_pair_endpoint py3 tok hp :
  endpoint_of py3 tok hp -> host_port_pair py3 tok = Return hp.
Proof.
  intros [h Hh Htr|h p n Hh Hp Htr Hn].
  - by rewrite (host_port_pair_no_port py3 _ Hh), (strip_id _ _ Htr).
  - change (h ++ ":" ++ p)%string with (h ++ String ":" p)%string.
    by rewrite (host_port_pair_port py3 _ _ Hh Hp), Hn, (strip_id _ _ Htr).
Qed.

Lemma collect_loop_endpoints py3 toks eps :
  Forall2 (endpoint_of py3) toks eps ->
  forall result, collect_loop py3 toks result = Return (result ++ eps).
Proof.
  induction 1 as [|tok hp toks eps Hhp _ IH]; intros result; simpl.
  - by rewrite app_nil_r.
  - rewrite (host_port_pair_endpoint _ _ _ Hhp), IH. by rewrite <- app_assoc.
Qed.

Lemma collect_hosts_seq_ext py3 rng l1 l2 rnd :
  map (host_port_pair py3) l1 = map (host_port_pair py3) l2 ->
  collect_hosts py3 rng (HostsSeq l1) rnd
  = collect_hosts py3 rng (HostsSeq l2) rnd.
Proof.
  intros H. unfold collect_hosts. by rewrite (collect_loop_ext py3 l1 l2 [] H).
Qed.

Lemma collect_hosts_tokens py3 rng hosts rnd :
  collect_hosts py3 rng hosts rnd
  = collect_hosts py3 rng (HostsSeq (tokens py3 hosts)) rnd.
Proof. by destruct hosts. Qed.

Lemma is_digit_not_space c :
  is_digit c = true -> PyStr.is_int_space c = false.
Proof.
  unfold is_digit, PyStr.digit_val, PyStr.is_int_space, PyStr.is_space.
  destruct (Nat.leb_spec 48 (PyStr.code c)); simpl; [|done].
  destruct (Nat.leb_spec (PyStr.code c) 57); simpl; [|done]. intros _.
  destruct (Nat.leb_spec (PyStr.code c) 13); [lia|].
  destruct (Nat.eqb_spec (PyStr.code c) 32); [lia|].
  by rewrite andb_false_r.
Qed.

Lemma all_chars_last p s c :
  all_chars p s = true -> PyStr.last s = Some c -> p c = true.
Proof.
  induction s as [|d s IH]; [done|]. simpl.
  intros [Hd Hs]%andb_prop. destruct s as [|e s].
  - by intros [= <-].
  - by apply IH.
Qed.

Lemma strip_digits d :
  all_chars is_digit d = true -> PyStr.strip_by PyStr.is_int_space d = d.
Proof.
  intros Hd. unfold PyStr.strip_by.
  assert (Hl : PyStr.lstrip_by PyStr.is_int_space d = d).
  { destruct d as [|c d]; [done|]. simpl in *.
    apply andb_prop in Hd as [Hc _]. by rewrite (is_digit_not_space _ Hc). }
  rewrite Hl. apply rstrip_id. intros c Hc.
  apply is_digit_not_space. by apply (all_chars_last _ d).
Qed.

Lemma digit_count_digits d :
  all_chars is_digit d = true -> PyStr.digit_count d = String.length d.
Proof.
  induction d as [|c d IH]; [done|]. simpl.
  intros [Hc Hd]%andb_prop. unfold is_digit in Hc.
  destruct (PyStr.digit_val c); [|done]. by rewrite IH.
Qed.

Lemma digits_digits py3 d :
  all_chars is_digit d = true ->
  forall acc prev,
    PyStr.digits py3 acc prev d = None <-> d = "" /\ prev = false.
Proof.
  induction d as [|c d IH]; simpl; intros Hd acc prev.
  - destruct prev; split; try done. by intros [_ ?].
  - apply andb_prop in Hd as [Hc Hd]. unfold is_digit in Hc.
    destruct (PyStr.digit_val c); [|done].
    rewrite (IH Hd). split; [by intros [_ ?]|by intros [? _]].
Qed.

Lemma int_of_digits py3 d :
  all_chars is_digit d = true -> PyStr.int py3 d = PyStr.magnitude py3 d.
Proof.
  intros Hd. unfold PyStr.int. rewrite (strip_digits d Hd).
  destruct d as [|c d]; [done|].
  simpl in Hd. apply andb_prop in Hd as [Hc _].
  destruct c as [[] [] [] [] [] [] [] []]; done.
Qed.

(** [int] on a run of digits: refused when the run is empty and, on
    Python 3, when it has more than 4300 digits. *)
Lemma int_digits py3 d :
  all_chars is_digit d = true ->
  PyStr.int py3 d = None
  <-> d = "" \/ (py3 = true /\ PyStr.MAX_STR_DIGITS < String.length d).
Proof.
  intros Hd. rewrite (int_of_digits py3 d Hd).
  unfold PyStr.magnitude. destruct py3.
  - rewrite (digit_count_digits d Hd).
    destruct (Nat.ltb_spec PyStr.MAX_STR_DIGITS (String.length d)).
    + split; [by right|done].
    + rewrite (digits_digits true d Hd). split.
      * intros [-> _]. by left.
      * intros [->|[_ ?]]; [done|lia].
  - assert (Hl : PyStr.lstrip_by PyStr.is_int_space d = d).
    { destruct d as [|c d]; [done|]. simpl in *.
      apply andb_prop in Hd as [Hc _].
      by rewrite (is_digit_not_space _ Hc). }
    rewrite Hl, (digits_digits false d Hd). split.
    + intros [-> _]. by left.
    + intros [->|[? _]]; done.
Qed.

Lemma string_of_uint_digits u :
  all_chars is_digit (NilEmpty.string_of_uint u) = true.
Proof. induction u; simpl; done. Qed.

Lemma string_of_uint_length u :
  String.length (NilEmpty.string_of_uint u) = Decimal.nb_digits u.
Proof. induction u; simpl; congruence. Qed.

(** The digits of a decimal numeral are read as [Nat.of_uint] reads them. *)
Lemma digits_of_uint py3 u : forall acc prev,
  PyStr.digits py3 (Z.of_nat acc) prev (NilEmpty.string_of_uint u)
  = match u with
    | Nil => if prev then Some (Z.of_nat acc) else None
    | _ => Some (Z.of_nat (Nat.of_uint_acc u acc))
    end.
Proof.
  induction u as [|u IH|u IH|u IH|u IH|u IH|u IH|u IH|u IH|u IH|u IH];
    intros acc prev; [done|..]; simpl;
    rewrite Nat.tail_mul_spec;
    match goal with
    | |- PyStr.digits _ ?z _ _ = _ =>
        match goal with
        | |- _ = Some (Z.of_nat (Nat.of_uint_acc _ ?n)) =>
            replace z with (Z.of_nat n) by lia
        end
    end;
    rewrite IH; by destruct u.
Qed.

Lemma int_of_uint py3 u :
  u <> Nil -> Decimal.nb_digits u <= PyStr.MAX_STR_DIGITS ->
  PyStr.int py3 (NilEmpty.string_of_uint u) = Some (Z.of_nat (Nat.of_uint u)).
Proof.
  intros Hu Hlen.
  rewrite (int_of_digits py3 _ (string_of_uint_digits u)).
  unfold PyStr.magnitude.
  assert (Hd : forall b, PyStr.digits b 0 false (NilEmpty.string_of_uint u)
                         = Some (Z.of_nat (Nat.of_uint u))).
  { intros b. change 0%Z with (Z.of_nat 0). rewrite digits_of_uint.
    by destruct u. }
  destruct py3.
  - rewrite (digit_count_digits _ (string_of_uint_digits u)),
      string_of_uint_length.
    destruct (Nat.ltb_spec PyStr.MAX_STR_DIGITS (Decimal.nb_digits u)); [lia|].
    apply Hd.
  - assert (Hl : PyStr.lstrip_by PyStr.is_int_space (NilEmpty.string_of_uint u)
                 = NilEmpty.string_of_uint u).
    { pose proof (string_of_uint_digits u) as Hdig.
      destruct (NilEmpty.string_of_uint u) as [|c d]; [done|]. simpl in *.
      apply andb_prop in Hdig as [Hc _].
      by rewrite (is_digit_not_space _ Hc). }
    rewrite Hl. apply Hd.
Qed.

Lemma split_hd_tl sep s :
  PyStr.split sep s
  = hd EmptyString (PyStr.split sep s) :: tl (PyStr.split sep s).
Proof.
  destruct s as [|c s]; simpl; [done|].
  destruct (Ascii.eqb c sep); [done|]. by destruct (PyStr.split sep s).
Qed.

Lemma split_prepend sep l s :
  PyStr.contains sep l = false ->
  PyStr.split sep (l ++ s)
  = (l ++ hd EmptyString (PyStr.split sep s))%string :: tl (PyStr.split sep s).
Proof.
  induction l as [|c l IH].
  - intros _. rewrite !app_nil_str. apply split_hd_tl.
  - rewrite !app_cons_str. simpl.
    intros [Hc Hl]%orb_false_elim. by rewrite Hc, (IH Hl).
Qed.

(** Blanks around the host field do not count. *)
Lemma host_port_pair_host_blanks py3 l h r rest :
  PyStr.contains ":" h = false ->
  all_chars (PyStr.is_space py3) l = true ->
  all_chars (PyStr.is_space py3) r = true ->
  host_port_pair py3 ((l ++ h ++ r) ++ String ":" rest)
  = host_port_pair py3 (h ++ String ":" rest).
Proof.
  intros Hh Hl Hr.
  pose proof (all_chars_contains _ ":" _ (colon_not_space py3) Hl) as Hlc.
  pose proof (all_chars_contains _ ":" _ (colon_not_space py3) Hr) as Hrc.
  unfold host_port_pair.
  rewrite (split_app ":" (l ++ h ++ r))
    by (by rewrite !contains_app, Hlc, Hh, Hrc).
  rewrite (split_app ":" h) by done.
  rewrite (split_hd_tl ":" rest). simpl.
  unfold PyStr.strip. by rewrite (strip_by_around _ l h r Hl Hr).
Qed.

(** Blanks in front of the port field are skipped by [int]. *)
Lemma host_port_pair_port_blanks py3 h l rest :
  PyStr.contains ":" h = false ->
  all_chars PyStr.is_int_space l = true ->
  host_port_pair py3 (h ++ String ":" (l ++ rest))
  = host_port_pair py3 (h ++ String ":" rest).
Proof.
  intros Hh Hl.
  pose proof (all_int_space_is_space py3 _ Hl) as Hl'.
  pose proof (all_chars_contains _ ":" _ (colon_not_space py3) Hl') as Hlc.
  unfold host_port_pair.
  rewrite !(split_app ":" h) by done.
  rewrite (split_prepend ":" l rest Hlc), (split_hd_tl ":" rest). simpl.
  unfold PyStr.int. by rewrite (strip_by_prepend _ _ _ Hl).
Qed.

Lemma interchangeable_intro py3 tok tok' :
  host_port_pair py3 tok = host_port_pair py3 tok' ->
  interchangeable py3 tok tok'.
Proof.
  intros H hosts hosts' pre post rng rnd Ht Ht'.
  rewrite (collect_hosts_tokens _ _ hosts), (collect_hosts_tokens _ _ hosts').
  rewrite Ht, Ht'. apply collect_hosts_seq_ext.
  rewrite !map_app. simpl. by rewrite H.
Qed.


(** * Handles are closed on [ConnectionError] *)

Lemma count_app f tr1 tr2 : count f (tr1 ++ tr2) = count f tr1 + count f tr2.
Proof. induction tr1 as [|e tr1 IH]; simpl; [done|]. rewrite IH. lia. Qed.

Ltac bal :=
  unfold balanced, open_handles, connects, closes, live in *; simpl in *;
  rewrite ?count_app; simpl;
  match goal with
  | H : _ /\ _ `prefix_of` _ |- _ => destruct H as [? ?]
  end;
  split; [lia | repeat apply prefix_app_r; done].

Ltac tidy_leaf :=
  split; [bal | first [done | discriminate | congruence]].

Section Tidy.

Context (py3 : bool).

Lemma tidy_ret {A} (a : A) : tidy (ret a).
Proof. intros L T st H. by split. Qed.

Lemma tidy_hang {A} : tidy (@hang A).
Proof. intros L T st H. by split. Qed.

Lemma tidy_raise {A} e : e <> ConnectionError -> tidy (@raise A e).
Proof. intros He L T st H. split; [done|]. simpl. congruence. Qed.

Lemma tidy_lift {A} (o : outcome A) :
  o <> Raise ConnectionError -> tidy (lift o).
Proof. intros Ho L T st H. by split. Qed.

Lemma tidy_bind {A B} (m : M A) (k : A -> M B) :
  tidy m -> (forall a, tidy (k a)) -> tidy (bind m k).
Proof.
  intros Hm Hk L T st Hst. unfold bind.
  specialize (Hm L T st Hst).
  destruct (m st) as [[a|e|] st1]; simpl in *.
  - apply (Hk a L T st1), Hm.
  - destruct Hm as [Hb Hc]. split; [done|]. intros [= ->]. by apply Hc.
  - by destruct Hm.
Qed.

Lemma tidy_try {A} (body handler : M A) caught :
  tidy body -> tidy handler -> tidy (try_except body caught handler).
Proof.
  intros Hb Hh L T st Hst. unfold try_except.
  specialize (Hb L T st Hst).
  destruct (body st) as [[a|e|] st1]; simpl in *; [done| |done].
  destruct (caught e); [|done]. apply (Hh L T st1), Hb.
Qed.

Lemma tidy_when b (m : M unit) : tidy m -> tidy (when_ b m).
Proof. destruct b; [done|]. intros _. apply tidy_ret. Qed.

Lemma tidy_get_self : tidy get_self.
Proof. intros L T st H. by split. Qed.

Lemma tidy_get_sslopts : tidy get_sslopts.
Proof.
  intros L T [[h p t s o] w] H. unfold get_sslopts, bind; simpl.
  destruct o; by split.
Qed.

Lemma tidy_getitem d k : tidy (getitem d k).
Proof.
  unfold getitem. destruct (d !! k); [apply tidy_ret|by apply tidy_raise].
Qed.

Lemma tidy_str_upper v : tidy (str_upper v).
Proof. destruct v; simpl; (apply tidy_ret || by apply tidy_raise). Qed.

Lemma tidy_check_keys keys : tidy (check_keys py3 keys).
Proof.
  induction keys as [|k keys IH]; simpl; [apply tidy_ret|].
  destruct (is_supported py3 k); [done|by apply tidy_raise].
Qed.

Lemma tidy_sock_recv n : tidy (sock_recv n).
Proof.
  intros L T [[h p t s o] [ds tr]] H. unfold sock_recv, bind; simpl.
  destruct s as [[rxb evs sn sh hs tl]|]; simpl; [|by split].
  destruct (n <? 0)%Z; simpl; [by split|].
  destruct evs as [|[k|] evs]; simpl; [by split| |]; tidy_leaf.
Qed.

Lemma tidy_sock_sendall payload : tidy (sock_sendall payload).
Proof.
  intros L T [[h p t s o] [ds tr]] H. unfold sock_sendall, bind; simpl.
  destruct s as [[rxb evs sn sh hs tl]|]; simpl; [|by split].
  destruct sn as [|[] sn]; simpl; [by split| |]; tidy_leaf.
Qed.

Lemma tidy_wrap_assign args :
  tidy (s <- ssl_wrap_socket args ;; set_sock (Some s)).
Proof.
  intros L T [[h p t s o] [ds tr]] H. unfold ssl_wrap_socket, bind; simpl.
  destruct s as [[rxb evs sn sh hs tl]|]; simpl; [|by split].
  destruct (key_without_cert args); simpl; [by split|].
  destruct hs as [|[]|[]]; simpl; tidy_leaf.
Qed.

(** [close] always returns, with the handle gone. *)
Lemma close_eq c w :
  close (State c w)
  = (Return tt, State (with_sock c None) (logged w (close_events c))).
Proof.
  destruct c as [h p t s o], w as [ds tr].
  unfold close, close_events, bind, try_except; simpl.
  destruct s as [[rxb evs sn [] hs tl]|]; simpl;
    unfold logged, with_sock; simpl; rewrite <- ?app_assoc; try done.
  by rewrite app_nil_r.
Qed.

Lemma tidy_close : tidy close.
Proof.
  intros L T [c w] H. rewrite close_eq.
  destruct c as [h p t [s|] o], w as [ds tr]; tidy_leaf.
Qed.

Lemma raise_connection_error_eq {A} c w :
  @_raise_connection_error A (State c w)
  = (Raise ConnectionError,
     State (with_sock c None) (logged w (close_events c))).
Proof.
  unfold _raise_connection_error, bind; simpl.
  destruct (_sock c) eqn:Hs; simpl.
  - by rewrite close_eq.
  - destruct c as [h p t s o], w as [ds tr]; simpl in *; subst.
    unfold close_events, logged, with_sock; simpl. by rewrite app_nil_r.
Qed.

Lemma tidy_raise_connection_error {A} : tidy (@_raise_connection_error A).
Proof.
  intros L T [c w] H. rewrite raise_connection_error_eq.
  destruct c as [h p t [s|] o], w as [ds tr]; tidy_leaf.
Qed.

Lemma tidy_ssl_wrapper : tidy (ssl_wrapper py3).
Proof.
  unfold ssl_wrapper. apply tidy_bind; [apply tidy_get_sslopts|].
  intros [opts|]; [|by apply tidy_raise].
  apply tidy_bind; [apply tidy_check_keys|]. intros _.
  apply tidy_bind.
  { destruct (has_key "cert_reqs" opts);
      [apply tidy_getitem|apply tidy_ret]. }
  intros cr. apply tidy_try; [apply tidy_wrap_assign|apply tidy_ret].
Qed.

Lemma tidy_after_dial : tidy (after_dial py3).
Proof.
  unfold after_dial. apply tidy_bind; [apply tidy_get_sslopts|].
  intros [opts|]; [|apply tidy_ret].
  destruct (dict_truthy opts && has_key "security.protocol" opts);
    [|apply tidy_ret].
  apply tidy_bind; [apply tidy_getitem|]. intros v.
  apply tidy_bind; [apply tidy_str_upper|]. intros u.
  destruct (String.eqb u "SSL"); [apply tidy_ssl_wrapper|apply tidy_ret].
Qed.

(** [reinit] unfolded along the outcome of the dial. *)
Lemma reinit_eq c w :
  reinit py3 (State c w)
  = let w1 := logged w (close_events c) in
    match dials w1 with
    | [] => (Hang, State (with_sock c None) w1)
    | DialFails :: ds =>
        (Raise ConnectionError,
         State (with_sock c None)
               (World ds (trace w1
                          ++ [EvConnect (host c) (port c) (timeout c) false])))
    | DialOk s :: ds =>
        try_except (after_dial py3) is_socket_error _raise_connection_error
          (State (with_sock c (Some s))
                 (World ds (trace w1
                            ++ [EvConnect (host c) (port c) (timeout c) true])))
    end.
Proof.
  unfold reinit. unfold bind at 1. simpl.
  unfold bind at 1.
  assert (Hc : when_ (truthy (_sock c)) close (State c w)
               = (Return tt, State (with_sock c None)
                                   (logged w (close_events c)))).
  { destruct (_sock c) eqn:Hs; simpl; [by rewrite close_eq|].
    destruct c as [h p t s o], w as [ds tr]; simpl in *; subst.
    unfold close_events, logged, with_sock; simpl. by rewrite app_nil_r. }
  rewrite Hc. clear Hc.
  destruct c as [h p t s o], w as [ds tr]; simpl.
  destruct ds as [|[sk|] ds]; simpl.
  - done.
  - unfold try_except, bind, create_connection, after_dial, bind; simpl.
    reflexivity.
  - unfold try_except, bind, create_connection; simpl.
    rewrite raise_connection_error_eq. simpl.
    unfold logged, with_sock; simpl. by rewrite app_nil_r.
Qed.

Lemma tidy_reinit : tidy (reinit py3).
Proof.
  intros L T [c w] H. rewrite reinit_eq.
  destruct c as [h p t s o], w as [ds tr]. simpl.
  destruct ds as [|[sk|] ds]; simpl.
  - destruct s; tidy_leaf.
  - apply (tidy_try _ _ _ tidy_after_dial tidy_raise_connection_error).
    destruct s; bal.
  - destruct s; tidy_leaf.
Qed.

Lemma tidy_read_loop fuel : forall bytes_left responses,
  tidy (read_loop py3 fuel bytes_left responses).
Proof.
  induction fuel as [|fuel IH]; intros bl rs; simpl;
    destruct (bl =? 0)%Z; try apply tidy_ret; [apply tidy_hang|].
  apply tidy_bind; [|intros data; apply IH].
  apply tidy_try; [|apply tidy_raise_connection_error].
  apply tidy_bind; [apply tidy_sock_recv|]. intros data.
  destruct (is_empty_str py3 data); [by apply tidy_raise|apply tidy_ret].
Qed.

Lemma tidy_read_bytes n : tidy (_read_bytes py3 n).
Proof.
  unfold _read_bytes. apply tidy_bind; [apply tidy_get_self|]. intros c.
  apply tidy_bind; [apply tidy_when, tidy_reinit|]. intros _.
  apply tidy_bind; [apply tidy_get_self|]. intros c'.
  apply tidy_bind; [apply tidy_read_loop|]. intros rs. apply tidy_ret.
Qed.

Lemma tidy_recv rid : tidy (recv py3 rid).
Proof.
  unfold recv. apply tidy_bind; [apply tidy_read_bytes|]. intros resp.
  apply tidy_bind; [|intros size; apply tidy_read_bytes].
  apply tidy_lift. unfold unpack_be_i32.
  by destruct resp as [|? [|? [|? [|? [|? ?]]]]].
Qed.

Lemma tidy_send rid payload : tidy (send py3 rid payload).
Proof.
  unfold send. apply tidy_bind; [apply tidy_get_self|]. intros c.
  apply tidy_bind; [apply tidy_when, tidy_reinit|]. intros _.
  apply tidy_try; [apply tidy_sock_sendall|].
  apply tidy_raise_connection_error.
Qed.

Lemma tidy_exec o (st : state) L T :
  balanced L T st ->
  balanced L T (exec py3 o st).2
  /\ ((exec py3 o st).1 = Raise ConnectionError ->
      _sock (self (exec py3 o st).2) = None).
Proof.
  intros H. destruct o as [|rid payload|rid|]; simpl.
  - by apply tidy_reinit.
  - by apply tidy_send.
  - pose proof (tidy_recv rid L T st H) as [Hb Hc].
    destruct (recv py3 rid st) as [[a|e|] st1]; simpl in *;
      split; try done.
    intros [= ->]. by apply Hc.
  - by apply tidy_close.
Qed.

End Tidy.

(** * The read loop *)

Lemma logged_nil w : logged w [] = w.
Proof. destruct w. unfold logged; simpl. by rewrite app_nil_r. Qed.

Lemma logged_logged w evs1 evs2 :
  logged (logged w evs1) evs2 = logged w (evs1 ++ evs2).
Proof. unfold logged; simpl. by rewrite app_assoc. Qed.

Lemma received_app tr1 tr2 : received (tr1 ++ tr2) = received tr1 ++ received tr2.
Proof.
  induction tr1 as [|e tr1 IH]; simpl; [done|].
  destruct e; try done. by rewrite IH, app_assoc.
Qed.

Section ReadLoop.

Context (py3 : bool).

Lemma sock_recv_chunk n c rxb k evs sn sh hs tl w :
  (0 <= n)%Z ->
  sock_recv n
    (State (with_sock c (Some (Socket rxb (Chunk k :: evs) sn sh hs tl))) w)
  = let data := take (Nat.min (Z.to_nat n) (S k)) rxb in
    (Return data,
     State (with_sock c
              (Some (Socket (drop (Nat.min (Z.to_nat n) (S k)) rxb)
                            evs sn sh hs tl)))
           (logged w [EvRecv n data])).
Proof.
  intros Hn. unfold sock_recv, bind; simpl.
  by destruct (Z.ltb_spec n 0); [lia|].
Qed.

Lemma sock_recv_negative n c s w :
  (n < 0)%Z ->
  sock_recv n (State (with_sock c (Some s)) w)
  = (Raise ValueError, State (with_sock c (Some s)) w).
Proof.
  intros Hn. unfold sock_recv, bind; simpl.
  by destruct (Z.ltb_spec n 0); [|lia].
Qed.

Lemma sock_recv_consumes n st data st1 :
  sock_recv n st = (Return data, st1) ->
  length (script st) = S (length (script st1)).
Proof.
  destruct st as [[h p t s o] [ds tr]]. unfold sock_recv, bind, script; simpl.
  destruct s as [[rxb evs sn sh hs tl]|]; simpl; [|done].
  destruct (n <? 0)%Z; simpl; [done|].
  destruct evs as [|[k|] evs]; simpl; [done| |done].
  by intros [= _ <-].
Qed.

(** One turn of the loop, by what [recv] does. *)
Lemma read_loop_step fuel bytes_left responses st data st1 :
  bytes_left <> 0%Z ->
  sock_recv (Z.min bytes_left 4096) st = (Return data, st1) ->
  is_empty_str py3 data = false ->
  read_loop py3 (S fuel) bytes_left responses st
  = read_loop py3 fuel (bytes_left - Z.of_nat (length data))
      (responses ++ [data]) st1.
Proof.
  intros Hbl Hr He. simpl.
  destruct (Z.eqb_spec bytes_left 0); [done|].
  unfold bind at 1, try_except, bind at 1. by rewrite Hr, He.
Qed.

Lemma read_loop_step_raise fuel bytes_left responses st e st1 :
  bytes_left <> 0%Z ->
  sock_recv (Z.min bytes_left 4096) st = (Raise e, st1) ->
  is_socket_error e = false ->
  read_loop py3 (S fuel) bytes_left responses st = (Raise e, st1).
Proof.
  intros Hbl Hr He. simpl.
  destruct (Z.eqb_spec bytes_left 0); [done|].
  unfold bind at 1, try_except, bind at 1. by rewrite Hr, He.
Qed.

Lemma read_loop_step_hang fuel bytes_left responses st st1 :
  bytes_left <> 0%Z ->
  sock_recv (Z.min bytes_left 4096) st = (Hang, st1) ->
  read_loop py3 (S fuel) bytes_left responses st = (Hang, st1).
Proof.
  intros Hbl Hr. simpl.
  destruct (Z.eqb_spec bytes_left 0); [done|].
  unfold bind at 1, try_except, bind at 1. by rewrite Hr.
Qed.

Lemma read_loop_step_closed fuel bytes_left responses st data st1 :
  bytes_left <> 0%Z ->
  sock_recv (Z.min bytes_left 4096) st = (Return data, st1) ->
  is_empty_str py3 data = true ->
  read_loop py3 (S fuel) bytes_left responses st
  = (Raise ConnectionError,
     State (with_sock (self st1) None)
           (logged (net st1) (close_events (self st1)))).
Proof.
  intros Hbl Hr He. simpl.
  destruct (Z.eqb_spec bytes_left 0); [done|].
  unfold bind at 1, try_except, bind at 1. rewrite Hr, He. simpl.
  destruct st1 as [c1 w1]. by rewrite raise_connection_error_eq.
Qed.

Lemma read_loop_step_error fuel bytes_left responses st e st1 :
  bytes_left <> 0%Z ->
  sock_recv (Z.min bytes_left 4096) st = (Raise e, st1) ->
  is_socket_error e = true ->
  read_loop py3 (S fuel) bytes_left responses st
  = (Raise ConnectionError,
     State (with_sock (self st1) None)
           (logged (net st1) (close_events (self st1)))).
Proof.
  intros Hbl Hr He. simpl.
  destruct (Z.eqb_spec bytes_left 0); [done|].
  unfold bind at 1, try_except, bind at 1. rewrite Hr, He. simpl.
  destruct st1 as [c1 w1]. by rewrite raise_connection_error_eq.
Qed.

Lemma read_loop_done fuel responses st :
  read_loop py3 fuel 0 responses st = (Return responses, st).
Proof. by destruct fuel. Qed.

(** The fuel [_read_bytes] hands to the loop is never what stops it: any
    two amounts above the length of the script give the same run. *)
Lemma read_loop_fuel fuel : forall fuel' bytes_left responses st,
  length (script st) < fuel -> length (script st) < fuel' ->
  read_loop py3 fuel bytes_left responses st
  = read_loop py3 fuel' bytes_left responses st.
Proof.
  induction fuel as [|fuel IH]; intros fuel' bl rs st Hf Hf'; [lia|].
  destruct fuel' as [|fuel']; [lia|].
  destruct (Z.eqb_spec bl 0) as [->|Hbl]; [by rewrite !read_loop_done|].
  destruct (sock_recv (Z.min bl 4096) st) as [[data|e|] st1] eqn:Hr.
  - destruct (is_empty_str py3 data) eqn:He.
    + by rewrite !(read_loop_step_closed _ _ _ _ _ _ Hbl Hr He).
    + rewrite !(read_loop_step _ _ _ _ _ _ Hbl Hr He).
      apply sock_recv_consumes in Hr. apply IH; lia.
  - destruct (is_socket_error e) eqn:He.
    + by rewrite !(read_loop_step_error _ _ _ _ _ _ Hbl Hr He).
    + by rewrite !(read_loop_step_raise _ _ _ _ _ _ Hbl Hr He).
  - by rewrite !(read_loop_step_hang _ _ _ _ _ Hbl Hr).
Qed.

(** A script of chunks long enough for [n] bytes that the peer does send:
    the loop hands back exactly these bytes, whatever the chunk sizes. *)
Lemma read_loop_chunks c sn sh hs tl later fuel :
  forall n ks responses rxb w,
    n <= length rxb -> n <= length ks -> n <= fuel ->
    exists ks' datas evs,
      read_loop py3 fuel (Z.of_nat n) responses
        (State (with_sock c
                  (Some (Socket rxb (map Chunk ks ++ later) sn sh hs tl))) w)
      = (Return (responses ++ datas),
         State (with_sock c
                  (Some (Socket (drop n rxb) (map Chunk ks' ++ later)
                                sn sh hs tl)))
               (logged w evs))
      /\ concat datas = take n rxb
      /\ received evs = take n rxb
      /\ forallb is_read evs = true
      /\ length ks <= length ks' + n.
Proof.
  induction fuel as [|fuel IH]; intros n ks rs rxb w Hrx Hks Hfuel.
  - assert (n = 0) as -> by lia. exists ks, [], [].
    rewrite read_loop_done, logged_nil, app_nil_r, drop_0, take_0.
    repeat split; lia.
  - destruct n as [|n].
    { exists ks, [], [].
      rewrite read_loop_done, logged_nil, app_nil_r, drop_0, take_0.
      repeat split; lia. }
    destruct ks as [|k ks]; simpl in Hks; [lia|].
    set (m := Nat.min (Z.to_nat (Z.min (Z.of_nat (S n)) 4096)) (S k)).
    assert (Hm : 1 <= m <= S n) by (unfold m; lia).
    assert (Hlen : length (take m rxb) = m) by (rewrite length_take; lia).
    erewrite read_loop_step; cycle 1.
    + lia.
    + simpl. apply sock_recv_chunk. lia.
    + fold m. unfold is_empty_str. apply andb_false_intro2.
      apply bool_decide_eq_false. intros Hnil.
      rewrite Hnil in Hlen. simpl in Hlen. lia.
    + fold m. rewrite Hlen.
      replace (Z.of_nat (S n) - Z.of_nat m)%Z with (Z.of_nat (S n - m))
        by lia.
      destruct (IH (S n - m) ks (rs ++ [take m rxb]) (drop m rxb)
                  (logged w [EvRecv (Z.min (Z.of_nat (S n)) 4096)
                                    (take m rxb)]))
        as (ks' & datas & evs & Heq & Hcat & Hrecv & Hrd & Hk).
      { rewrite length_drop. lia. }
      { lia. }
      { lia. }
      exists ks', (take m rxb :: datas), (EvRecv (Z.min (Z.of_nat (S n)) 4096)
                                          (take m rxb) :: evs).
      rewrite Heq, drop_drop, logged_logged, <- app_assoc. simpl.
      replace (m + (S n - m)) with (S n) by lia.
      repeat split.
      * rewrite Hcat, take_take_drop. f_equal. lia.
      * rewrite Hrecv, take_take_drop. f_equal. lia.
      * rewrite Hrd. destruct (take m rxb); [simpl in Hlen; lia|done].
      * lia.
Qed.

(** On a connected object [_read_bytes] is the loop, then the join. *)
Lemma read_bytes_live c s w n :
  _read_bytes py3 n (State (with_sock c (Some s)) w)
  = match read_loop py3 (S (length (recvs s))) n []
            (State (with_sock c (Some s)) w) with
    | (Return responses, st) => (Return (concat responses), st)
    | (Raise e, st) => (Raise e, st)
    | (Hang, st) => (Hang, st)
    end.
Proof. reflexivity. Qed.

Lemma read_bytes_chunks c sn sh hs tl later n ks rxb w :
  n <= length rxb -> n <= length ks ->
  exists ks' evs,
    _read_bytes py3 (Z.of_nat n)
      (State (with_sock c
                (Some (Socket rxb (map Chunk ks ++ later) sn sh hs tl))) w)
    = (Return (take n rxb),
       State (with_sock c
                (Some (Socket (drop n rxb) (map Chunk ks' ++ later)
                              sn sh hs tl)))
             (logged w evs))
    /\ received evs = take n rxb
    /\ forallb is_read evs = true
    /\ length ks <= length ks' + n.
Proof.
  intros Hrx Hks.
  destruct (read_loop_chunks c sn sh hs tl later
              (S (length (map Chunk ks ++ later))) n ks [] rxb w)
    as (ks' & datas & evs & Heq & Hcat & Hrecv & Hrd & Hk); [done..| |].
  { rewrite length_app, length_map. lia. }
  exists ks', evs. split; [|done].
  rewrite read_bytes_live. cbn [recvs]. rewrite Heq. simpl.
  by rewrite Hcat.
Qed.

(** [_read_bytes] with a negative count on a connected object. *)
Lemma read_bytes_negative c s w n :
  (n < 0)%Z ->
  _read_bytes py3 n (State (with_sock c (Some s)) w)
  = (Raise ValueError, State (with_sock c (Some s)) w).
Proof.
  intros Hn. rewrite read_bytes_live.
  erewrite read_loop_step_raise; [done|lia| |done].
  apply sock_recv_negative. lia.
Qed.

End ReadLoop.

(** On Python 3 the loop goes on after an empty read: with the peer gone,
    every scripted read comes back empty and the loop is still running when
    the script ends. *)
Lemma read_loop_closed_py3 c sn sh hs tl ks : forall fuel bytes_left responses w,
  (0 < bytes_left)%Z -> length ks < fuel ->
  read_loop true fuel bytes_left responses
    (State (with_sock c (Some (Socket [] (map Chunk ks) sn sh hs tl))) w)
  = (Hang,
     State (with_sock c (Some (Socket [] [] sn sh hs tl)))
           (logged w (repeat (EvRecv (Z.min bytes_left 4096) [])
                             (length ks)))).
Proof.
  induction ks as [|k ks IH]; intros fuel bl rs w Hbl Hfuel;
    (destruct fuel as [|fuel]; [simpl in Hfuel; lia|]).
  - rewrite logged_nil.
    apply read_loop_step_hang; [lia|].
    unfold sock_recv, bind; simpl.
    by destruct (Z.ltb_spec (Z.min bl 4096) 0); [lia|].
  - erewrite read_loop_step; cycle 1.
    + lia.
    + simpl. apply sock_recv_chunk. lia.
    + done.
    + rewrite take_nil, drop_nil. simpl. rewrite Z.sub_0_r.
      rewrite (IH fuel bl (rs ++ [[]])
                 (logged w [EvRecv (Z.min bl 4096) []]) Hbl)
        by (simpl in Hfuel; lia).
      by rewrite logged_logged.
Qed.

(** * The size prefix *)

Lemma byte_val_range b : (0 <= byte_val b < 256)%Z.
Proof.
  unfold byte_val. pose proof (Byte.to_N_bounded b). lia.
Qed.

Lemma byte_val_of_Z z : byte_val (byte_of_Z z) = (z mod 256)%Z.
Proof.
  unfold byte_val, byte_of_Z.
  pose proof (Z.mod_pos_bound z 256 eq_refl) as Hz.
  destruct (Byte.of_N (Z.to_N (z mod 256))) as [b|] eqn:Hb; simpl.
  - apply Byte.to_of_N in Hb. rewrite Hb. lia.
  - apply Byte.of_N_None_iff in Hb. lia.
Qed.

Lemma unpack_length resp n : unpack_be_i32 resp = Return n -> length resp = 4.
Proof. by destruct resp as [|? [|? [|? [|? [|? ?]]]]]. Qed.

(** The decoded size is a signed 32 bit integer. *)
Lemma unpack_range resp n :
  unpack_be_i32 resp = Return n -> (- 2 ^ 31 <= n < 2 ^ 31)%Z.
Proof.
  destruct resp as [|b0 [|b1 [|b2 [|b3 [|? ?]]]]]; try done.
  unfold unpack_be_i32. intros [= <-].
  pose proof (byte_val_range b0). pose proof (byte_val_range b1).
  pose proof (byte_val_range b2). pose proof (byte_val_range b3).
  destruct (Z.ltb_spec
              (((byte_val b0 * 256 + byte_val b1) * 256 + byte_val b2) * 256
               + byte_val b3) (2 ^ 31)); lia.
Qed.

(** [unpack] undoes [pack] on the signed 32 bit range. *)
Lemma unpack_pack n :
  (- 2 ^ 31 <= n < 2 ^ 31)%Z -> unpack_be_i32 (pack_be_i32 n) = Return n.
Proof.
  intros Hn. unfold unpack_be_i32, pack_be_i32.
  rewrite !byte_val_of_Z. f_equal.
  set (u := (n mod 2 ^ 32)%Z).
  assert (Hu : (0 <= u < 2 ^ 32)%Z) by (apply Z.mod_pos_bound; lia).
  assert (Hun : u = n \/ u = (n + 2 ^ 32)%Z).
  { unfold u. destruct (Z.le_gt_cases 0 n).
    - left. apply Z.mod_small. lia.
    - right. rewrite <- (Z.mod_small (n + 2 ^ 32) (2 ^ 32)) by lia.
      by rewrite <- (Z_mod_plus_full n 1 (2 ^ 32)), Z.mul_1_l. }
  assert (Hsum : ((((u / 2 ^ 24) mod 256 * 256 + (u / 2 ^ 16) mod 256) * 256
                   + (u / 2 ^ 8) mod 256) * 256 + u mod 256 = u)%Z).
  { change (2 ^ 24)%Z with 16777216%Z. change (2 ^ 16)%Z with 65536%Z.
    change (2 ^ 8)%Z with 256%Z. change (2 ^ 32)%Z with 4294967296%Z in Hu.
    clear Hun. Z.div_mod_to_equations. lia. }
  rewrite Hsum.
  destruct (Z.ltb_spec u (2 ^ 31)); lia.
Qed.

(** * Framed reads *)

(** C1. For every size N >= 0 carried by the four prefix bytes, read as a
    big-endian signed 32 bit integer, [recv] first takes exactly these four
    bytes and then returns exactly the N bytes that follow, joining the
    pieces of as many short reads as the socket makes; what the peer sent
    after the frame stays in the socket. *)
Theorem recv_reads_prefix_then_payload py3 rid c sn sh hs tl w hdr body ks
    later N :
  unpack_be_i32 hdr = Return N ->
  (0 <= N)%Z ->
  Z.to_nat N <= length body ->
  4 + Z.to_nat N <= length ks ->
  exists ks' evs1 evs2,
    recv py3 rid
      (State (with_sock c
                (Some (Socket (hdr ++ body) (map Chunk ks ++ later)
                              sn sh hs tl))) w)
    = (Return (take (Z.to_nat N) body),
       State (with_sock c
                (Some (Socket (drop (Z.to_nat N) body) (map Chunk ks' ++ later)
                              sn sh hs tl)))
             (logged w (evs1 ++ evs2)))
    /\ received evs1 = hdr
    /\ received evs2 = take (Z.to_nat N) body
    /\ forallb is_read (evs1 ++ evs2) = true
    /\ Z.of_nat (length (take (Z.to_nat N) body)) = N.
Proof.
  intros Hhdr HN Hbody Hks.
  pose proof (unpack_length _ _ Hhdr) as Hlen.
  destruct (read_bytes_chunks py3 c sn sh hs tl later 4 ks (hdr ++ body) w)
    as (ks1 & evs1 & Heq1 & Hrecv1 & Hrd1 & Hk1).
  { rewrite length_app. lia. }
  { lia. }
  rewrite take_app_length' in Heq1, Hrecv1 by done.
  rewrite drop_app_length' in Heq1 by done.
  destruct (read_bytes_chunks py3 c sn sh hs tl later (Z.to_nat N) ks1 body
              (logged w evs1))
    as (ks2 & evs2 & Heq2 & Hrecv2 & Hrd2 & Hk2); [done|lia|].
  rewrite Z2Nat.id in Heq2 by done.
  exists ks2, evs1, evs2.
  unfold recv, bind at 1. change 4%Z with (Z.of_nat 4). rewrite Heq1.
  unfold bind at 1, lift. rewrite Hhdr. rewrite Heq2, logged_logged.
  repeat split; try done.
  - by rewrite forallb_app, Hrd1, Hrd2.
  - rewrite length_take. lia.
Qed.

Lemma recv_reads_prefix_then_payload_witness :
  exists ks' evs1 evs2,
    recv true 7
      (State (with_sock (Conn "broker" 9092 None None (Attr None))
                (Some (Socket ([x00; x00; x00; x02] ++ [x68; x69; x21])
                              (map Chunk [0; 2; 0; 0; 5; 1] ++ [RecvFails])
                              [] true WrapOk None)))
             (World [] []))
    = (Return (take (Z.to_nat 2) [x68; x69; x21]),
       State (with_sock (Conn "broker" 9092 None None (Attr None))
                (Some (Socket (drop (Z.to_nat 2) [x68; x69; x21])
                              (map Chunk ks' ++ [RecvFails])
                              [] true WrapOk None)))
             (logged (World [] []) (evs1 ++ evs2)))
    /\ received evs1 = [x00; x00; x00; x02]
    /\ received evs2 = take (Z.to_nat 2) [x68; x69; x21]
    /\ forallb is_read (evs1 ++ evs2) = true
    /\ Z.of_nat (length (take (Z.to_nat 2) [x68; x69; x21])) = 2%Z.
Proof.
  apply (recv_reads_prefix_then_payload true 7 _ [] true WrapOk None
           (World [] []) [x00; x00; x00; x02] [x68; x69; x21]
           [0; 2; 0; 0; 5; 1] [RecvFails] 2).
  - reflexivity.
  - lia.
  - simpl. lia.
  - simpl. lia.
Defined.

(** X2. Round trip: a payload framed by the peer (its length packed in four
    bytes, then the payload) comes back from [recv] as it was, and what the
    peer sent after it stays in the socket. *)
Corollary recv_frame py3 rid c sn sh hs tl w payload rest ks later :
  (Z.of_nat (length payload) < 2 ^ 31)%Z ->
  4 + length payload <= length ks ->
  exists st,
    recv py3 rid
      (State (with_sock c
                (Some (Socket (frame payload ++ rest) (map Chunk ks ++ later)
                              sn sh hs tl))) w)
    = (Return payload, st)
    /\ rx <$> _sock (self st) = Some rest.
Proof.
  intros Hlen Hks. unfold frame. rewrite <- app_assoc.
  set (hdr := pack_be_i32 (Z.of_nat (length payload))).
  assert (Hhdr : unpack_be_i32 hdr = Return (Z.of_nat (length payload)))
    by (apply unpack_pack; lia).
  destruct (read_bytes_chunks py3 c sn sh hs tl later 4 ks
              (hdr ++ payload ++ rest) w)
    as (ks1 & evs1 & Heq1 & _ & _ & Hk1); [simpl; lia|lia|].
  destruct (read_bytes_chunks py3 c sn sh hs tl later (length payload) ks1
              (payload ++ rest) (logged w evs1))
    as (ks2 & evs2 & Heq2 & _); [rewrite length_app; lia|lia|].
  change (take 4 (hdr ++ payload ++ rest)) with hdr in Heq1.
  change (drop 4 (hdr ++ payload ++ rest)) with (payload ++ rest) in Heq1.
  rewrite take_app_length, drop_app_length in Heq2.
  unfold recv, bind at 1. change 4%Z with (Z.of_nat 4). rewrite Heq1.
  unfold bind at 1, lift. rewrite Hhdr, Heq2. by eexists.
Qed.

(** C10. When the four prefix bytes decode to a negative size, [recv] gives
    no payload and does not go through the close-then-raise path either: the
    loop is entered, [recv] on the socket is asked for a negative count, and
    the [ValueError] it answers with is not a socket error, so it leaves
    [recv] with the socket still held and no shutdown or close made. *)
Theorem recv_negative_size_leaves_socket_open py3 rid c sn sh hs tl w hdr
    body ks later N :
  unpack_be_i32 hdr = Return N ->
  (N < 0)%Z ->
  4 <= length ks ->
  exists ks' evs,
    recv py3 rid
      (State (with_sock c
                (Some (Socket (hdr ++ body) (map Chunk ks ++ later)
                              sn sh hs tl))) w)
    = (Raise ValueError,
       State (with_sock c
                (Some (Socket body (map Chunk ks' ++ later) sn sh hs tl)))
             (logged w evs))
    /\ received evs = hdr
    /\ forallb is_read evs = true
    /\ is_socket_error ValueError = false.
Proof.
  intros Hhdr HN Hks.
  pose proof (unpack_length _ _ Hhdr) as Hlen.
  destruct (read_bytes_chunks py3 c sn sh hs tl later 4 ks (hdr ++ body) w)
    as (ks1 & evs1 & Heq1 & Hrecv1 & Hrd1 & Hk1).
  { rewrite length_app. lia. }
  { lia. }
  rewrite take_app_length' in Heq1, Hrecv1 by done.
  rewrite drop_app_length' in Heq1 by done.
  exists ks1, evs1.
  unfold recv, bind at 1. change 4%Z with (Z.of_nat 4). rewrite Heq1.
  unfold bind at 1, lift. rewrite Hhdr.
  by rewrite read_bytes_negative.
Qed.

Lemma recv_negative_size_leaves_socket_open_witness :
  exists ks' evs,
    recv false 1
      (State (with_sock (Conn "broker" 9092 None None (Attr None))
                (Some (Socket ([xff; xff; xff; xfe] ++ [x01])
                              (map Chunk [3; 3; 3; 3] ++ [])
                              [] true WrapOk None)))
             (World [] []))
    = (Raise ValueError,
       State (with_sock (Conn "broker" 9092 None None (Attr None))
                (Some (Socket [x01] (map Chunk ks' ++ []) [] true WrapOk
                              None)))
             (logged (World [] []) evs))
    /\ received evs = [xff; xff; xff; xfe]
    /\ forallb is_read evs = true
    /\ is_socket_error ValueError = false.
Proof.
  apply (recv_negative_size_leaves_socket_open false 1 _ [] true WrapOk None
           (World [] []) [xff; xff; xff; xfe] [x01] [3; 3; 3; 3] [] (-2)).
  - reflexivity.
  - lia.
  - simpl. lia.
Defined.

(** * Empty reads *)

(** On Python 2 the first empty read ends [recv]: the socket is shut down
    and closed, and [ConnectionError] is raised. *)
Lemma recv_empty_read_py2_raises rid c sn sh hs tl w k evs :
  recv false rid
    (State (with_sock c (Some (Socket [] (Chunk k :: evs) sn sh hs tl))) w)
  = (Raise ConnectionError,
     State (with_sock c None)
           (logged w [EvRecv 4 []; EvShutdown sh; EvClose])).
Proof.
  unfold recv, bind at 1. rewrite read_bytes_live.
  erewrite read_loop_step_closed; [| done | by apply sock_recv_chunk | done].
  simpl. unfold close_events. simpl. by rewrite logged_logged.
Qed.

(** C3, on Python 3.  The comparison [data == ''] is false for the empty
    bytes object, so an empty read raises nothing: with the peer gone, [recv]
    makes every read the script holds, each of them empty, and is still
    looping afterwards; the socket stays open and no [ConnectionError] comes
    out. *)
Theorem recv_empty_read_py3_loops rid c sn sh hs tl w ks :
  recv true rid
    (State (with_sock c (Some (Socket [] (map Chunk ks) sn sh hs tl))) w)
  = (Hang,
     State (with_sock c (Some (Socket [] [] sn sh hs tl)))
           (logged w (repeat (EvRecv 4 []) (length ks))))
  /\ (recv true rid
        (State (with_sock c (Some (Socket [] (map Chunk ks) sn sh hs tl))) w)).1
     <> Raise ConnectionError.
Proof.
  assert (Heq : recv true rid
    (State (with_sock c (Some (Socket [] (map Chunk ks) sn sh hs tl))) w)
  = (Hang,
     State (with_sock c (Some (Socket [] [] sn sh hs tl)))
           (logged w (repeat (EvRecv 4 []) (length ks))))).
  { unfold recv, bind at 1. rewrite read_bytes_live. cbn [recvs].
    rewrite read_loop_closed_py3; [done|lia|]. rewrite length_map. lia. }
  by rewrite Heq.
Qed.

(** * Sending *)

(** [send] on a connected object hands the whole payload to [sendall]. *)
Lemma send_connected py3 rid payload c rxb evs sn sh hs tl w :
  send py3 rid payload
    (State (with_sock c (Some (Socket rxb evs (true :: sn) sh hs tl))) w)
  = (Return tt,
     State (with_sock c (Some (Socket rxb evs sn sh hs tl)))
           (logged w [EvSendall payload true])).
Proof. reflexivity. Qed.

(** X19. A write error is not passed over: the socket is shut down and
    closed, [send] raises [ConnectionError] and the payload is not written a
    second time. *)
Lemma send_write_error py3 rid payload c rxb evs sn sh hs tl w :
  send py3 rid payload
    (State (with_sock c (Some (Socket rxb evs (false :: sn) sh hs tl))) w)
  = (Raise ConnectionError,
     State (with_sock c None)
           (logged w [EvSendall payload false; EvShutdown sh; EvClose])).
Proof.
  unfold send, bind at 1 2, try_except. simpl.
  unfold sock_sendall, bind. simpl.
  rewrite raise_connection_error_eq. unfold close_events. simpl.
  by rewrite logged_logged.
Qed.

(** * What [recv] returns is never short *)

Section Exact.

Context (py3 : bool).

Lemma sock_recv_length n st data st1 :
  sock_recv n st = (Return data, st1) ->
  (Z.of_nat (length data) <= n)%Z.
Proof.
  destruct st as [[h p t s o] [ds tr]]. unfold sock_recv, bind; simpl.
  destruct s as [[rxb evs sn sh hs tl]|]; simpl; [|done].
  destruct (Z.ltb_spec n 0); simpl; [done|].
  destruct evs as [|[k|] evs]; simpl; [done| |done].
  intros [= <- _]. rewrite length_take. lia.
Qed.

(** When the loop returns, the pieces it added make up [bytes_left] bytes. *)
Lemma read_loop_exact fuel : forall bytes_left responses st responses' st',
  read_loop py3 fuel bytes_left responses st = (Return responses', st') ->
  Z.of_nat (length (concat responses'))
  = (Z.of_nat (length (concat responses)) + bytes_left)%Z.
Proof.
  induction fuel as [|fuel IH]; intros bl rs st rs' st' Hrun.
  - simpl in Hrun. destruct (Z.eqb_spec bl 0) as [->|Hbl]; [|done].
    injection Hrun as <- _. lia.
  - destruct (Z.eqb_spec bl 0) as [->|Hbl].
    { rewrite read_loop_done in Hrun. injection Hrun as <- _. lia. }
    destruct (sock_recv (Z.min bl 4096) st) as [[data|e|] st1] eqn:Hr.
    + destruct (is_empty_str py3 data) eqn:He.
      * by rewrite (read_loop_step_closed _ _ _ _ _ _ _ Hbl Hr He) in Hrun.
      * rewrite (read_loop_step _ _ _ _ _ _ _ Hbl Hr He) in Hrun.
        apply IH in Hrun. rewrite Hrun.
        rewrite concat_app, length_app. simpl. rewrite app_nil_r. lia.
    + destruct (is_socket_error e) eqn:He.
      * by rewrite (read_loop_step_error _ _ _ _ _ _ _ Hbl Hr He) in Hrun.
      * by rewrite (read_loop_step_raise _ _ _ _ _ _ _ Hbl Hr He) in Hrun.
    + by rewrite (read_loop_step_hang _ _ _ _ _ _ Hbl Hr) in Hrun.
Qed.

(** [_read_bytes]: the lazy dial, the loop, the join. *)
Lemma read_bytes_eq n st :
  _read_bytes py3 n st
  = match when_ (negb (truthy (_sock (self st)))) (reinit py3) st with
    | (Return _, st1) =>
        match read_loop py3 (S (length (script st1))) n [] st1 with
        | (Return responses, st2) => (Return (concat responses), st2)
        | (Raise e, st2) => (Raise e, st2)
        | (Hang, st2) => (Hang, st2)
        end
    | (Raise e, st1) => (Raise e, st1)
    | (Hang, st1) => (Hang, st1)
    end.
Proof.
  unfold _read_bytes, bind, get_self, script.
  by destruct (when_ (negb (truthy (_sock (self st)))) (reinit py3) st)
    as [[[]|e|] st1].
Qed.

Lemma read_bytes_exact n st resp st' :
  _read_bytes py3 n st = (Return resp, st') ->
  Z.of_nat (length resp) = n.
Proof.
  rewrite read_bytes_eq.
  destruct (when_ (negb (truthy (_sock (self st)))) (reinit py3) st)
    as [[[]|e|] st1]; [|done..].
  destruct (read_loop py3 (S (length (script st1))) n [] st1)
    as [[rs|e|] st2] eqn:Hrun; [|done..].
  intros [= <- _]. apply read_loop_exact in Hrun. simpl in Hrun. lia.
Qed.

(** X1. Whenever [recv] returns, on any socket and any network, it returns
    as many bytes as the four bytes it read first announce. *)
Lemma recv_never_short rid st payload st' :
  recv py3 rid st = (Return payload, st') ->
  exists resp st1,
    _read_bytes py3 4 st = (Return resp, st1)
    /\ unpack_be_i32 resp = Return (Z.of_nat (length payload)).
Proof.
  unfold recv, bind at 1.
  destruct (_read_bytes py3 4 st) as [[resp|e|] st1] eqn:Hhdr; [|done..].
  unfold bind at 1, lift.
  destruct (unpack_be_i32 resp) as [N|e|] eqn:HN; [|done..].
  intros Hrun. apply read_bytes_exact in Hrun. subst N.
  by exists resp, st1.
Qed.

End Exact.

(** [close] on an object that holds no socket does nothing. *)
Lemma close_disconnected c w :
  _sock c = None -> close (State c w) = (Return tt, State c w).
Proof.
  intros Hnone. rewrite close_eq. unfold close_events. rewrite Hnone.
  rewrite logged_nil. destruct c; simpl in *. by subst.
Qed.

(** * The lazy dial *)

Section LazyDial.

Context (py3 : bool).

(** A disconnected object dials before it reads: when the dial succeeds the
    read goes on as on the connected object. *)
Lemma read_bytes_lazy_dial n st st1 :
  _sock (self st) = None ->
  reinit py3 st = (Return tt, st1) ->
  _sock (self st1) <> None ->
  _read_bytes py3 n st = _read_bytes py3 n st1.
Proof.
  intros Hnone Hdial Hlive. rewrite !read_bytes_eq. rewrite Hnone. simpl.
  rewrite Hdial. by destruct (_sock (self st1)).
Qed.

Lemma recv_lazy_dial rid st st1 :
  _sock (self st) = None ->
  reinit py3 st = (Return tt, st1) ->
  _sock (self st1) <> None ->
  recv py3 rid st = recv py3 rid st1.
Proof.
  intros Hnone Hdial Hlive. unfold recv, bind at 1 3.
  by rewrite (read_bytes_lazy_dial 4 st st1).
Qed.

(** When the dial fails, its [ConnectionError] is what [recv] raises. *)
Lemma recv_dial_fails rid c w ds :
  _sock c = None ->
  dials w = DialFails :: ds ->
  recv py3 rid (State c w)
  = (Raise ConnectionError,
     State c (World ds (trace w
                        ++ [EvConnect (host c) (port c) (timeout c) false]))).
Proof.
  intros Hnone Hd. unfold recv, bind at 1. rewrite read_bytes_eq. simpl.
  rewrite Hnone. simpl. rewrite reinit_eq. simpl. rewrite Hd.
  unfold close_events. rewrite Hnone, app_nil_r.
  destruct c; simpl in *. by subst.
Qed.

End LazyDial.

(** * The TLS upgrade *)

Section Tls.

Context (py3 : bool).

Lemma check_keys_bad keys st :
  (exists key, key ∈ keys /\ is_supported py3 key = false) ->
  check_keys py3 keys st = (Raise (SystemExit 1), st).
Proof.
  induction keys as [|k keys IH]; intros (key & Hin & Hbad).
  - by apply elem_of_nil in Hin.
  - simpl. destruct (is_supported py3 k) eqn:Hk; [|done].
    apply IH. exists key. split; [|done].
    apply elem_of_cons in Hin as [->|Hin]; [congruence|done].
Qed.

Lemma check_keys_ok keys st :
  forallb (is_supported py3) keys = true ->
  check_keys py3 keys st = (Return tt, st).
Proof.
  induction keys as [|k keys IH]; simpl; [done|].
  intros [Hk Hall]%andb_prop. rewrite Hk. by apply IH.
Qed.

Lemma forallb_elem (f : string -> bool) keys key :
  forallb f keys = true -> key ∈ keys -> f key = true.
Proof.
  induction keys as [|k keys IH]; simpl; intros Hall Hin.
  - by apply elem_of_nil in Hin.
  - apply andb_prop in Hall as [Hk Hall].
    apply elem_of_cons in Hin as [->|Hin]; [done|by apply IH].
Qed.

Lemma has_key_is_Some key (opts : gmap string pyval) :
  has_key key opts = true <-> is_Some (opts !! key).
Proof.
  unfold has_key. destruct (opts !! key); simpl; split; try done.
Qed.

Lemma key_in_dict (opts : gmap string pyval) key :
  key ∈ (map_to_list opts).*1 <-> is_Some (opts !! key).
Proof.
  rewrite list_elem_of_fmap. split.
  - intros ([k v] & -> & Hin). apply elem_of_map_to_list in Hin. by eexists.
  - intros [v Hv]. exists (key, v). split; [done|].
    by apply elem_of_map_to_list.
Qed.

Lemma selects_tls_dict_truthy (opts : gmap string pyval) :
  selects_tls opts = true -> dict_truthy opts = true.
Proof.
  unfold selects_tls, dict_truthy. intros Hsel.
  apply negb_true_iff, bool_decide_eq_false. intros Hnil.
  apply map_to_list_empty_iff in Hnil. subst.
  by rewrite lookup_empty in Hsel.
Qed.

(** With TLS selected, what follows the dial is [ssl_wrapper]. *)
Lemma after_dial_tls c w opts :
  sslopts c = Attr (Some opts) ->
  selects_tls opts = true ->
  after_dial py3 (State c w) = ssl_wrapper py3 (State c w).
Proof.
  intros Hopts Hsel. pose proof (selects_tls_dict_truthy _ Hsel) as Htr.
  unfold after_dial, get_sslopts, bind at 1 2. simpl. rewrite Hopts. simpl.
  rewrite Htr. unfold selects_tls in Hsel. unfold has_key, getitem.
  destruct (opts !! "security.protocol") as [[|v|]|] eqn:Hv; try done.
  simpl. unfold bind at 1 2. simpl. by rewrite Hsel.
Qed.

(** Without ['security.protocol'] nothing follows the dial. *)
Lemma after_dial_plain c w opts :
  sslopts c = Attr (Some opts) ->
  opts !! "security.protocol" = None ->
  after_dial py3 (State c w) = (Return tt, State c w).
Proof.
  intros Hopts Hnone.
  unfold after_dial, get_sslopts, bind at 1 2. simpl. rewrite Hopts. simpl.
  unfold has_key. rewrite Hnone. simpl. by rewrite andb_false_r.
Qed.

Lemma ssl_wrapper_bad_key c w opts key :
  sslopts c = Attr (Some opts) ->
  has_key key opts = true ->
  is_supported py3 key = false ->
  ssl_wrapper py3 (State c w) = (Raise (SystemExit 1), State c w).
Proof.
  intros Hopts Hkey Hbad.
  unfold ssl_wrapper, get_sslopts, bind at 1 2. simpl. rewrite Hopts. simpl.
  unfold bind at 1. rewrite check_keys_bad; [done|].
  exists key. split; [|done]. by apply key_in_dict, has_key_is_Some.
Qed.

Lemma ca_reqs_not_supported : is_supported py3 "ca_reqs" = false.
Proof. by destruct py3. Qed.

(** The lookup made when ['cert_reqs'] is set uses the key ['ca_reqs'],
    which a dict that went through the key check cannot hold. *)
Lemma ssl_wrapper_cert_reqs c w opts :
  sslopts c = Attr (Some opts) ->
  keys_supported py3 opts = true ->
  has_key "cert_reqs" opts = true ->
  ssl_wrapper py3 (State c w) = (Raise (KeyError "ca_reqs"), State c w).
Proof.
  intros Hopts Hall Hcr.
  assert (Hca : opts !! "ca_reqs" = None).
  { destruct (opts !! "ca_reqs") eqn:Hca; [|done].
    assert (Hs : is_Some (opts !! "ca_reqs")) by (by rewrite Hca).
    apply key_in_dict in Hs. apply (forallb_elem _ _ _ Hall) in Hs.
    by rewrite ca_reqs_not_supported in Hs. }
  unfold ssl_wrapper, get_sslopts, bind at 1 2. simpl. rewrite Hopts. simpl.
  unfold bind at 1. rewrite check_keys_ok by done.
  rewrite Hcr. unfold getitem. unfold bind at 1. by rewrite Hca.
Qed.

(** Without ['cert_reqs'] the handshake is asked for [CERT_NONE], once the
    arguments have passed the check of [ssl.wrap_socket]. *)
Lemma ssl_wrapper_default_cert_reqs c w opts s :
  sslopts c = Attr (Some opts) ->
  keys_supported py3 opts = true ->
  opts !! "cert_reqs" = None ->
  _sock c = Some s ->
  pyval_truthy (lookup_or_none opts "keyfile")
  && negb (pyval_truthy (lookup_or_none opts "certfile")) = false ->
  exists args,
    cert_reqs args = CERT_NONE
    /\ trace (net (ssl_wrapper py3 (State c w)).2)
       = trace w ++ [EvWrap args (handshake s)].
Proof.
  intros Hopts Hall Hcr Hs Hkey.
  destruct c as [h p t sk o]; simpl in *; subst.
  unfold ssl_wrapper, get_sslopts, bind at 1 2. simpl.
  unfold bind at 1. rewrite check_keys_ok by done.
  unfold has_key. rewrite Hcr. simpl. unfold bind at 1. simpl.
  eexists (TlsArgs _ _ _ CERT_NONE _). split; [done|].
  unfold try_except, ssl_wrap_socket, key_without_cert, bind. simpl.
  rewrite Hkey. simpl.
  by destruct (handshake s) as [|[]|[]].
Qed.

End Tls.

(** C5, as the code has it.  When the options select TLS and hold a key
    that is not supported, [reinit] dials first and, once the dial has
    succeeded, ends in [sys.exit(1)]: the new socket is held as it came from
    the dial, not wrapped and neither read nor written.  When the options
    have no ['security.protocol'], their keys are never looked at and
    [reinit] returns connected. *)
Theorem unknown_tls_key_exits_after_dial py3 :
  (forall c w opts key s ds,
     sslopts c = Attr (Some opts) ->
     selects_tls opts = true ->
     has_key key opts = true ->
     is_supported py3 key = false ->
     dials w = DialOk s :: ds ->
     reinit py3 (State c w)
     = (Raise (SystemExit 1),
        State (with_sock c (Some s))
              (World ds (trace w ++ close_events c
                         ++ [EvConnect (host c) (port c) (timeout c) true]))))
  /\ (forall c w opts s ds,
        sslopts c = Attr (Some opts) ->
        opts !! "security.protocol" = None ->
        dials w = DialOk s :: ds ->
        reinit py3 (State c w)
        = (Return tt,
           State (with_sock c (Some s))
                 (World ds (trace w ++ close_events c
                            ++ [EvConnect (host c) (port c) (timeout c)
                                          true])))).
Proof.
  split.
  - intros c w opts key s ds Hopts Hsel Hkey Hbad Hd.
    rewrite reinit_eq. simpl. rewrite Hd. unfold try_except.
    rewrite (after_dial_tls py3 _ _ opts), (ssl_wrapper_bad_key py3 _ _ opts key);
      try done.
    simpl. by rewrite <- app_assoc.
  - intros c w opts s ds Hopts Hnone Hd.
    rewrite reinit_eq. simpl. rewrite Hd. unfold try_except.
    rewrite (after_dial_plain py3 _ _ opts); try done.
    by rewrite <- app_assoc.
Qed.

Lemma unknown_tls_key_exits_after_dial_witness :
  reinit true
    (State (Conn "broker" 9092 (Some 120%Z) None
              (Attr (Some {[ "security.protocol" := PStr "ssl";
                             "bogus" := PInt 1 ]})))
           (World [DialOk (fresh_socket [] [])] []))
  = (Raise (SystemExit 1),
     State (Conn "broker" 9092 (Some 120%Z) (Some (fresh_socket [] []))
              (Attr (Some {[ "security.protocol" := PStr "ssl";
                             "bogus" := PInt 1 ]})))
           (World [] [EvConnect "broker" 9092 (Some 120%Z) true])).
Proof.
  apply (proj1 (unknown_tls_key_exits_after_dial true)
           (Conn "broker" 9092 (Some 120%Z) None
              (Attr (Some {[ "security.protocol" := PStr "ssl";
                             "bogus" := PInt 1 ]})))
           (World [DialOk (fresh_socket [] [])] [])
           {[ "security.protocol" := PStr "ssl"; "bogus" := PInt 1 ]}
           "bogus" (fresh_socket [] []) []).
  - reflexivity.
  - vm_compute. reflexivity.
  - vm_compute. reflexivity.
  - vm_compute. reflexivity.
  - reflexivity.
Defined.

(** C5 does not hold as worded: a dict whose only key is ["bogus"] is
    accepted, the client comes up connected and nothing exits; and when TLS
    is selected as well, the exit comes after the connect. *)
Lemma unknown_tls_key_not_always_fatal :
  (__init__ true "broker" 9092 (Some {[ "bogus" := PInt 1 ]}) (Some 120%Z)
     (World [DialOk (fresh_socket [] [])] [])).1 = Return tt
  /\ ~ (forall opts w,
          is_Some (opts !! "bogus") ->
          (__init__ true "broker" 9092 (Some opts) (Some 120%Z) w).1
          = Raise (SystemExit 1)
          /\ trace (net (__init__ true "broker" 9092 (Some opts) (Some 120%Z)
                           w).2) = trace w).
Proof.
  split; [vm_compute; reflexivity|].
  intros H.
  destruct (H {[ "bogus" := PInt 1 ]} (World [DialOk (fresh_socket [] [])] []))
    as [Hexit _].
  - exists (PInt 1). vm_compute. reflexivity.
  - vm_compute in Hexit. discriminate.
Qed.

(** C6, the override.  With TLS selected, supported keys only and
    ['cert_reqs'] among them, [reinit] dials and then stops on
    [KeyError('ca_reqs')]: the value stored under ['cert_reqs'] is never
    read, no handshake is made and the socket stays open. *)
Theorem cert_reqs_option_raises_key_error py3 c w opts s ds :
  sslopts c = Attr (Some opts) ->
  selects_tls opts = true ->
  keys_supported py3 opts = true ->
  has_key "cert_reqs" opts = true ->
  dials w = DialOk s :: ds ->
  reinit py3 (State c w)
  = (Raise (KeyError "ca_reqs"),
     State (with_sock c (Some s))
           (World ds (trace w ++ close_events c
                      ++ [EvConnect (host c) (port c) (timeout c) true]))).
Proof.
  intros Hopts Hsel Hall Hcr Hd.
  rewrite reinit_eq. simpl. rewrite Hd. unfold try_except.
  rewrite (after_dial_tls py3 _ _ opts), (ssl_wrapper_cert_reqs py3 _ _ opts);
    try done.
  simpl. by rewrite <- app_assoc.
Qed.

Lemma cert_reqs_option_raises_key_error_witness :
  reinit false
    (State (Conn "broker" 9092 (Some 120%Z) None
              (Attr (Some {[ "security.protocol" := PStr "SSL";
                             "cert_reqs" := PInt 2 ]})))
           (World [DialOk (fresh_socket [] [])] []))
  = (Raise (KeyError "ca_reqs"),
     State (Conn "broker" 9092 (Some 120%Z) (Some (fresh_socket [] []))
              (Attr (Some {[ "security.protocol" := PStr "SSL";
                             "cert_reqs" := PInt 2 ]})))
           (World [] [EvConnect "broker" 9092 (Some 120%Z) true])).
Proof.
  apply (cert_reqs_option_raises_key_error false
           (Conn "broker" 9092 (Some 120%Z) None
              (Attr (Some {[ "security.protocol" := PStr "SSL";
                             "cert_reqs" := PInt 2 ]})))
           (World [DialOk (fresh_socket [] [])] [])
           {[ "security.protocol" := PStr "SSL"; "cert_reqs" := PInt 2 ]}
           (fresh_socket [] []) []).
  - reflexivity.
  - vm_compute. reflexivity.
  - vm_compute. reflexivity.
  - vm_compute. reflexivity.
  - reflexivity.
Defined.

(** * Copies *)

(** On Python 2 the copy has the configuration of the original, the options
    included, and holds no socket. *)
Lemma copy_py2 c w :
  copy false (State c w) = (Return (with_sock c None), State c w).
Proof. reflexivity. Qed.

(** C4, on Python 3.  The copy has the host, the port and the timeout of the
    original and holds no socket, but it has no [sslopts] attribute at all:
    the TLS options of the original are not carried over. *)
Theorem copy_py3_drops_sslopts c w o :
  sslopts c = Attr o ->
  exists c',
    copy true (State c w) = (Return c', State c w)
    /\ host c' = host c /\ port c' = port c /\ timeout c' = timeout c
    /\ _sock c' = None
    /\ sslopts c' = Unset
    /\ sslopts c' <> sslopts c.
Proof.
  intros Hopts. eexists. split; [reflexivity|]. simpl.
  repeat split; try done. by rewrite Hopts.
Qed.

Lemma copy_py3_drops_sslopts_witness :
  exists c',
    copy true
      (State (Conn "broker" 9092 (Some 120%Z) (Some (fresh_socket [] []))
                (Attr (Some {[ "keyfile" := PStr "client.key" ]})))
             (World [] []))
    = (Return c',
       State (Conn "broker" 9092 (Some 120%Z) (Some (fresh_socket [] []))
                (Attr (Some {[ "keyfile" := PStr "client.key" ]})))
             (World [] []))
    /\ host c' = "broker" /\ port c' = 9092%Z /\ timeout c' = Some 120%Z
    /\ _sock c' = None
    /\ sslopts c' = Unset
    /\ sslopts c' <> Attr (Some {[ "keyfile" := PStr "client.key" ]}).
Proof.
  apply (copy_py3_drops_sslopts
           (Conn "broker" 9092 (Some 120%Z) (Some (fresh_socket [] []))
              (Attr (Some {[ "keyfile" := PStr "client.key" ]})))
           (World [] []) (Some {[ "keyfile" := PStr "client.key" ]})).
  reflexivity.
Defined.

(** What the missing attribute does to the copy's first [reinit]: the dial
    is made, then reading [self.sslopts] fails and the new socket stays
    open. *)
Lemma reinit_without_sslopts py3 c w s ds :
  sslopts c = Unset ->
  dials w = DialOk s :: ds ->
  reinit py3 (State c w)
  = (Raise AttributeError,
     State (with_sock c (Some s))
           (World ds (trace w ++ close_events c
                      ++ [EvConnect (host c) (port c) (timeout c) true]))).
Proof.
  intros Hopts Hd. rewrite reinit_eq. simpl. rewrite Hd.
  unfold try_except, after_dial, get_sslopts, bind at 1 2. simpl.
  rewrite Hopts. simpl. by rewrite <- app_assoc.
Qed.

(** * Connection state *)

Lemma count_prefix f (T tr : list event) :
  T `prefix_of` tr -> count f T <= count f tr.
Proof. intros [k ->]. rewrite count_app. lia. Qed.

(** C2. When [send], [recv] or [reinit] raises [ConnectionError], the object
    holds no socket when the error reaches the caller, and the socket it held
    or opened on the way has been closed: the handles opened and not closed
    are those of before, less the one the object held. *)
Theorem connection_error_leaves_disconnected py3 o st :
  (exec py3 o st).1 = Raise ConnectionError ->
  _sock (self (exec py3 o st).2) = None
  /\ open_handles (exec py3 o st).2 = (open_handles st - live st)%Z.
Proof.
  intros Hr.
  destruct (tidy_exec py3 o st (open_handles st - live st)%Z (trace (net st)))
    as [[Hbal _] Hnone]; [by split|].
  specialize (Hnone Hr). split; [done|].
  unfold live in Hbal at 1. rewrite Hnone in Hbal. simpl in Hbal. lia.
Qed.

Lemma connection_error_leaves_disconnected_witness :
  _sock (self (exec true (OpRecv 3) starved_client).2) = None
  /\ open_handles (exec true (OpRecv 3) starved_client).2
     = (open_handles starved_client - live starved_client)%Z.
Proof.
  apply (connection_error_leaves_disconnected true (OpRecv 3) starved_client).
  vm_compute. reflexivity.
Defined.

(** From disconnected to connected there is no way but a dial that
    succeeds. *)
Lemma connected_only_by_dial py3 o st :
  _sock (self st) = None ->
  _sock (self (exec py3 o st).2) <> None ->
  connects st < connects (exec py3 o st).2.
Proof.
  intros Hnone Hsome.
  destruct (tidy_exec py3 o st (open_handles st - live st)%Z (trace (net st)))
    as [[Hbal Hpre] _]; [by split|].
  apply (count_prefix is_close) in Hpre. fold (closes st) in Hpre.
  fold (closes (exec py3 o st).2) in Hpre.
  unfold live in Hbal. rewrite Hnone in Hbal.
  destruct (_sock (self (exec py3 o st).2)); [|done].
  unfold open_handles in Hbal. simpl in Hbal. lia.
Qed.

(** C7, as the code has it.  The constructor sets [_sock] to [None] and
    calls [reinit] at once: its first socket call is the connect; when the
    dial succeeds (and no TLS options are given) the new object is connected,
    when the dial fails the constructor raises [ConnectionError].  For the
    constructed object, [reinit], [send], [recv] and [close] take it from
    disconnected to connected only through a dial that succeeds. *)
Theorem constructor_dials_and_connects_by_dial_only py3 :
  (forall h p o t w d ds,
     dials w = d :: ds ->
     [EvConnect h p t (dial_ok d)]
       `prefix_of` drop (length (trace w))
                        (trace (net (__init__ py3 h p o t w).2)))
  /\ (forall h p t w s ds,
        dials w = DialOk s :: ds ->
        __init__ py3 h p None t w
        = (Return tt,
           State (Conn h p t (Some s) (Attr None))
                 (World ds (trace w ++ [EvConnect h p t true]))))
  /\ (forall h p o t w ds,
        dials w = DialFails :: ds ->
        __init__ py3 h p o t w
        = (Raise ConnectionError,
           State (Conn h p t None (Attr o))
                 (World ds (trace w ++ [EvConnect h p t false]))))
  /\ (forall o st,
        _sock (self st) = None ->
        _sock (self (exec py3 o st).2) <> None ->
        connects st < connects (exec py3 o st).2).
Proof.
  split; [|split; [|split]].
  - intros h p o t [ds0 tr] d ds Hd. simpl in Hd. subst ds0.
    unfold __init__. rewrite reinit_eq. simpl. rewrite app_nil_r.
    destruct d as [s|]; simpl.
    + set (st0 := State (with_sock (Conn h p t None (Attr o)) (Some s))
                        (World ds (tr ++ [EvConnect h p t true]))).
      destruct (tidy_try _ _ is_socket_error (tidy_after_dial py3)
                  (@tidy_raise_connection_error unit)
                  (open_handles st0 - live st0)%Z
                  (tr ++ [EvConnect h p t true]) st0)
        as [[_ [k Hk]] _]; [by split|].
      rewrite Hk, <- app_assoc, drop_app_length. by exists k.
    + by rewrite drop_app_length.
  - intros h p t [ds0 tr] s ds Hd. simpl in Hd. subst ds0.
    unfold __init__. rewrite reinit_eq. simpl. by rewrite app_nil_r.
  - intros h p o t [ds0 tr] ds Hd. simpl in Hd. subst ds0.
    unfold __init__. rewrite reinit_eq. simpl. by rewrite app_nil_r.
  - intros o st. apply connected_only_by_dial.
Qed.

Lemma constructor_dials_and_connects_by_dial_only_witness :
  connects idle_client < connects (exec true (OpSend 1 [x41]) idle_client).2.
Proof.
  apply (proj2 (proj2 (proj2
           (constructor_dials_and_connects_by_dial_only true)))
           (OpSend 1 [x41]) idle_client).
  - reflexivity.
  - vm_compute. discriminate.
Defined.

(** C7 does not hold as worded: a client built while the broker accepts
    connections is connected when the constructor returns, and the connect
    is in the trace. *)
Lemma constructor_is_not_lazy :
  (__init__ false "broker" 9092 None (Some 120%Z)
     (World [DialOk (fresh_socket [] [])] []))
  = (Return tt,
     State (Conn "broker" 9092 (Some 120%Z) (Some (fresh_socket [] []))
              (Attr None))
           (World [] [EvConnect "broker" 9092 (Some 120%Z) true]))
  /\ ~ (forall py3 h p o t w,
          _sock (self (__init__ py3 h p o t w).2) = None
          /\ connects (__init__ py3 h p o t w).2 = count is_connect (trace w)).
Proof.
  split; [reflexivity|].
  intros H.
  destruct (H false "broker" 9092%Z None (Some 120%Z)
              (World [DialOk (fresh_socket [] [])] [])) as [Hnone _].
  vm_compute in Hnone. discriminate.
Qed.

(** * Endpoints *)

(** C8 does not hold as worded: the blanks behind a token are not all
    trimmed.  On Python 3 the separator 0x1c is whitespace, [strip] removes
    it, but a token with a port is not stripped as a whole: the 0x1c behind
    the port reaches [int], which refuses it. *)
Lemma collect_hosts_keeps_blank_after_port :
  PyStr.strip true ("a:1" ++ String "028" "") = "a:1"
  /\ collect_hosts true [] (HostsStr ("a:1" ++ String "028" ",b")) false
     = Raise ValueError
  /\ ~ (forall py3 rng toks rnd,
          collect_hosts py3 rng (HostsSeq toks) rnd
          = collect_hosts py3 rng (HostsSeq (map (PyStr.strip py3) toks)) rnd).
Proof.
  split; [reflexivity|split; [reflexivity|]].
  intros H.
  specialize (H true [] [("a:1" ++ String "028" "")%string] false).
  vm_compute in H. discriminate.
Qed.

(** C8, as the code has it.  Without shuffling, ["a:1,b,c:3"] gives [(a,1)],
    [(b,9092)], [(c,3)] in this order, and in general the endpoints come in
    the order of the tokens: a token [host] gives [(host, 9092)] and a token
    [host:port] gives the host with the number [port] is read as, which for
    a decimal numeral is the number it denotes.  Blanks
    are dropped where [strip] and [int] drop them: around the whole string,
    around the host of a token, and around its port as far as they are blanks
    for [int] (space, tab, newline, vertical tab, form feed, carriage
    return).  So every blank in front of a token goes, every blank behind a
    token without a port, and behind a port the blanks of [int].  Every host
    that is returned has no blank at either end. *)
Theorem collect_hosts_default_port_and_blanks py3 :
  (forall rng,
     collect_hosts py3 rng (HostsStr "a:1,b,c:3") false
     = Return [("a", 1%Z); ("b", 9092%Z); ("c", 3%Z)])
  /\ (forall rng hosts eps,
        Forall2 (endpoint_of py3) (tokens py3 hosts) eps ->
        collect_hosts py3 rng hosts false = Return eps)
  /\ (forall u,
        u <> Decimal.Nil ->
        Decimal.nb_digits u <= 4300 ->
        PyStr.int py3 (NilEmpty.string_of_uint u)
        = Some (Z.of_nat (Nat.of_uint u)))
  /\ (forall tok l r,
        all_chars (PyStr.is_space py3) l = true ->
        all_chars PyStr.is_int_space r = true ->
        interchangeable py3 (l ++ tok ++ r) tok)
  /\ (forall tok r,
        PyStr.contains ":" tok = false ->
        all_chars (PyStr.is_space py3) r = true ->
        interchangeable py3 (tok ++ r) tok)
  /\ (forall h l r rest,
        PyStr.contains ":" h = false ->
        all_chars (PyStr.is_space py3) l = true ->
        all_chars (PyStr.is_space py3) r = true ->
        interchangeable py3 ((l ++ h ++ r) ++ ":" ++ rest) (h ++ ":" ++ rest))
  /\ (forall h l rest,
        PyStr.contains ":" h = false ->
        all_chars PyStr.is_int_space l = true ->
        interchangeable py3 (h ++ ":" ++ l ++ rest) (h ++ ":" ++ rest))
  /\ (forall rng s l r rnd,
        all_chars (PyStr.is_space py3) l = true ->
        all_chars (PyStr.is_space py3) r = true ->
        collect_hosts py3 rng (HostsStr (l ++ s ++ r)) rnd
        = collect_hosts py3 rng (HostsStr s) rnd)
  /\ (forall rng hosts rnd result,
        collect_hosts py3 rng hosts rnd = Return result ->
        Forall (fun hp => trimmed py3 hp.1) result).
Proof.
  split; [by destruct py3|].
  split; [|split; [|split; [|split; [|split; [|split; [|split]]]]]].
  - intros rng hosts eps Heps. rewrite collect_hosts_tokens.
    unfold collect_hosts.
    by rewrite (collect_loop_endpoints py3 _ _ Heps []).
  - intros u Hu Hlen. by apply int_of_uint.
  - intros tok l r Hl Hr. apply interchangeable_intro.
    by apply host_port_pair_around.
  - intros tok r Hno Hr. apply interchangeable_intro.
    by apply host_port_pair_no_port_append.
  - intros h l r rest Hh Hl Hr. apply interchangeable_intro.
    by apply host_port_pair_host_blanks.
  - intros h l rest Hh Hl. apply interchangeable_intro.
    by apply (host_port_pair_port_blanks py3 h l rest).
  - intros rng s l r rnd Hl Hr. unfold collect_hosts, PyStr.strip.
    by rewrite (strip_by_around _ l s r Hl Hr).
  - intros rng hosts rnd result. unfold collect_hosts.
    fold (tokens py3 hosts).
    destruct (forallb (port_ok py3) (tokens py3 hosts)) eqn:Hok.
    + destruct (collect_loop_ok py3 _ [] Hok) as (more & -> & _ & Htr).
      simpl. intros [= <-]. destruct rnd; [|done].
      by rewrite shuffle_perm.
    + by rewrite (collect_loop_bad py3 _ [] Hok).
Qed.

Lemma collect_hosts_default_port_and_blanks_witness :
  collect_hosts true [2; 0]
    (HostsStr (" kafka01:9093 ,kafka02," ++ String "009" "kafka03:9094 "))
    true
  = collect_hosts true [2; 0]
      (HostsSeq ["kafka01:9093 "; "kafka02"; "kafka03:9094"]) true.
Proof.
  apply (proj1 (proj2 (proj2 (proj2
                  (collect_hosts_default_port_and_blanks true))))
           "kafka03:9094" (String "009" "") ""
           eq_refl eq_refl
           (HostsStr (" kafka01:9093 ,kafka02,"
                      ++ String "009" "kafka03:9094 "))
           (HostsSeq ["kafka01:9093 "; "kafka02"; "kafka03:9094"])
           ["kafka01:9093 "; "kafka02"] [] [2; 0] true).
  - reflexivity.
  - reflexivity.
Defined.

(** C9 does not hold as worded: a port that is not a number makes
    [collect_hosts] raise [ValueError] instead of returning a list. *)
Lemma collect_hosts_raises_on_bad_port :
  collect_hosts true [] (HostsStr "a:b") false = Raise ValueError
  /\ ~ (forall py3 rng hosts randomize,
          exists result,
            collect_hosts py3 rng hosts randomize = Return result).
Proof.
  split; [reflexivity|].
  intros H. destruct (H true [] (HostsStr "a:b") false) as [result Hr].
  vm_compute in Hr. discriminate.
Qed.

(** C9, as the code has it.  [collect_hosts] returns a list, with one
    endpoint per token, exactly when every token that has a colon has, in
    the field after its first colon, a literal that [int] accepts; it never
    hangs, and when some port field is not such a literal it raises
    [ValueError].  Nothing else about a token is checked.  For a port field
    made of digits only, [int] refuses the empty field and, on Python 3, a
    field of more than 4300 digits, and accepts every other. *)
Theorem collect_hosts_returns_iff_ports_parse py3 rng hosts randomize :
  (forallb (port_ok py3) (tokens py3 hosts) = true ->
   exists result,
     collect_hosts py3 rng hosts randomize = Return result
     /\ length result = length (tokens py3 hosts))
  /\ (forallb (port_ok py3) (tokens py3 hosts) = false ->
      collect_hosts py3 rng hosts randomize = Raise ValueError)
  /\ (forall h d,
        PyStr.contains ":" h = false ->
        all_chars is_digit d = true ->
        port_ok py3 (h ++ ":" ++ d)
        = negb (String.eqb d "" || py3 && Nat.ltb 4300 (String.length d))).
Proof.
  unfold collect_hosts. fold (tokens py3 hosts).
  split; [|split]; [intros Hok..|].
  - destruct (collect_loop_ok py3 _ [] Hok) as (more & -> & Hlen & _).
    simpl. eexists. split; [reflexivity|].
    destruct randomize; [|done].
    by rewrite (Permutation_length (shuffle_perm rng more)).
  - by rewrite (collect_loop_bad py3 _ [] Hok).
  - intros h d Hh Hd. unfold port_ok, port_field.
    change (h ++ ":" ++ d)%string with (h ++ String ":" d)%string.
    assert (Hdc : PyStr.contains ":" d = false).
    { apply (all_chars_contains is_digit); [done|exact Hd]. }
    rewrite (split_app ":" h d Hh), (split_no_sep ":" d Hdc).
    pose proof (int_digits py3 d Hd) as Hint.
    destruct (PyStr.int py3 d) as [n|] eqn:Hn; simpl.
    + symmetry. apply negb_true_iff, orb_false_intro.
      * apply String.eqb_neq. intros ->.
        discriminate (proj2 Hint (or_introl eq_refl)).
      * destruct py3; [|done]. simpl. apply Nat.ltb_ge.
        destruct (Nat.le_gt_cases (String.length d) 4300) as [|Hgt]; [done|].
        discriminate (proj2 Hint (or_intror (conj eq_refl Hgt))).
    + symmetry. apply negb_false_iff.
      destruct (proj1 Hint eq_refl) as [->|[-> Hgt]]; [done|].
      simpl. apply orb_true_intro. right. by apply Nat.ltb_lt.
Qed.

Lemma collect_hosts_returns_iff_ports_parse_witness :
  exists result,
    collect_hosts true [1; 1] (HostsStr ":9,x:1:2, :-3 ,") true
    = Return result
    /\ length result = length (tokens true (HostsStr ":9,x:1:2, :-3 ,")).
Proof.
  apply (proj1 (collect_hosts_returns_iff_ports_parse true [1; 1]
                  (HostsStr ":9,x:1:2, :-3 ,") true)).
  vm_compute. reflexivity.
Defined.

(** * What a call leaves unchanged *)

Section Keeps.

Context (R : state -> state -> Prop).
Hypothesis R_refl : forall st, R st st.
Hypothesis R_trans : forall st1 st2 st3, R st1 st2 -> R st2 st3 -> R st1 st3.
Hypothesis R_set_sock : forall s, keeps R (set_sock s).
Hypothesis R_log : forall e, bounded_read e = true -> keeps R (log_event e).

Lemma keeps_ret {A} (a : A) : keeps R (ret a).
Proof. intros st. apply R_refl. Qed.

Lemma keeps_raise {A} e : keeps R (@raise A e).
Proof. intros st. apply R_refl. Qed.

Lemma keeps_hang {A} : keeps R (@hang A).
Proof. intros st. apply R_refl. Qed.

Lemma keeps_lift {A} (o : outcome A) : keeps R (lift o).
Proof. intros st. apply R_refl. Qed.

Lemma keeps_bind {A B} (m : M A) (k : A -> M B) :
  keeps R m -> (forall a, keeps R (k a)) -> keeps R (bind m k).
Proof.
  intros Hm Hk st. unfold bind. specialize (Hm st).
  destruct (m st) as [[a|e|] st1]; simpl in *; [|done..].
  eapply R_trans; [exact Hm|apply Hk].
Qed.

Lemma keeps_try {A} (body handler : M A) caught :
  keeps R body -> keeps R handler -> keeps R (try_except body caught handler).
Proof.
  intros Hb Hh st. unfold try_except. specialize (Hb st).
  destruct (body st) as [[a|e|] st1]; simpl in *; [done| |done].
  destruct (caught e); [|done]. eapply R_trans; [exact Hb|apply Hh].
Qed.

Lemma keeps_when b (m : M unit) : keeps R m -> keeps R (when_ b m).
Proof. destruct b; [done|]. intros _. apply keeps_ret. Qed.

Lemma keeps_get_self : keeps R get_self.
Proof. intros st. apply R_refl. Qed.

Lemma keeps_get_sslopts : keeps R get_sslopts.
Proof.
  apply keeps_bind; [apply keeps_get_self|].
  intros c. destruct (sslopts c); [apply keeps_raise|apply keeps_ret].
Qed.

Lemma keeps_the_sock : keeps R the_sock.
Proof.
  apply keeps_bind; [apply keeps_get_self|].
  intros c. destruct (_sock c); [apply keeps_ret|apply keeps_raise].
Qed.

Lemma keeps_getitem d k : keeps R (getitem d k).
Proof. unfold getitem. destruct (d !! k); [apply keeps_ret|apply keeps_raise]. Qed.

Lemma keeps_str_upper v : keeps R (str_upper v).
Proof. destruct v; simpl; (apply keeps_ret || apply keeps_raise). Qed.

Lemma keeps_check_keys py3 keys : keeps R (check_keys py3 keys).
Proof.
  induction keys as [|k keys IH]; simpl; [apply keeps_ret|].
  destruct (is_supported py3 k); [done|apply keeps_raise].
Qed.

(** A read that asks for 1 to 4096 bytes, or for a negative count. *)
Lemma keeps_sock_recv n :
  (n <= 4096)%Z -> n <> 0%Z -> keeps R (sock_recv n).
Proof.
  intros Hmax Hnz. unfold sock_recv.
  apply keeps_bind; [apply keeps_the_sock|]. intros s.
  destruct (Z.ltb_spec n 0); [apply keeps_raise|].
  destruct (recvs s) as [|[k|] evs]; [apply keeps_hang| |].
  - apply keeps_bind; [apply R_set_sock|]. intros _.
    apply keeps_bind; [|intros _; apply keeps_ret].
    apply R_log. simpl.
    rewrite !andb_true_iff, Z.ltb_lt, !Z.leb_le, length_take. lia.
  - apply keeps_bind; [apply R_set_sock|]. intros _.
    apply keeps_bind; [by apply R_log|]. intros _. apply keeps_raise.
Qed.

Lemma keeps_sock_sendall payload : keeps R (sock_sendall payload).
Proof.
  unfold sock_sendall.
  apply keeps_bind; [apply keeps_the_sock|]. intros s.
  destruct (sends s) as [|ok evs]; [apply keeps_hang|].
  apply keeps_bind; [apply R_set_sock|]. intros _.
  apply keeps_bind; [by apply R_log|]. intros _.
  destruct ok; [apply keeps_ret|apply keeps_raise].
Qed.

Lemma keeps_sock_shutdown : keeps R sock_shutdown.
Proof.
  unfold sock_shutdown.
  apply keeps_bind; [apply keeps_the_sock|]. intros s.
  apply keeps_bind; [by apply R_log|]. intros _.
  destruct (shutdown_ok s); [apply keeps_ret|apply keeps_raise].
Qed.

Lemma keeps_sock_close : keeps R sock_close.
Proof.
  unfold sock_close.
  apply keeps_bind; [apply keeps_the_sock|]. intros _. by apply R_log.
Qed.

Lemma keeps_ssl_wrap_socket args : keeps R (ssl_wrap_socket args).
Proof.
  unfold ssl_wrap_socket.
  apply keeps_bind; [apply keeps_the_sock|]. intros s.
  destruct (key_without_cert args); [apply keeps_raise|].
  apply keeps_bind; [by apply R_log|]. intros _.
  destruct (handshake s) as [|d|d]; [apply keeps_ret|..];
    (apply keeps_bind; [|intros _; apply keeps_raise]);
    (destruct d; [apply R_set_sock|apply keeps_ret]).
Qed.

Lemma keeps_close : keeps R close.
Proof.
  unfold close. apply keeps_bind; [apply keeps_get_self|]. intros c.
  destruct (truthy (_sock c)); [|apply keeps_ret].
  apply keeps_bind.
  { apply keeps_try; [apply keeps_sock_shutdown|apply keeps_ret]. }
  intros _. apply keeps_bind; [apply keeps_sock_close|].
  intros _. apply R_set_sock.
Qed.

Lemma keeps_raise_connection_error {A} : keeps R (@_raise_connection_error A).
Proof.
  unfold _raise_connection_error.
  apply keeps_bind; [apply keeps_get_self|]. intros c.
  apply keeps_bind; [apply keeps_when, keeps_close|].
  intros _. apply keeps_raise.
Qed.

Lemma keeps_ssl_wrapper py3 : keeps R (ssl_wrapper py3).
Proof.
  unfold ssl_wrapper. apply keeps_bind; [apply keeps_get_sslopts|].
  intros [opts|]; [|apply keeps_raise].
  apply keeps_bind; [apply keeps_check_keys|]. intros _.
  apply keeps_bind.
  { destruct (has_key "cert_reqs" opts);
      [apply keeps_getitem|apply keeps_ret]. }
  intros cr. apply keeps_try; [|apply keeps_ret].
  apply keeps_bind; [apply keeps_ssl_wrap_socket|].
  intros s. apply R_set_sock.
Qed.

Lemma keeps_after_dial py3 : keeps R (after_dial py3).
Proof.
  unfold after_dial. apply keeps_bind; [apply keeps_get_sslopts|].
  intros [opts|]; [|apply keeps_ret].
  destruct (dict_truthy opts && has_key "security.protocol" opts);
    [|apply keeps_ret].
  apply keeps_bind; [apply keeps_getitem|]. intros v.
  apply keeps_bind; [apply keeps_str_upper|]. intros u.
  destruct (String.eqb u "SSL"); [apply keeps_ssl_wrapper|apply keeps_ret].
Qed.

Lemma keeps_read_loop py3 fuel : forall bytes_left responses,
  keeps R (read_loop py3 fuel bytes_left responses).
Proof.
  induction fuel as [|fuel IH]; intros bl rs; simpl;
    destruct (Z.eqb_spec bl 0); try apply keeps_ret; [apply keeps_hang|].
  apply keeps_bind; [|intros data; apply IH].
  apply keeps_try; [|apply keeps_raise_connection_error].
  apply keeps_bind; [apply keeps_sock_recv; lia|]. intros data.
  destruct (is_empty_str py3 data); [apply keeps_raise|apply keeps_ret].
Qed.

Lemma keeps_send_write payload :
  keeps R (try_except (sock_sendall payload) is_socket_error
             (@_raise_connection_error unit)).
Proof.
  apply keeps_try; [apply keeps_sock_sendall|].
  apply keeps_raise_connection_error.
Qed.

(** When dialling keeps [R] as well, so do the public operations. *)
Hypothesis R_dial : forall h p t, keeps R (create_connection h p t).

Lemma keeps_reinit py3 : keeps R (reinit py3).
Proof.
  unfold reinit. apply keeps_bind; [apply keeps_get_self|]. intros c.
  apply keeps_bind; [apply keeps_when, keeps_close|]. intros _.
  apply keeps_try; [|apply keeps_raise_connection_error].
  apply keeps_bind; [apply R_dial|]. intros s.
  apply keeps_bind; [apply R_set_sock|]. intros _.
  apply keeps_after_dial.
Qed.

Lemma keeps_read_bytes py3 n : keeps R (_read_bytes py3 n).
Proof.
  unfold _read_bytes. apply keeps_bind; [apply keeps_get_self|]. intros c.
  apply keeps_bind; [apply keeps_when, keeps_reinit|]. intros _.
  apply keeps_bind; [apply keeps_get_self|]. intros c'.
  apply keeps_bind; [apply keeps_read_loop|]. intros rs. apply keeps_ret.
Qed.

Lemma keeps_send py3 rid payload : keeps R (send py3 rid payload).
Proof.
  unfold send. apply keeps_bind; [apply keeps_get_self|]. intros c.
  apply keeps_bind; [apply keeps_when, keeps_reinit|]. intros _.
  apply keeps_send_write.
Qed.

Lemma keeps_recv py3 rid : keeps R (recv py3 rid).
Proof.
  unfold recv. apply keeps_bind; [apply keeps_read_bytes|]. intros resp.
  apply keeps_bind; [apply keeps_lift|]. intros size.
  apply keeps_read_bytes.
Qed.

End Keeps.

(** ** No dial *)

Lemma same_dials_refl st : same_dials st st.
Proof. done. Qed.

Lemma same_dials_trans st1 st2 st3 :
  same_dials st1 st2 -> same_dials st2 st3 -> same_dials st1 st3.
Proof. unfold same_dials. congruence. Qed.

Lemma same_dials_set_sock s : keeps same_dials (set_sock s).
Proof. done. Qed.

Lemma same_dials_log e : bounded_read e = true -> keeps same_dials (log_event e).
Proof. done. Qed.

Lemma same_dials_after_dial py3 :
  keeps same_dials
    (try_except (after_dial py3) is_socket_error
       (@_raise_connection_error unit)).
Proof.
  apply (keeps_try same_dials same_dials_trans).
  - exact (keeps_after_dial same_dials same_dials_refl same_dials_trans
             same_dials_set_sock same_dials_log py3).
  - exact (keeps_raise_connection_error same_dials same_dials_refl
             same_dials_trans same_dials_set_sock same_dials_log).
Qed.

Lemma same_dials_read_loop py3 fuel bytes_left responses :
  keeps same_dials (read_loop py3 fuel bytes_left responses).
Proof.
  exact (keeps_read_loop same_dials same_dials_refl same_dials_trans
           same_dials_set_sock same_dials_log py3 fuel bytes_left responses).
Qed.

Lemma same_dials_send_write payload :
  keeps same_dials
    (try_except (sock_sendall payload) is_socket_error
       (@_raise_connection_error unit)).
Proof.
  exact (keeps_send_write same_dials same_dials_refl same_dials_trans
           same_dials_set_sock same_dials_log payload).
Qed.

Lemma same_dials_close : keeps same_dials close.
Proof.
  exact (keeps_close same_dials same_dials_refl same_dials_trans
           same_dials_set_sock same_dials_log).
Qed.

(** ** Reads of 1 to 4096 bytes *)

Lemma reads_bounded_refl st : reads_bounded st st.
Proof. exists []. by rewrite app_nil_r. Qed.

Lemma reads_bounded_trans st1 st2 st3 :
  reads_bounded st1 st2 -> reads_bounded st2 st3 -> reads_bounded st1 st3.
Proof.
  intros (evs1 & H1 & Hb1) (evs2 & H2 & Hb2). exists (evs1 ++ evs2).
  by rewrite H2, H1, app_assoc, forallb_app, Hb1, Hb2.
Qed.

Lemma reads_bounded_set_sock s : keeps reads_bounded (set_sock s).
Proof. intros st. exists []. simpl. by rewrite app_nil_r. Qed.

Lemma reads_bounded_log e :
  bounded_read e = true -> keeps reads_bounded (log_event e).
Proof. intros He st. exists [e]. simpl. by rewrite He. Qed.

Lemma reads_bounded_dial h p t : keeps reads_bounded (create_connection h p t).
Proof.
  intros st. unfold create_connection.
  destruct (dials (net st)) as [|[s|] ds]; simpl.
  - apply reads_bounded_refl.
  - by eexists [_].
  - by eexists [_].
Qed.

(** ** Staying connected *)

Section StaysLive.

Lemma stays_live_same {A} (m : M A) :
  (forall st, self (m st).2 = self st) -> stays_live m.
Proof. intros Hm st Hlive _. unfold connected. by rewrite Hm. Qed.

Lemma stays_live_bind {A B} (m : M A) (k : A -> M B) :
  stays_live m -> (forall a, stays_live (k a)) -> stays_live (bind m k).
Proof.
  intros Hm Hk st Hlive. unfold bind. specialize (Hm st Hlive).
  destruct (m st) as [[a|e|] st1]; simpl in *.
  - apply Hk. by apply Hm.
  - intros He. apply Hm. congruence.
  - intros _. by apply Hm.
Qed.

Lemma stays_live_try {A} (body handler : M A) caught :
  caught ConnectionError = false ->
  stays_live body -> stays_live handler ->
  stays_live (try_except body caught handler).
Proof.
  intros Hc Hb Hh st Hlive. unfold try_except. specialize (Hb st Hlive).
  destruct (body st) as [[a|e|] st1]; simpl in *; [done| |done].
  destruct (caught e) eqn:He; [|done].
  apply Hh, Hb. congruence.
Qed.

Lemma stays_live_raise_connection_error {A} :
  stays_live (@_raise_connection_error A).
Proof.
  intros [c w] _. by rewrite raise_connection_error_eq.
Qed.

Lemma stays_live_sock_recv n : stays_live (sock_recv n).
Proof.
  intros [[h p t s o] w] Hlive _. unfold sock_recv, bind, connected; simpl.
  destruct s as [s|]; [|done]. simpl.
  destruct (n <? 0)%Z; [done|].
  by destruct (recvs s) as [|[k|] evs].
Qed.

Lemma stays_live_sock_sendall payload : stays_live (sock_sendall payload).
Proof.
  intros [[h p t s o] w] Hlive _. unfold sock_sendall, bind, connected; simpl.
  destruct s as [s|]; [|done]. simpl.
  by destruct (sends s) as [|[] evs].
Qed.

Lemma stays_live_wrap_assign args :
  stays_live (s <- ssl_wrap_socket args ;; set_sock (Some s)).
Proof.
  intros [[h p t s o] w] Hlive _. unfold ssl_wrap_socket, bind, connected; simpl.
  destruct s as [s|]; [|done]. simpl.
  destruct (key_without_cert args); [done|]. simpl.
  by destruct (handshake s) as [|[]|[]].
Qed.

Lemma stays_live_get_sslopts : stays_live get_sslopts.
Proof.
  apply stays_live_same. intros [[h p t s o] w].
  unfold get_sslopts, bind; simpl. by destruct o.
Qed.

Lemma stays_live_getitem d k : stays_live (getitem d k).
Proof.
  apply stays_live_same. intros st. unfold getitem. by destruct (d !! k).
Qed.

Lemma stays_live_str_upper v : stays_live (str_upper v).
Proof. apply stays_live_same. intros st. by destruct v. Qed.

Lemma stays_live_check_keys py3 keys : stays_live (check_keys py3 keys).
Proof.
  apply stays_live_same. intros st.
  induction keys as [|k keys IH]; simpl; [done|].
  by destruct (is_supported py3 k).
Qed.

Lemma stays_live_ret {A} (a : A) : stays_live (ret a).
Proof. by apply stays_live_same. Qed.

Lemma stays_live_raise {A} e : stays_live (@raise A e).
Proof. by apply stays_live_same. Qed.

Lemma stays_live_ssl_wrapper py3 : stays_live (ssl_wrapper py3).
Proof.
  unfold ssl_wrapper. apply stays_live_bind; [apply stays_live_get_sslopts|].
  intros [opts|]; [|apply stays_live_raise].
  apply stays_live_bind; [apply stays_live_check_keys|]. intros _.
  apply stays_live_bind.
  { destruct (has_key "cert_reqs" opts);
      [apply stays_live_getitem|apply stays_live_ret]. }
  intros cr.
  apply stays_live_try; [done|apply stays_live_wrap_assign|apply stays_live_ret].
Qed.

Lemma stays_live_after_dial py3 : stays_live (after_dial py3).
Proof.
  unfold after_dial. apply stays_live_bind; [apply stays_live_get_sslopts|].
  intros [opts|]; [|apply stays_live_ret].
  destruct (dict_truthy opts && has_key "security.protocol" opts);
    [|apply stays_live_ret].
  apply stays_live_bind; [apply stays_live_getitem|]. intros v.
  apply stays_live_bind; [apply stays_live_str_upper|]. intros u.
  destruct (String.eqb u "SSL");
    [apply stays_live_ssl_wrapper|apply stays_live_ret].
Qed.

Lemma stays_live_read_loop py3 fuel : forall bytes_left responses,
  stays_live (read_loop py3 fuel bytes_left responses).
Proof.
  induction fuel as [|fuel IH]; intros bl rs; simpl;
    destruct (Z.eqb_spec bl 0); try apply stays_live_ret;
    [by apply stays_live_same|].
  apply stays_live_bind; [|intros data; apply IH].
  apply stays_live_try; [done| |apply stays_live_raise_connection_error].
  apply stays_live_bind; [apply stays_live_sock_recv|]. intros data.
  destruct (is_empty_str py3 data);
    [apply stays_live_raise|apply stays_live_ret].
Qed.

Lemma stays_live_send_write payload :
  stays_live (try_except (sock_sendall payload) is_socket_error
                (@_raise_connection_error unit)).
Proof.
  apply stays_live_try;
    [done|apply stays_live_sock_sendall|apply stays_live_raise_connection_error].
Qed.

End StaysLive.

(** When [reinit] returns, the object holds a socket. *)
Lemma reinit_returns_connected py3 st :
  (reinit py3 st).1 = Return tt -> connected (reinit py3 st).2.
Proof.
  destruct st as [c w]. rewrite reinit_eq. simpl.
  destruct (dials w) as [|[s|] ds]; [done| |done].
  intros Hret.
  apply (stays_live_try _ _ is_socket_error eq_refl
           (stays_live_after_dial py3)
           (@stays_live_raise_connection_error unit)); [done|].
  by rewrite Hret.
Qed.

(** The lazy dial of [send] and [_read_bytes]: once past it, the object is
    connected. *)
Lemma lazy_dial_connected py3 st :
  (when_ (negb (truthy (_sock (self st)))) (reinit py3) st).1 = Return tt ->
  connected (when_ (negb (truthy (_sock (self st)))) (reinit py3) st).2.
Proof.
  destruct (_sock (self st)) eqn:Hs; simpl.
  - intros _. unfold connected. by rewrite Hs.
  - apply reinit_returns_connected.
Qed.

Lemma lazy_dial_dials py3 st :
  dials (net (when_ (negb (truthy (_sock (self st)))) (reinit py3) st).2)
  = if truthy (_sock (self st)) then dials (net st) else tl (dials (net st)).
Proof.
  destruct (_sock (self st)) eqn:Hs; simpl; [done|].
  destruct st as [c [ds0 tr]]. rewrite reinit_eq. simpl.
  destruct ds0 as [|[s|] ds]; [done| |done].
  apply same_dials_after_dial.
Qed.

Lemma read_bytes_returns_connected py3 n st resp :
  (_read_bytes py3 n st).1 = Return resp ->
  connected (_read_bytes py3 n st).2.
Proof.
  rewrite read_bytes_eq.
  pose proof (lazy_dial_connected py3 st) as Hlive.
  destruct (when_ (negb (truthy (_sock (self st)))) (reinit py3) st)
    as [[[]|e|] st1]; [|done..].
  specialize (Hlive eq_refl). simpl in Hlive.
  pose proof (stays_live_read_loop py3 (S (length (script st1))) n [] st1 Hlive)
    as Hloop.
  destruct (read_loop py3 (S (length (script st1))) n [] st1)
    as [[rs|e|] st2]; [|done..].
  intros _. by apply Hloop.
Qed.

Lemma read_bytes_dials py3 n st :
  dials (net (_read_bytes py3 n st).2)
  = if truthy (_sock (self st)) then dials (net st) else tl (dials (net st)).
Proof.
  rewrite <- (lazy_dial_dials py3 st). rewrite read_bytes_eq.
  destruct (when_ (negb (truthy (_sock (self st)))) (reinit py3) st)
    as [[[]|e|] st1]; [|done..].
  pose proof (same_dials_read_loop py3 (S (length (script st1))) n [] st1)
    as Hloop.
  by destruct (read_loop py3 (S (length (script st1))) n [] st1)
    as [[rs|e|] st2].
Qed.

(** * Further properties of the transport *)

Lemma close_leaves_disconnected st : _sock (self (close st).2) = None.
Proof. destruct st as [c w]. by rewrite close_eq. Qed.

(** X3. [close] never raises, not even when the shutdown fails: it makes the
    shutdown and the close of the socket it holds, leaves the object without
    a socket, and a second [close] does nothing at all. *)
Theorem close_never_raises_and_is_idempotent st :
  (close st).1 = Return tt
  /\ _sock (self (close st).2) = None
  /\ trace (net (close st).2) = trace (net st) ++ close_events (self st)
  /\ dials (net (close st).2) = dials (net st)
  /\ close (close st).2 = (Return tt, (close st).2).
Proof.
  destruct st as [c w]. rewrite close_eq. simpl.
  repeat split.
Qed.

Lemma sock_sendall_returns payload st st' :
  sock_sendall payload st = (Return tt, st') ->
  connected st'
  /\ trace (net st') = trace (net st) ++ [EvSendall payload true].
Proof.
  destruct st as [[h p t s o] [ds tr]].
  unfold sock_sendall, bind, connected; simpl.
  destruct s as [s|]; [|done]. simpl.
  destruct (sends s) as [|[] evs]; simpl; [done| |done].
  by intros [= <-].
Qed.

(** [send]: the lazy dial, then the write. *)
Lemma send_eq py3 rid payload st :
  send py3 rid payload st
  = match when_ (negb (truthy (_sock (self st)))) (reinit py3) st with
    | (Return _, st1) =>
        try_except (sock_sendall payload) is_socket_error
          _raise_connection_error st1
    | (Raise e, st1) => (Raise e, st1)
    | (Hang, st1) => (Hang, st1)
    end.
Proof.
  unfold send, bind, get_self.
  by destruct (when_ (negb (truthy (_sock (self st)))) (reinit py3) st)
    as [[[]|e|] st1].
Qed.

(** The write of [send] returns only after a [sendall] that succeeded. *)
Lemma send_write_returns payload st :
  (try_except (sock_sendall payload) is_socket_error
     (@_raise_connection_error unit) st).1 = Return tt ->
  connected (try_except (sock_sendall payload) is_socket_error
               (@_raise_connection_error unit) st).2
  /\ trace (net (try_except (sock_sendall payload) is_socket_error
                   (@_raise_connection_error unit) st).2)
     = trace (net st) ++ [EvSendall payload true].
Proof.
  unfold try_except.
  destruct (sock_sendall payload st) as [[[]|e|] st2] eqn:Hw; simpl.
  - intros _. by apply sock_sendall_returns in Hw.
  - destruct (is_socket_error e); [|done].
    destruct st2 as [c2 w2]. by rewrite raise_connection_error_eq.
  - done.
Qed.

(** X4. When [send] returns, the last socket call it made is one [sendall]
    of the whole payload, which succeeded, and the object is connected; after
    a write that failed [send] never returns. *)
Theorem send_returns_after_full_write py3 rid payload st :
  (send py3 rid payload st).1 = Return tt ->
  connected (send py3 rid payload st).2
  /\ exists tr,
       trace (net (send py3 rid payload st).2)
       = tr ++ [EvSendall payload true].
Proof.
  rewrite send_eq.
  destruct (when_ (negb (truthy (_sock (self st)))) (reinit py3) st)
    as [[[]|e|] st1]; [|done..].
  intros Hret. apply send_write_returns in Hret as [Hlive Htr].
  split; [done|]. by exists (trace (net st1)).
Qed.

Lemma send_returns_after_full_write_witness :
  connected (send false 5 [x6f; x6b] ready_client).2
  /\ exists tr,
       trace (net (send false 5 [x6f; x6b] ready_client).2)
       = tr ++ [EvSendall [x6f; x6b] true].
Proof.
  apply (send_returns_after_full_write false 5 [x6f; x6b] ready_client).
  vm_compute. reflexivity.
Defined.

(** [recv]: the prefix, its size, the payload. *)
Lemma recv_eq py3 rid st :
  recv py3 rid st
  = match _read_bytes py3 4 st with
    | (Return resp, st1) =>
        match unpack_be_i32 resp with
        | Return size => _read_bytes py3 size st1
        | Raise e => (Raise e, st1)
        | Hang => (Hang, st1)
        end
    | (Raise e, st1) => (Raise e, st1)
    | (Hang, st1) => (Hang, st1)
    end.
Proof.
  unfold recv, bind, lift.
  destruct (_read_bytes py3 4 st) as [[resp|e|] st1]; [|done..].
  by destruct (unpack_be_i32 resp).
Qed.

(** X5. The outcome tells the connection state: when [reinit], [send] or
    [recv] returns, the object holds a socket; when [close] returns it holds
    none. *)
Theorem returns_connected_unless_close py3 o st :
  (exec py3 o st).1 = Return tt ->
  (_sock (self (exec py3 o st).2) = None <-> o = OpClose).
Proof.
  destruct o as [|rid payload|rid|]; simpl; intros Hret.
  - split; [|done]. intros Hnone.
    by destruct (reinit_returns_connected py3 st Hret).
  - split; [|done]. intros Hnone. revert Hret Hnone. rewrite send_eq.
    destruct (when_ (negb (truthy (_sock (self st)))) (reinit py3) st)
      as [[[]|e|] st1]; [|done..].
    intros Hret Hnone. by destruct (proj1 (send_write_returns _ _ Hret)).
  - split; [|done]. intros Hnone. revert Hret Hnone. rewrite recv_eq.
    destruct (_read_bytes py3 4 st) as [[resp|e|] st1]; [|done..].
    destruct (unpack_be_i32 resp) as [size|e|]; [|done..].
    pose proof (read_bytes_returns_connected py3 size st1) as Hlive.
    destruct (_read_bytes py3 size st1) as [[payload|e|] st2]; [|done..].
    simpl. intros _ Hnone. by destruct (Hlive payload eq_refl).
  - split; [done|]. intros _.
    apply close_leaves_disconnected.
Qed.

Lemma returns_connected_unless_close_witness :
  _sock (self (exec true (OpSend 5 [x6f; x6b]) ready_client).2) = None
  <-> OpSend 5 [x6f; x6b] = OpClose.
Proof.
  apply (returns_connected_unless_close true (OpSend 5 [x6f; x6b])
           ready_client).
  vm_compute. reflexivity.
Defined.

(** X6. Dials are made one at a time and only when needed: [reinit] takes
    exactly one dial from the network, [send] and [recv] take exactly one
    when the object holds no socket and none when it holds one, [close]
    takes none; a dial that failed is not tried again. *)
Theorem dial_attempts py3 o st :
  dials (net (exec py3 o st).2) = dials_left o st.
Proof.
  destruct o as [|rid payload|rid|]; simpl.
  - destruct st as [c [ds0 tr]]. rewrite reinit_eq. simpl.
    destruct ds0 as [|[s|] ds]; [done| |done].
    apply same_dials_after_dial.
  - rewrite <- (lazy_dial_dials py3 st), send_eq.
    destruct (when_ (negb (truthy (_sock (self st)))) (reinit py3) st)
      as [[[]|e|] st1]; [|done..].
    apply same_dials_send_write.
  - rewrite <- (read_bytes_dials py3 4 st), recv_eq.
    pose proof (read_bytes_returns_connected py3 4 st) as Hlive.
    destruct (_read_bytes py3 4 st) as [[resp|e|] st1]; [|done..].
    destruct (unpack_be_i32 resp) as [size|e|]; [|done..].
    rewrite read_bytes_dials. simpl.
    specialize (Hlive resp eq_refl). unfold connected in Hlive. simpl in Hlive.
    by destruct (_sock (self st1)).
  - apply same_dials_close.
Qed.

(** X12. Whatever the operation and its outcome, the trace only grows, and
    every read that reached the socket asked it for at least 1 and at most
    4096 bytes and got no more bytes than it asked for.  A request for a
    negative number of bytes, which [recv] makes after a negative size
    prefix, is not among them: it is refused with [ValueError] before it
    reaches the socket, so nothing is read and the trace has no entry for
    it. *)
Theorem reads_ask_for_at_most_4096 py3 o st :
  (exists evs,
     trace (net (exec py3 o st).2) = trace (net st) ++ evs
     /\ forallb bounded_read evs = true)
  /\ (forall n c s w,
        (n < 0)%Z ->
        _read_bytes py3 n (State (with_sock c (Some s)) w)
        = (Raise ValueError, State (with_sock c (Some s)) w)).
Proof.
  split.
  - change (reads_bounded st (exec py3 o st).2).
    destruct o as [|rid payload|rid|]; simpl.
    + exact (keeps_reinit reads_bounded reads_bounded_refl reads_bounded_trans
               reads_bounded_set_sock reads_bounded_log reads_bounded_dial
               py3 st).
    + exact (keeps_send reads_bounded reads_bounded_refl reads_bounded_trans
               reads_bounded_set_sock reads_bounded_log reads_bounded_dial
               py3 rid payload st).
    + exact (keeps_recv reads_bounded reads_bounded_refl reads_bounded_trans
               reads_bounded_set_sock reads_bounded_log reads_bounded_dial
               py3 rid st).
    + exact (keeps_close reads_bounded reads_bounded_refl reads_bounded_trans
               reads_bounded_set_sock reads_bounded_log st).
  - intros n c s w Hn. rewrite read_bytes_live.
    erewrite read_loop_step_raise; [done|lia| |done].
    apply sock_recv_negative. lia.
Qed.

Lemma reads_ask_for_at_most_4096_witness :
  _read_bytes true (-2)
    (State (with_sock (self starved_client) (Some (fresh_socket [x68] [Chunk 0])))
           (net starved_client))
  = (Raise ValueError,
     State (with_sock (self starved_client) (Some (fresh_socket [x68] [Chunk 0])))
           (net starved_client)).
Proof.
  apply (proj2 (reads_ask_for_at_most_4096 true OpClose starved_client)
           (-2)%Z (self starved_client) (fresh_socket [x68] [Chunk 0])
           (net starved_client)).
  lia.
Defined.

Lemma reads_bounded_after_dial py3 :
  keeps reads_bounded
    (try_except (after_dial py3) is_socket_error
       (@_raise_connection_error unit)).
Proof.
  apply (keeps_try reads_bounded reads_bounded_trans).
  - exact (keeps_after_dial reads_bounded reads_bounded_refl
             reads_bounded_trans reads_bounded_set_sock reads_bounded_log py3).
  - exact (keeps_raise_connection_error reads_bounded reads_bounded_refl
             reads_bounded_trans reads_bounded_set_sock reads_bounded_log).
Qed.

(** X7. [reinit] gives up the old connection before it dials: the socket
    held, if any, is shut down and closed first (a failing shutdown is passed
    over), then comes the connect to [host], [port] with [timeout].  When
    that dial fails, [reinit] raises [ConnectionError] and the object is left
    without any socket, the old one included. *)
Theorem reinit_closes_before_dial py3 c w d ds :
  dials w = d :: ds ->
  (exists evs,
     trace (net (reinit py3 (State c w)).2)
     = trace w ++ close_events c
       ++ EvConnect (host c) (port c) (timeout c) (dial_ok d) :: evs)
  /\ (d = DialFails ->
      reinit py3 (State c w)
      = (Raise ConnectionError,
         State (with_sock c None)
               (World ds (trace w ++ close_events c
                          ++ [EvConnect (host c) (port c) (timeout c)
                                        false])))).
Proof.
  intros Hd. rewrite reinit_eq. simpl. rewrite Hd.
  destruct d as [s|]; simpl; split; try done.
  - destruct (reads_bounded_after_dial py3
                (State (with_sock c (Some s))
                   (World ds ((trace w ++ close_events c)
                              ++ [EvConnect (host c) (port c) (timeout c)
                                            true]))))
      as (evs & -> & _).
    exists evs. simpl. by rewrite <- !app_assoc.
  - exists []. by rewrite <- app_assoc.
  - intros _. by rewrite <- app_assoc.
Qed.

Lemma reinit_closes_before_dial_witness :
  (exists evs,
     trace (net (reinit true
                   (State (self starved_client)
                      (World [DialFails] (trace (net starved_client))))).2)
     = trace (net starved_client) ++ close_events (self starved_client)
       ++ EvConnect "broker" 9092 (Some 120%Z) (dial_ok DialFails) :: evs)
  /\ (DialFails = DialFails ->
      reinit true
        (State (self starved_client)
           (World [DialFails] (trace (net starved_client))))
      = (Raise ConnectionError,
         State (with_sock (self starved_client) None)
               (World [] (trace (net starved_client)
                          ++ close_events (self starved_client)
                          ++ [EvConnect "broker" 9092 (Some 120%Z) false])))).
Proof.
  apply (reinit_closes_before_dial true (self starved_client)
           (World [DialFails] (trace (net starved_client))) DialFails []).
  reflexivity.
Defined.

(** X17. On an object that holds no socket, [recv] is [reinit] followed by
    [recv], and [send] is [reinit] followed by [send]: the dial is made
    first, its failure is the failure of the whole call, and nothing is read
    or written before it has succeeded. *)
Theorem disconnected_calls_dial_first py3 rid payload st :
  _sock (self st) = None ->
  recv py3 rid st = (reinit py3 ;;; recv py3 rid) st
  /\ send py3 rid payload st = (reinit py3 ;;; send py3 rid payload) st.
Proof.
  intros Hnone. unfold bind.
  pose proof (reinit_returns_connected py3 st) as Hlive.
  split.
  - rewrite recv_eq, read_bytes_eq, Hnone. simpl.
    destruct (reinit py3 st) as [[[]|e|] st1]; [|done..].
    specialize (Hlive eq_refl). unfold connected in Hlive. simpl in Hlive.
    rewrite recv_eq, read_bytes_eq.
    by destruct (_sock (self st1)).
  - rewrite send_eq, Hnone. simpl.
    destruct (reinit py3 st) as [[[]|e|] st1]; [|done..].
    specialize (Hlive eq_refl). unfold connected in Hlive. simpl in Hlive.
    rewrite send_eq.
    by destruct (_sock (self st1)).
Qed.

Lemma disconnected_calls_dial_first_witness :
  recv true 2 ready_client = (reinit true ;;; recv true 2) ready_client
  /\ send true 2 [x6f] ready_client
     = (reinit true ;;; send true 2 [x6f]) ready_client.
Proof.
  apply (disconnected_calls_dial_first true 2 [x6f] ready_client).
  reflexivity.
Defined.

(** * Outcomes of the TLS upgrade *)

Lemma accepted_key_cert args :
  accepted args = true -> key_without_cert args = false.
Proof.
  unfold accepted. intros H. apply andb_prop in H as [_ H].
  by apply negb_true_iff.
Qed.

(** [ssl_wrapper] on options that pass the key check and do not set
    ['cert_reqs'], by what the handshake does. *)
Lemma ssl_wrapper_handshake py3 c w opts s :
  sslopts c = Attr (Some opts) ->
  keys_supported py3 opts = true ->
  has_key "cert_reqs" opts = false ->
  key_without_cert (wrap_args py3 opts) = false ->
  ssl_wrapper py3 (State (with_sock c (Some s)) w)
  = match handshake s with
    | WrapOk =>
        (Return tt,
         State (with_sock c (Some (wrapped s (wrap_args py3 opts))))
               (logged w [EvWrap (wrap_args py3 opts) WrapOk]))
    | WrapSSLError detached =>
        (Return tt,
         State (with_sock c (Some (if detached then detach s else s)))
               (logged w [EvWrap (wrap_args py3 opts)
                                 (WrapSSLError detached)]))
    | WrapSocketError detached =>
        (Raise SocketError,
         State (with_sock c (Some (if detached then detach s else s)))
               (logged w [EvWrap (wrap_args py3 opts)
                                 (WrapSocketError detached)]))
    end.
Proof.
  intros Hopts Hall Hcr Hkey.
  destruct c as [h p t sk o]; simpl in *; subst.
  unfold ssl_wrapper, get_sslopts, bind at 1 2. simpl.
  unfold bind at 1. rewrite check_keys_ok by done.
  rewrite Hcr. unfold bind at 1. simpl.
  fold (wrap_args py3 opts).
  unfold try_except, ssl_wrap_socket, bind. simpl. rewrite Hkey. simpl.
  unfold wrapped. by destruct (handshake s) as [|[]|[]].
Qed.

(** The same options with a key and no certificate: [ssl.wrap_socket]
    refuses them before it touches the socket. *)
Lemma ssl_wrapper_refused py3 c w opts s :
  sslopts c = Attr (Some opts) ->
  keys_supported py3 opts = true ->
  has_key "cert_reqs" opts = false ->
  key_without_cert (wrap_args py3 opts) = true ->
  ssl_wrapper py3 (State (with_sock c (Some s)) w)
  = (Raise ValueError, State (with_sock c (Some s)) w).
Proof.
  intros Hopts Hall Hcr Hkey.
  destruct c as [h p t sk o]; simpl in *; subst.
  unfold ssl_wrapper, get_sslopts, bind at 1 2. simpl.
  unfold bind at 1. rewrite check_keys_ok by done.
  rewrite Hcr. unfold bind at 1. simpl.
  fold (wrap_args py3 opts).
  unfold try_except, ssl_wrap_socket, bind. simpl. by rewrite Hkey.
Qed.

(** [reinit] with TLS selected, up to the call of [ssl_wrapper]. *)
Lemma reinit_tls py3 c w opts s ds :
  sslopts c = Attr (Some opts) ->
  selects_tls opts = true ->
  dials w = DialOk s :: ds ->
  reinit py3 (State c w)
  = try_except (ssl_wrapper py3) is_socket_error _raise_connection_error
      (State (with_sock c (Some s))
             (World ds (trace w ++ close_events c
                        ++ [EvConnect (host c) (port c) (timeout c) true]))).
Proof.
  intros Hopts Hsel Hd. rewrite reinit_eq. simpl. rewrite Hd.
  unfold try_except. rewrite (after_dial_tls py3 _ _ opts) by done.
  by rewrite <- app_assoc.
Qed.

(** A detached socket fails at its first use, and is dropped there. *)
Lemma send_detached py3 rid payload c s w :
  send py3 rid payload (State (with_sock c (Some (detach s))) w)
  = (Raise ConnectionError,
     State (with_sock c None)
           (logged w [EvSendall payload false; EvShutdown false; EvClose])).
Proof.
  rewrite send_eq. simpl.
  unfold try_except, sock_sendall, bind. simpl.
  rewrite raise_connection_error_eq.
  destruct c as [h p t sk o], w as [ds tr].
  unfold logged, close_events, with_sock. simpl. by rewrite <- app_assoc.
Qed.

Lemma recv_detached py3 rid c s w :
  recv py3 rid (State (with_sock c (Some (detach s))) w)
  = (Raise ConnectionError,
     State (with_sock c None)
           (logged w [EvRecvError; EvShutdown false; EvClose])).
Proof.
  rewrite recv_eq, read_bytes_live.
  rewrite (read_loop_step_error py3 _ 4 []
             (State (with_sock c (Some (detach s))) w) SocketError
             (State (with_sock c
                       (Some (Socket [] [] [false] false (handshake s)
                                     (tls s))))
                    (logged w [EvRecvError]))); [|done..].
  destruct c as [h p t sk o], w as [ds tr].
  unfold logged, close_events, with_sock. simpl. by rewrite <- app_assoc.
Qed.

(** X8. An [ssl.SSLError] of the TLS upgrade is logged and passed over:
    [reinit] returns as if nothing had happened, and the object holds the
    plain socket of the dial, not wrapped.  When the error came from a
    handshake that had detached that socket, the object is left with a dead
    socket: the next [send] or [recv] fails on it, closes it and raises
    [ConnectionError]. *)
Theorem tls_handshake_error_is_swallowed py3 c w opts s ds detached :
  sslopts c = Attr (Some opts) ->
  selects_tls opts = true ->
  keys_supported py3 opts = true ->
  has_key "cert_reqs" opts = false ->
  accepted (wrap_args py3 opts) = true ->
  dials w = DialOk s :: ds ->
  handshake s = WrapSSLError detached ->
  reinit py3 (State c w)
  = (Return tt,
     State (with_sock c (Some (if detached then detach s else s)))
           (World ds (trace w ++ close_events c
                      ++ [EvConnect (host c) (port c) (timeout c) true;
                          EvWrap (wrap_args py3 opts)
                                 (WrapSSLError detached)])))
  /\ (detached = true ->
      forall rid payload,
        ((reinit py3 ;;; send py3 rid payload) (State c w)).1
        = Raise ConnectionError
        /\ ((reinit py3 ;;; recv py3 rid) (State c w)).1
           = Raise ConnectionError
        /\ _sock (self ((reinit py3 ;;; send py3 rid payload) (State c w)).2)
           = None
        /\ _sock (self ((reinit py3 ;;; recv py3 rid) (State c w)).2) = None).
Proof.
  intros Hopts Hsel Hall Hcr Hacc Hd Hhs.
  assert (Hre : reinit py3 (State c w)
    = (Return tt,
       State (with_sock c (Some (if detached then detach s else s)))
             (World ds (trace w ++ close_events c
                        ++ [EvConnect (host c) (port c) (timeout c) true;
                            EvWrap (wrap_args py3 opts)
                                   (WrapSSLError detached)])))).
  { rewrite (reinit_tls py3 c w opts s ds) by done.
    unfold try_except.
    rewrite (ssl_wrapper_handshake py3 c _ opts s)
      by (try done; by apply accepted_key_cert).
    rewrite Hhs. unfold logged. simpl. by rewrite <- !app_assoc. }
  split; [exact Hre|].
  intros -> rid payload. unfold bind. rewrite Hre.
  by rewrite send_detached, recv_detached.
Qed.

Lemma tls_handshake_error_is_swallowed_witness :
  reinit true (tls_client (WrapSSLError true))
  = (Return tt,
     State (with_sock (self (tls_client (WrapSSLError true)))
              (Some (if true
                     then detach (Socket [] [] [] true (WrapSSLError true) None)
                     else Socket [] [] [] true (WrapSSLError true) None)))
           (World [] (trace (net (tls_client (WrapSSLError true)))
                      ++ close_events (self (tls_client (WrapSSLError true)))
                      ++ [EvConnect "broker" 9093 (Some 120%Z) true;
                          EvWrap (wrap_args true
                                    {[ "security.protocol" := PStr "SSL";
                                       "ciphers" := PStr "HIGH" ]})
                                 (WrapSSLError true)]))).
Proof.
  apply (tls_handshake_error_is_swallowed true
           (self (tls_client (WrapSSLError true)))
           (net (tls_client (WrapSSLError true)))
           {[ "security.protocol" := PStr "SSL"; "ciphers" := PStr "HIGH" ]}
           (Socket [] [] [] true (WrapSSLError true) None) [] true).
  - reflexivity.
  - vm_compute. reflexivity.
  - vm_compute. reflexivity.
  - vm_compute. reflexivity.
  - vm_compute. reflexivity.
  - reflexivity.
  - reflexivity.
Defined.

(** X9. A TLS upgrade that succeeds replaces the socket by the wrapped one.
    The handshake is asked with the key file, the certificate file and the
    CA bundle of the options ([None] for those not set), with [CERT_NONE] as
    verification mode, and with the cipher list on Python 3 only.  Options
    with a key file and no certificate file never get that far: the call is
    refused with [ValueError], which leaves [reinit] after the dial, with the
    socket open and no handshake made. *)
Theorem tls_upgrade_wraps_with_options py3 c w opts s ds :
  sslopts c = Attr (Some opts) ->
  selects_tls opts = true ->
  keys_supported py3 opts = true ->
  has_key "cert_reqs" opts = false ->
  dials w = DialOk s :: ds ->
  (accepted (wrap_args py3 opts) = true ->
   handshake s = WrapOk ->
   reinit py3 (State c w)
   = (Return tt,
      State (with_sock c
               (Some (wrapped s
                        (TlsArgs (default PNone (opts !! "keyfile"))
                                 (default PNone (opts !! "certfile"))
                                 (default PNone (opts !! "ca_certs"))
                                 CERT_NONE
                                 (if py3
                                  then Some (default PNone (opts !! "ciphers"))
                                  else None)))))
            (World ds (trace w ++ close_events c
                       ++ [EvConnect (host c) (port c) (timeout c) true;
                           EvWrap (wrap_args py3 opts) WrapOk]))))
  /\ (pyval_truthy (default PNone (opts !! "keyfile")) = true ->
      pyval_truthy (default PNone (opts !! "certfile")) = false ->
      reinit py3 (State c w)
      = (Raise ValueError,
         State (with_sock c (Some s))
               (World ds (trace w ++ close_events c
                          ++ [EvConnect (host c) (port c) (timeout c)
                                        true])))).
Proof.
  intros Hopts Hsel Hall Hcr Hd.
  assert (Hl : forall k, lookup_or_none opts k = default PNone (opts !! k)).
  { intros k. unfold lookup_or_none, has_key. by destruct (opts !! k). }
  split.
  - intros Hacc Hhs.
    rewrite (reinit_tls py3 c w opts s ds) by done.
    unfold try_except.
    rewrite (ssl_wrapper_handshake py3 c _ opts s)
      by (try done; by apply accepted_key_cert).
    rewrite Hhs. unfold logged. simpl. rewrite <- !app_assoc.
    unfold wrap_args at 1. by rewrite !Hl.
  - intros Hkey Hcert.
    rewrite (reinit_tls py3 c w opts s ds) by done.
    unfold try_except.
    rewrite (ssl_wrapper_refused py3 c _ opts s); [done..|].
    unfold key_without_cert, wrap_args. simpl. by rewrite !Hl, Hkey, Hcert.
Qed.

Lemma tls_upgrade_wraps_with_options_witness :
  reinit true (tls_client WrapOk)
  = (Return tt,
     State (with_sock (self (tls_client WrapOk))
              (Some (wrapped (Socket [] [] [] true WrapOk None)
                       (TlsArgs (default PNone
                                   (({[ "security.protocol" := PStr "SSL";
                                        "ciphers" := PStr "HIGH" ]}
                                     : gmap string pyval) !! "keyfile"))
                                (default PNone
                                   (({[ "security.protocol" := PStr "SSL";
                                        "ciphers" := PStr "HIGH" ]}
                                     : gmap string pyval) !! "certfile"))
                                (default PNone
                                   (({[ "security.protocol" := PStr "SSL";
                                        "ciphers" := PStr "HIGH" ]}
                                     : gmap string pyval) !! "ca_certs"))
                                CERT_NONE
                                (if true
                                 then Some (default PNone
                                   (({[ "security.protocol" := PStr "SSL";
                                        "ciphers" := PStr "HIGH" ]}
                                     : gmap string pyval) !! "ciphers"))
                                 else None)))))
           (World [] (trace (net (tls_client WrapOk))
                      ++ close_events (self (tls_client WrapOk))
                      ++ [EvConnect "broker" 9093 (Some 120%Z) true;
                          EvWrap (wrap_args true
                                    {[ "security.protocol" := PStr "SSL";
                                       "ciphers" := PStr "HIGH" ]})
                                 WrapOk]))).
Proof.
  apply (proj1 (tls_upgrade_wraps_with_options true
                  (self (tls_client WrapOk)) (net (tls_client WrapOk))
                  {[ "security.protocol" := PStr "SSL";
                     "ciphers" := PStr "HIGH" ]}
                  (Socket [] [] [] true WrapOk None) []
                  eq_refl eq_refl eq_refl eq_refl eq_refl)).
  - vm_compute. reflexivity.
  - reflexivity.
Defined.

(** X10. A socket error of the TLS upgrade that is not an [ssl.SSLError] is
    a connection failure: the new socket is shut down and closed, and
    [reinit] raises [ConnectionError] with no socket held.  On a socket the
    handshake had detached the shutdown fails, and is passed over. *)
Theorem tls_socket_error_closes py3 c w opts s ds detached :
  sslopts c = Attr (Some opts) ->
  selects_tls opts = true ->
  keys_supported py3 opts = true ->
  has_key "cert_reqs" opts = false ->
  accepted (wrap_args py3 opts) = true ->
  dials w = DialOk s :: ds ->
  handshake s = WrapSocketError detached ->
  reinit py3 (State c w)
  = (Raise ConnectionError,
     State (with_sock c None)
           (World ds (trace w ++ close_events c
                      ++ [EvConnect (host c) (port c) (timeout c) true;
                          EvWrap (wrap_args py3 opts)
                                 (WrapSocketError detached);
                          EvShutdown (if detached then false
                                      else shutdown_ok s);
                          EvClose]))).
Proof.
  intros Hopts Hsel Hall Hcr Hacc Hd Hhs.
  rewrite (reinit_tls py3 c w opts s ds) by done.
  unfold try_except.
  rewrite (ssl_wrapper_handshake py3 c _ opts s)
    by (try done; by apply accepted_key_cert).
  rewrite Hhs. simpl. rewrite raise_connection_error_eq.
  unfold logged, close_events at 2. simpl.
  destruct detached; simpl; by rewrite <- !app_assoc.
Qed.

Lemma tls_socket_error_closes_witness :
  reinit true (tls_client (WrapSocketError true))
  = (Raise ConnectionError,
     State (with_sock (self (tls_client (WrapSocketError true))) None)
           (World [] (trace (net (tls_client (WrapSocketError true)))
                      ++ close_events
                           (self (tls_client (WrapSocketError true)))
                      ++ [EvConnect "broker" 9093 (Some 120%Z) true;
                          EvWrap (wrap_args true
                                    {[ "security.protocol" := PStr "SSL";
                                       "ciphers" := PStr "HIGH" ]})
                                 (WrapSocketError true);
                          EvShutdown (if true then false else true);
                          EvClose]))).
Proof.
  apply (tls_socket_error_closes true
           (self (tls_client (WrapSocketError true)))
           (net (tls_client (WrapSocketError true)))
           {[ "security.protocol" := PStr "SSL"; "ciphers" := PStr "HIGH" ]}
           (Socket [] [] [] true (WrapSocketError true) None) [] true).
  - reflexivity.
  - vm_compute. reflexivity.
  - vm_compute. reflexivity.
  - vm_compute. reflexivity.
  - vm_compute. reflexivity.
  - reflexivity.
  - reflexivity.
Defined.

(** X11. The protocol selector decides alone whether the options are looked
    at.  A selector that is a string other than ['SSL'] (in any case) gives
    a plain connection and the other keys are never checked; a selector that
    is not a string makes [reinit] stop on [AttributeError] after the dial,
    with the new socket left open. *)
Theorem protocol_selector_decides py3 c w opts v s ds :
  sslopts c = Attr (Some opts) ->
  opts !! "security.protocol" = Some v ->
  selects_tls opts = false ->
  dials w = DialOk s :: ds ->
  reinit py3 (State c w)
  = (if is_text v then Return tt else Raise AttributeError,
     State (with_sock c (Some s))
           (World ds (trace w ++ close_events c
                      ++ [EvConnect (host c) (port c) (timeout c) true]))).
Proof.
  intros Hopts Hv Hsel Hd. rewrite reinit_eq. simpl. rewrite Hd.
  assert (Htr : dict_truthy opts = true).
  { unfold dict_truthy. apply negb_true_iff, bool_decide_eq_false.
    intros Hnil. apply map_to_list_empty_iff in Hnil. subst.
    by rewrite lookup_empty in Hv. }
  unfold try_except, after_dial, get_sslopts, bind at 1 2. simpl.
  rewrite Hopts. simpl. rewrite Htr.
  unfold selects_tls in Hsel. unfold has_key, getitem. rewrite Hv in *. simpl.
  destruct v as [|t|z]; simpl; rewrite <- ?app_assoc; try done.
  unfold bind at 1 2. simpl. by rewrite Hsel.
Qed.

Lemma protocol_selector_decides_witness :
  reinit true
    (State (Conn "broker" 9092 None None
              (Attr (Some {[ "security.protocol" := PStr "plaintext";
                             "bogus" := PInt 1 ]})))
           (World [DialOk (fresh_socket [] [])] []))
  = (if is_text (PStr "plaintext") then Return tt else Raise AttributeError,
     State (with_sock
              (Conn "broker" 9092 None None
                 (Attr (Some {[ "security.protocol" := PStr "plaintext";
                                "bogus" := PInt 1 ]})))
              (Some (fresh_socket [] [])))
           (World [] ([] ++ [] ++ [EvConnect "broker" 9092 None true]))).
Proof.
  apply (protocol_selector_decides true
           (Conn "broker" 9092 None None
              (Attr (Some {[ "security.protocol" := PStr "plaintext";
                             "bogus" := PInt 1 ]})))
           (World [DialOk (fresh_socket [] [])] [])
           {[ "security.protocol" := PStr "plaintext"; "bogus" := PInt 1 ]}
           (PStr "plaintext") (fresh_socket [] []) []).
  - reflexivity.
  - vm_compute. reflexivity.
  - vm_compute. reflexivity.
  - reflexivity.
Defined.

(** * A stream that ends too early, on Python 2 *)

(** The peer sends fewer than the [n] bytes asked for and closes: the loop
    takes what there is, meets the empty read, closes the socket and raises
    [ConnectionError]. *)
Lemma read_loop_truncated_py2 c sn sh hs tl later fuel :
  forall n ks responses rxb w,
    length rxb < n -> length rxb < length ks -> length rxb < fuel ->
    exists evs,
      read_loop false fuel (Z.of_nat n) responses
        (State (with_sock c
                  (Some (Socket rxb (map Chunk ks ++ later) sn sh hs tl))) w)
      = (Raise ConnectionError,
         State (with_sock c None)
               (logged w (evs ++ [EvShutdown sh; EvClose])))
      /\ received evs = rxb.
Proof.
  induction fuel as [|fuel IH]; intros n ks rs rxb w Hn Hks Hfuel; [lia|].
  destruct ks as [|k ks]; simpl in Hks; [lia|].
  set (b := Z.min (Z.of_nat n) 4096).
  set (m := Nat.min (Z.to_nat b) (S k)).
  assert (Hm : 1 <= m <= n) by (unfold m, b; lia).
  destruct rxb as [|x rxb].
  - exists [EvRecv b []].
    erewrite read_loop_step_closed; cycle 1.
    + lia.
    + simpl. apply sock_recv_chunk. lia.
    + by rewrite take_nil.
    + fold b. rewrite take_nil, drop_nil. simpl.
      unfold close_events. simpl. by rewrite logged_logged.
  - assert (Hlen : 1 <= length (take m (x :: rxb)) <= m
                   /\ length (take m (x :: rxb)) <= length (x :: rxb)).
    { rewrite length_take. simpl. lia. }
    erewrite read_loop_step; cycle 1.
    + lia.
    + simpl. apply sock_recv_chunk. lia.
    + fold b m. unfold is_empty_str. simpl.
      apply bool_decide_eq_false. intros Hnil.
      rewrite Hnil in Hlen. simpl in Hlen. lia.
    + fold b m.
      replace (Z.of_nat n - Z.of_nat (length (take m (x :: rxb))))%Z
        with (Z.of_nat (n - length (take m (x :: rxb)))) by lia.
      assert (Hdrop : length (drop m (x :: rxb))
                      = length (x :: rxb) - length (take m (x :: rxb))).
      { rewrite length_drop, length_take. lia. }
      destruct (IH (n - length (take m (x :: rxb))) ks
                  (rs ++ [take m (x :: rxb)]) (drop m (x :: rxb))
                  (logged w [EvRecv b (take m (x :: rxb))]))
        as (evs & Heq & Hrecv).
      { rewrite Hdrop. lia. }
      { rewrite Hdrop. lia. }
      { rewrite Hdrop. lia. }
      exists (EvRecv b (take m (x :: rxb)) :: evs).
      rewrite Heq, logged_logged. split; [done|].
      cbn [received]. by rewrite Hrecv, take_drop.
Qed.

Lemma read_bytes_truncated_py2 c sn sh hs tl later n ks rxb w :
  length rxb < n -> length rxb < length ks ->
  exists evs,
    _read_bytes false (Z.of_nat n)
      (State (with_sock c
                (Some (Socket rxb (map Chunk ks ++ later) sn sh hs tl))) w)
    = (Raise ConnectionError,
       State (with_sock c None)
             (logged w (evs ++ [EvShutdown sh; EvClose])))
    /\ received evs = rxb.
Proof.
  intros Hn Hks.
  destruct (read_loop_truncated_py2 c sn sh hs tl later
              (S (length (map Chunk ks ++ later))) n ks [] rxb w)
    as (evs & Heq & Hrecv); [done..| |].
  { rewrite length_app, length_map. lia. }
  exists evs. split; [|done].
  rewrite read_bytes_live. cbn [recvs]. by rewrite Heq.
Qed.

(** X13. On Python 2, a peer that goes away in the middle of a frame makes
    [recv] fail cleanly: whether the stream ends inside the four prefix bytes
    or inside the payload they announce, [recv] takes the bytes there are,
    meets the empty read, shuts the socket down, closes it and raises
    [ConnectionError]; no partial payload is returned. *)
Theorem recv_truncated_frame_py2 rid c sn sh hs tl w ks later :
  (forall rxb,
     length rxb < 4 -> length rxb < length ks ->
     exists evs,
       recv false rid
         (State (with_sock c
                   (Some (Socket rxb (map Chunk ks ++ later) sn sh hs tl))) w)
       = (Raise ConnectionError,
          State (with_sock c None)
                (logged w (evs ++ [EvShutdown sh; EvClose])))
       /\ received evs = rxb)
  /\ (forall hdr body N,
        unpack_be_i32 hdr = Return N ->
        length body < Z.to_nat N ->
        4 + length body < length ks ->
        exists evs,
          recv false rid
            (State (with_sock c
                      (Some (Socket (hdr ++ body) (map Chunk ks ++ later)
                                    sn sh hs tl))) w)
          = (Raise ConnectionError,
             State (with_sock c None)
                   (logged w (evs ++ [EvShutdown sh; EvClose])))
          /\ received evs = hdr ++ body).
Proof.
  split.
  - intros rxb Hn Hks.
    destruct (read_bytes_truncated_py2 c sn sh hs tl later 4 ks rxb w Hn Hks)
      as (evs & Heq & Hrecv).
    exists evs. split; [|done].
    rewrite recv_eq. change 4%Z with (Z.of_nat 4). by rewrite Heq.
  - intros hdr body N Hhdr Hbody Hks.
    pose proof (unpack_length _ _ Hhdr) as Hlen.
    destruct (read_bytes_chunks false c sn sh hs tl later 4 ks (hdr ++ body) w)
      as (ks1 & evs1 & Heq1 & Hrecv1 & _ & Hk1).
    { rewrite length_app. lia. }
    { lia. }
    rewrite take_app_length' in Heq1, Hrecv1 by done.
    rewrite drop_app_length' in Heq1 by done.
    destruct (read_bytes_truncated_py2 c sn sh hs tl later (Z.to_nat N) ks1
                body (logged w evs1))
      as (evs2 & Heq2 & Hrecv2); [done|lia|].
    rewrite Z2Nat.id in Heq2 by lia.
    exists (evs1 ++ evs2). split.
    + rewrite recv_eq. change 4%Z with (Z.of_nat 4). rewrite Heq1, Hhdr, Heq2.
      by rewrite logged_logged, app_assoc.
    + by rewrite received_app, Hrecv1, Hrecv2.
Qed.

Lemma recv_truncated_frame_py2_witness :
  exists evs,
    recv false 9
      (State (with_sock (Conn "broker" 9092 None None (Attr None))
                (Some (Socket ([x00; x00; x00; x05] ++ [x68; x69])
                              (map Chunk [1; 1; 0; 3; 3; 3; 3] ++ [])
                              [] true WrapOk None)))
             (World [] []))
    = (Raise ConnectionError,
       State (with_sock (Conn "broker" 9092 None None (Attr None)) None)
             (logged (World [] []) (evs ++ [EvShutdown true; EvClose])))
    /\ received evs = [x00; x00; x00; x05] ++ [x68; x69].
Proof.
  apply (proj2 (recv_truncated_frame_py2 9
                  (Conn "broker" 9092 None None (Attr None)) [] true WrapOk
                  None (World [] []) [1; 1; 0; 3; 3; 3; 3] [])
           [x00; x00; x00; x05] [x68; x69] 5%Z).
  - reflexivity.
  - simpl. lia.
  - simpl. lia.
Defined.

(** * Further properties of [collect_hosts] *)

(** X15. Only the first two fields of a token count: whatever follows a
    second colon is dropped without any check, so a token [h:p:junk] gives
    the endpoint of [h:p] (an IPv6 literal is cut at its first colons). *)
Theorem collect_hosts_ignores_later_fields py3 rng pre post h p junk rnd :
  PyStr.contains ":" h = false ->
  PyStr.contains ":" p = false ->
  collect_hosts py3 rng
    (HostsSeq (pre ++ (h ++ ":" ++ p ++ ":" ++ junk)%string :: post)) rnd
  = collect_hosts py3 rng (HostsSeq (pre ++ (h ++ ":" ++ p)%string :: post)) rnd.
Proof.
  intros Hh Hp. unfold collect_hosts.
  rewrite (collect_loop_ext py3 _
             (pre ++ (h ++ ":" ++ p)%string :: post)); [done|].
  rewrite !map_app. simpl. do 2 f_equal.
  unfold host_port_pair.
  change (":" ++ p ++ ":" ++ junk)%string
    with (String ":" (p ++ String ":" junk))%string.
  change (":" ++ p)%string with (String ":" p).
  rewrite !(split_app ":" h) by done.
  by rewrite (split_app ":" p), (split_no_sep ":" p) by done.
Qed.

Lemma collect_hosts_ignores_later_fields_witness :
  collect_hosts true []
    (HostsSeq (["a:1"] ++ ("fe80" ++ ":" ++ "0" ++ ":" ++ ":1:9092")%string
               :: ["b"])) false
  = collect_hosts true []
      (HostsSeq (["a:1"] ++ ("fe80" ++ ":" ++ "0")%string :: ["b"])) false.
Proof.
  apply (collect_hosts_ignores_later_fields true [] ["a:1"] ["b"] "fe80" "0"
           ":1:9092" false).
  - reflexivity.
  - reflexivity.
Defined.

(** X16. Empty input.  A string that is empty or all blanks does not give an
    empty list and raises nothing: it gives the single endpoint with the
    empty host name and the port 9092.  An empty sequence gives the empty
    list. *)
Theorem collect_hosts_blank_input py3 rng rnd :
  (forall s,
     PyStr.strip py3 s = "" ->
     collect_hosts py3 rng (HostsStr s) rnd = Return [("", 9092%Z)])
  /\ collect_hosts py3 rng (HostsSeq []) rnd = Return [].
Proof.
  split.
  - intros s Hs. unfold collect_hosts. rewrite Hs. simpl.
    unfold host_port_pair. simpl.
    assert (Hempty : PyStr.strip py3 "" = "") by done.
    rewrite Hempty. by destruct rnd.
  - by destruct rnd.
Qed.

Lemma collect_hosts_blank_input_witness :
  collect_hosts true [3] (HostsStr "   ") true = Return [("", 9092%Z)].
Proof.
  apply (proj1 (collect_hosts_blank_input true [3] true) "   ").
  reflexivity.
Defined.

Lemma collect_hosts_randomized_witness :
  exists plain,
    collect_hosts true [1; 0] (HostsStr "a,b:2,c") false = Return plain
    /\ [("c", 9092%Z); ("a", 9092%Z); ("b", 2%Z)] ≡ₚ plain.
Proof.
  apply (collect_hosts_randomized true [1; 0] (HostsStr "a,b:2,c")
           [("c", 9092%Z); ("a", 9092%Z); ("b", 2%Z)]).
  vm_compute. reflexivity.
Defined.

Lemma recv_never_short_witness :
  exists resp st1,
    _read_bytes true 4
      (reading_client [x00; x00; x00; x02; x68; x69] [Chunk 0; Chunk 9; Chunk 9])
    = (Return resp, st1)
    /\ unpack_be_i32 resp = Return (Z.of_nat (length [x68; x69])).
Proof.
  apply (recv_never_short true 7
           (reading_client [x00; x00; x00; x02; x68; x69]
              [Chunk 0; Chunk 9; Chunk 9])
           [x68; x69]
           (recv true 7
              (reading_client [x00; x00; x00; x02; x68; x69]
                 [Chunk 0; Chunk 9; Chunk 9])).2).
  vm_compute. reflexivity.
Defined.

Lemma recv_frame_witness :
  exists st,
    recv false 7
      (State (with_sock (Conn "broker" 9092 None None (Attr None))
                (Some (Socket (frame [x68; x69] ++ [x21])
                              (map Chunk [0; 0; 0; 0; 0; 0] ++ [RecvFails])
                              [] true WrapOk None)))
             (World [] []))
    = (Return [x68; x69], st)
    /\ rx <$> _sock (self st) = Some [x21].
Proof.
  apply (recv_frame false 7 (Conn "broker" 9092 None None (Attr None)) []
           true WrapOk None (World [] []) [x68; x69] [x21]
           [0; 0; 0; 0; 0; 0] [RecvFails]).
  - reflexivity.
  - simpl. lia.
Defined.

(** * A socket error in the middle of a read *)

(** The socket fails before its reads can have handed over the [n] bytes
    asked for: on either interpreter the loop ends in [ConnectionError] and
    the object holds no socket. *)
Lemma read_loop_socket_error py3 c sn sh hs tl later ks :
  forall fuel n responses rxb w,
    capacity ks < n -> length ks < fuel ->
    exists evs,
      read_loop py3 fuel (Z.of_nat n) responses
        (State (with_sock c
                  (Some (Socket rxb (map Chunk ks ++ RecvFails :: later)
                                sn sh hs tl))) w)
      = (Raise ConnectionError,
         State (with_sock c None)
               (logged w (evs ++ [EvShutdown sh; EvClose]))).
Proof.
  induction ks as [|k ks IH]; intros fuel n rs rxb w Hcap Hfuel;
    (destruct fuel as [|fuel]; [simpl in Hfuel; lia|]).
  - exists [EvRecvError].
    erewrite read_loop_step_error; cycle 1.
    + lia.
    + unfold sock_recv, bind. simpl.
      destruct (Z.ltb_spec (Z.min (Z.of_nat n) 4096) 0); [lia|]. reflexivity.
    + done.
    + simpl. unfold close_events. simpl. by rewrite logged_logged.
  - unfold capacity in Hcap. simpl in Hcap. fold (capacity ks) in Hcap.
    simpl in Hfuel.
    set (b := Z.min (Z.of_nat n) 4096).
    set (m := Nat.min (Z.to_nat b) (S k)).
    assert (Hlen : length (take m rxb) <= S k).
    { rewrite length_take. unfold m. lia. }
    destruct (is_empty_str py3 (take m rxb)) eqn:He.
    + exists [EvRecv b (take m rxb)].
      erewrite read_loop_step_closed; cycle 1.
      * lia.
      * simpl. apply sock_recv_chunk. lia.
      * done.
      * simpl. unfold close_events. simpl. by rewrite logged_logged.
    + erewrite read_loop_step; cycle 1.
      * lia.
      * simpl. apply sock_recv_chunk. lia.
      * done.
      * fold b m.
        replace (Z.of_nat n - Z.of_nat (length (take m rxb)))%Z
          with (Z.of_nat (n - length (take m rxb))) by lia.
        destruct (IH fuel (n - length (take m rxb)) (rs ++ [take m rxb])
                    (drop m rxb) (logged w [EvRecv b (take m rxb)]))
          as (evs & Heq); [lia..|].
        exists (EvRecv b (take m rxb) :: evs).
        by rewrite Heq, logged_logged.
Qed.

(** X20. A socket error (a timeout, a reset) that comes before the bytes
    asked for have arrived ends the read in [ConnectionError], on either
    interpreter, with the socket shut down and closed: so for [_read_bytes],
    and so for [recv] when the error comes while it waits for the four prefix
    bytes. *)
Theorem socket_error_during_read_is_connection_error py3 c sn sh hs tl w ks
    later rxb :
  (forall n,
     capacity ks < n ->
     exists evs,
       _read_bytes py3 (Z.of_nat n)
         (State (with_sock c
                   (Some (Socket rxb (map Chunk ks ++ RecvFails :: later)
                                 sn sh hs tl))) w)
       = (Raise ConnectionError,
          State (with_sock c None)
                (logged w (evs ++ [EvShutdown sh; EvClose]))))
  /\ (forall rid,
        capacity ks < 4 ->
        exists evs,
          recv py3 rid
            (State (with_sock c
                      (Some (Socket rxb (map Chunk ks ++ RecvFails :: later)
                                    sn sh hs tl))) w)
          = (Raise ConnectionError,
             State (with_sock c None)
                   (logged w (evs ++ [EvShutdown sh; EvClose])))).
Proof.
  assert (Hread : forall n,
    capacity ks < n ->
    exists evs,
      _read_bytes py3 (Z.of_nat n)
        (State (with_sock c
                  (Some (Socket rxb (map Chunk ks ++ RecvFails :: later)
                                sn sh hs tl))) w)
      = (Raise ConnectionError,
         State (with_sock c None)
               (logged w (evs ++ [EvShutdown sh; EvClose])))).
  { intros n Hcap.
    destruct (read_loop_socket_error py3 c sn sh hs tl later ks
                (S (length (map Chunk ks ++ RecvFails :: later))) n [] rxb w)
      as (evs & Heq); [done| |].
    { rewrite length_app, length_map. lia. }
    exists evs. rewrite read_bytes_live. cbn [recvs]. by rewrite Heq. }
  split; [exact Hread|].
  intros rid Hcap. destruct (Hread 4 Hcap) as (evs & Heq).
  exists evs. rewrite recv_eq. change 4%Z with (Z.of_nat 4). by rewrite Heq.
Qed.

Lemma socket_error_during_read_is_connection_error_witness :
  exists evs,
    recv true 4
      (State (with_sock (Conn "broker" 9092 None None (Attr None))
                (Some (Socket [x00; x00; x00]
                              (map Chunk [0; 1] ++ RecvFails :: [])
                              [] false WrapOk None)))
             (World [] []))
    = (Raise ConnectionError,
       State (with_sock (Conn "broker" 9092 None None (Attr None)) None)
             (logged (World [] []) (evs ++ [EvShutdown false; EvClose]))).
Proof.
  apply (proj2 (socket_error_during_read_is_connection_error true
                  (Conn "broker" 9092 None None (Attr None)) [] false WrapOk
                  None (World [] []) [0; 1] [] [x00; x00; x00]) 4%Z).
  vm_compute. lia.
Defined.
